(** * Conversational scheduling engine (ai_service.py, models.py)

    A shallow embedding of [ChatbotService]: the dialogue state machine
    [processar_mensagem] with its per-state handlers, the slot generation
    [_gerar_horarios_disponiveis] and the choice interpreter
    [_interpretar_escolha_horario], over an in-memory image of the SQLite
    tables the handlers read and write.

    Modelling conventions.
    - A Python [str] is a [string]: the bytes of its UTF-8 encoding, so that
      [a in b] is byte-wise containment.  The regular-expression class \d,
      [int] and [str.isalnum] are read on ASCII text, where they see the digits
      0 to 9 and the unaccented letters only; Python also takes the decimal
      digits and the letters of other scripts, so the properties that depend on
      them are stated for messages that are ASCII ([isascii]).  [str.lower]
      and [str.strip] are the Python built-ins; they are section variables, so
      every theorem holds for the real ones.
    - The rows of the tables hold their dates and times as texts, as every
      INSERT of the service writes them.
    - A [date] is its proleptic Gregorian ordinal ([date.toordinal]), a time of
      day is a number of minutes since midnight, an instant of the clock is a
      number of microseconds since midnight of ordinal 0.
    - The draft of a conversation (the JSON dictionary behind
      [Conversa.get_dados]/[set_dados]) is a [gmap string JVal].
    - Handlers run in a state-and-exception monad over the conversation and
      the database; an exception keeps the mutations made before it, as the
      Python objects do.
    - The text of a reply is kept for the literal messages and named by a
      short tag for the f-strings; interpolated values are left out. *)

From Stdlib Require Import ZArith Lia Bool List String Ascii DecimalString.
From stdpp Require Import base option list gmap strings sorting.

Local Open Scope string_scope.
Local Open Scope Z_scope.

(** ** Strings *)

(** [p in s] of Python. *)
Fixpoint comeca_com (p s : string) : bool :=
  match p with
  | EmptyString => true
  | String a p' =>
      match s with
      | EmptyString => false
      | String b s' => Ascii.eqb a b && comeca_com p' s'
      end
  end.

Fixpoint ocorre_em (p s : string) : bool :=
  comeca_com p s ||
  match s with
  | EmptyString => false
  | String _ s' => ocorre_em p s'
  end.

(** [any(palavra in texto for palavra in palavras)]. *)
Definition alguma_em (palavras : list string) (texto : string) : bool :=
  existsb (fun palavra => ocorre_em palavra texto) palavras.

Definition eh_digito (c : ascii) : bool :=
  (48 <=? Z.of_nat (nat_of_ascii c)) && (Z.of_nat (nat_of_ascii c) <=? 57).

Definition valor_digito (c : ascii) : Z := Z.of_nat (nat_of_ascii c) - 48.

(** [s.isascii()]: every byte of the UTF-8 text is below 128. *)
Definition isascii (s : string) : bool :=
  forallb (fun c => Nat.ltb (nat_of_ascii c) 128) (list_ascii_of_string s).

(** [re.findall(r'\d', s)] joined, on ASCII text. *)
Fixpoint so_digitos (s : string) : string :=
  match s with
  | EmptyString => EmptyString
  | String c s' => if eh_digito c then String c (so_digitos s') else so_digitos s'
  end.

(** Decimal rendering, [f"{n}"] and [f"{n:02d}"] for [0 <= n]. *)
Definition decimal (n : Z) : string := NilZero.string_of_uint (N.to_uint (Z.to_N n)).

Definition dois_digitos (n : Z) : string :=
  if n <? 10 then "0" ++ decimal n else decimal n.

Definition quatro_digitos (n : Z) : string :=
  if n <? 10 then "000" ++ decimal n
  else if n <? 100 then "00" ++ decimal n
  else if n <? 1000 then "0" ++ decimal n
  else decimal n.

(** ** Dates *)

(** [date.weekday()]: Monday is 0, Sunday is 6. *)
Definition weekday (d : Z) : Z := (d + 6) mod 7.

Definition bissexto (ano : Z) : bool :=
  (ano mod 4 =? 0) && (negb (ano mod 100 =? 0) || (ano mod 400 =? 0)).

Definition dias_no_mes (ano mes : Z) : Z :=
  if mes =? 2 then (if bissexto ano then 29 else 28)
  else if (mes =? 4) || (mes =? 6) || (mes =? 9) || (mes =? 11) then 30
  else 31.

(** Month and day of the [n]-th day (from 0) of year [ano]. *)
Fixpoint mes_e_dia (meses : nat) (ano mes n : Z) : Z * Z :=
  match meses with
  | O => (mes, n + 1)
  | S k =>
      if n <? dias_no_mes ano mes then (mes, n + 1)
      else mes_e_dia k ano (mes + 1) (n - dias_no_mes ano mes)
  end.

(** The calendar triple of an ordinal, by the cycle decomposition the
    [datetime] module uses (400, 100, 4 and 1 years). *)
Definition ord2ymd (o : Z) : Z * Z * Z :=
  let n := o - 1 in
  let n400 := n / 146097 in
  let n := n mod 146097 in
  let n100 := n / 36524 in
  let n := n mod 36524 in
  let n4 := n / 1461 in
  let n := n mod 1461 in
  let n1 := n / 365 in
  let n := n mod 365 in
  let ano := n400 * 400 + 1 + n100 * 100 + n4 * 4 + n1 in
  if (n1 =? 4) || (n100 =? 4) then (ano - 1, 12, 31)
  else let '(mes, dia) := mes_e_dia 11 ano 1 n in (ano, mes, dia).

(** [d.strftime('%Y-%m-%d')] and [d.strftime('%d/%m/%Y')]. *)
Definition strftime_Ymd (d : Z) : string :=
  let '(ano, mes, dia) := ord2ymd d in
  quatro_digitos ano ++ "-" ++ dois_digitos mes ++ "-" ++ dois_digitos dia.

Definition strftime_dmY (d : Z) : string :=
  let '(ano, mes, dia) := ord2ymd d in
  dois_digitos dia ++ "/" ++ dois_digitos mes ++ "/" ++ quatro_digitos ano.

(** [t.strftime('%H:%M')] for a time of [m] minutes since midnight. *)
Definition strftime_HM (m : Z) : string :=
  dois_digitos (m / 60) ++ ":" ++ dois_digitos (m mod 60).

(** [s[:n]]. *)
Fixpoint prefixo (n : nat) (s : string) : string :=
  match n, s with
  | S k, String c s' => String c (prefixo k s')
  | _, _ => EmptyString
  end.
Arguments prefixo : simpl never.

Definition micros_por_minuto : Z := 60000000.
Definition micros_por_dia : Z := 1440 * micros_por_minuto.

(** [datetime.combine(d, t)] on the clock's scale. *)
Definition instante (d minuto : Z) : Z := (d * 1440 + minuto) * micros_por_minuto.

(** ** The tables (database.py, models.py) *)

Module Paciente.
Record t := mk {
  id : Z;
  cpf : string;
  nome : string;
  data_nascimento : option string;
  telefone : string;
  email : option string;
  carteirinha : option string;
  tipo_atendimento : string
}.
End Paciente.

Module Local.
Record t := mk {
  id : Z;
  nome : string;
  cidade : option string;
  ativo : bool
}.
End Local.

Module Especialidade.
Record t := mk {
  id : Z;
  nome : string;
  ativo : bool;
  requer_anexo : bool
}.
End Especialidade.

Module Medico.
(** [data_abertura_agenda] is the parsed column: [None] stands for NULL, the
    empty text and a text [strptime] rejects, which [agenda_aberta] treats
    alike. *)
Record t := mk {
  id : Z;
  nome : string;
  crm : option string;
  especialidade_id : Z;
  ativo : bool;
  data_abertura_agenda : option Z
}.

Definition agenda_aberta (self : t) (data_consulta : Z) : bool :=
  match data_abertura_agenda self with
  | None => true
  | Some data_abertura => data_abertura <=? data_consulta
  end.
End Medico.

Module HorarioDisponivel.
(** [hora_inicio] and [hora_fim] are the columns read through
    [strptime(_, '%H:%M')], in minutes since midnight; [None] is a text
    that makes [strptime] raise ValueError. *)
Record t := mk {
  id : Z;
  medico_id : Z;
  local_id : Z;
  dia_semana : Z;
  hora_inicio : option Z;
  hora_fim : option Z;
  duracao_consulta : option Z;
  ativo : bool
}.
End HorarioDisponivel.

Module Agendamento.
Record t := mk {
  id : Z;
  paciente_id : Z;
  medico_id : Z;
  especialidade_id : Z;
  local_id : Z;
  data : string;
  hora : string;
  observacoes : option string;
  status : string;
  anexo_nome : option string;
  anexo_path : option string;
  motivo_cancelamento : option string
}.
End Agendamento.

Record Banco := mkBanco {
  pacientes : list Paciente.t;
  locais : list Local.t;
  especialidades : list Especialidade.t;
  medicos : list Medico.t;
  horarios_disponiveis : list HorarioDisponivel.t;
  agendamentos : list Agendamento.t;
  seq_pacientes : Z;
  seq_agendamentos : Z
}.

(** [cls.find_by_id]: the first row with the id. *)
Definition Medico_find_by_id (db : Banco) (i : Z) : option Medico.t :=
  find (fun m => Medico.id m =? i) (medicos db).

Definition Especialidade_find_by_id (db : Banco) (i : Z) : option Especialidade.t :=
  find (fun e => Especialidade.id e =? i) (especialidades db).

Definition Local_find_by_id (db : Banco) (i : Z) : option Local.t :=
  find (fun l => Local.id l =? i) (locais db).

Definition Paciente_find_by_id (db : Banco) (i : Z) : option Paciente.t :=
  find (fun p => Paciente.id p =? i) (pacientes db).

Definition Agendamento_find_by_id (db : Banco) (i : Z) : option Agendamento.t :=
  find (fun a => Agendamento.id a =? i) (agendamentos db).

Definition Paciente_find_by_cpf (db : Banco) (cpf : string) : option Paciente.t :=
  find (fun p => String.eqb (Paciente.cpf p) cpf) (pacientes db).

Definition Local_find_active (db : Banco) : list Local.t :=
  filter (fun l => Local.ativo l = true) (locais db).

Definition Medico_find_active (db : Banco) : list Medico.t :=
  filter (fun m => Medico.ativo m = true) (medicos db).

Definition Especialidade_find_active (db : Banco) : list Especialidade.t :=
  filter (fun e => Especialidade.ativo e = true) (especialidades db).

(** A row of [SELECT m.*, h.* FROM medicos m JOIN horarios_disponiveis h ...]:
    [row_id] is the first column called id, the doctor's. *)
Record Row := mkRow {
  row_id : Z;
  row_nome : string;
  row_crm : option string;
  row_medico_id : Z;
  row_local_id : Z;
  row_dia_semana : Z;
  row_hora_inicio : option Z;
  row_hora_fim : option Z;
  row_duracao_consulta : option Z
}.

Definition juntar (m : Medico.t) (h : HorarioDisponivel.t) : Row :=
  {| row_id := Medico.id m;
     row_nome := Medico.nome m;
     row_crm := Medico.crm m;
     row_medico_id := HorarioDisponivel.medico_id h;
     row_local_id := HorarioDisponivel.local_id h;
     row_dia_semana := HorarioDisponivel.dia_semana h;
     row_hora_inicio := HorarioDisponivel.hora_inicio h;
     row_hora_fim := HorarioDisponivel.hora_fim h;
     row_duracao_consulta := HorarioDisponivel.duracao_consulta h |}.

(** The query of [_processar_horarios], as a nested loop over the two tables.
    The query has no ORDER BY: the order of the rows is the query planner's,
    and the properties of the generated lists are proved for every list of
    rows. *)
Definition consulta_medicos_horarios (db : Banco) (especialidade_id local_id : Z) : list Row :=
  flat_map (fun m =>
    if (Medico.especialidade_id m =? especialidade_id) && Medico.ativo m then
      flat_map (fun h =>
        if (HorarioDisponivel.medico_id h =? Medico.id m)
           && (HorarioDisponivel.local_id h =? local_id)
           && HorarioDisponivel.ativo h
        then [juntar m h] else [])
        (horarios_disponiveis db)
    else [])
    (medicos db).

(** ** Candidate slots *)

(** The dictionary [horario_info].  [h_dia] and [h_minuto] are the date and
    the time the keys 'data', 'hora', 'data_formatada' and 'hora_formatada'
    are rendered from. *)
Record Horario := mkHorario {
  h_medico_id : Z;
  h_medico_nome : string;
  h_especialidade : string;
  h_crm : option string;
  h_local_id : Z;
  h_local_nome : string;
  h_dia : Z;
  h_minuto : Z;
  h_dia_semana : string;
  h_duracao : Z;
  h_timestamp : Z
}.

Definition h_data (h : Horario) : string := strftime_Ymd (h_dia h).
Definition h_hora (h : Horario) : string := strftime_HM (h_minuto h).
Definition h_data_formatada (h : Horario) : string := strftime_dmY (h_dia h).
Definition h_hora_formatada (h : Horario) : string := strftime_HM (h_minuto h).

Definition nomes_dias : list string :=
  ["Segunda"; "Terça"; "Quarta"; "Quinta"; "Sexta"; "Sábado"; "Domingo"].

(** The COUNT( * ) query of the availability checks. *)
Definition ocupa (medico_id : Z) (data hora : string) (a : Agendamento.t) : bool :=
  (Agendamento.medico_id a =? medico_id)
  && String.eqb (Agendamento.data a) data
  && String.eqb (Agendamento.hora a) hora
  && String.eqb (Agendamento.status a) "agendado".

Definition contar_agendados (db : Banco) (medico_id : Z) (data hora : string) : Z :=
  Z.of_nat (length (List.filter (ocupa medico_id data hora) (agendamentos db))).

(** The bare [except] of the source answers True when the query itself
    fails; the in-memory tables always answer. *)
Definition _verificar_disponibilidade_slot_simples
    (db : Banco) (medico_id data minuto : Z) : bool :=
  negb (0 <? contar_agendados db medico_id (strftime_Ymd data) (strftime_HM minuto)).

Definition _obter_nome_local (db : Banco) (local_id : Z) : string :=
  match Local_find_by_id db local_id with
  | Some l => Local.nome l
  | None => "Local não encontrado"
  end.

(** The 'especialidade' entry of [_obter_dados_medico], when the joined row
    exists. *)
Definition _obter_dados_medico (db : Banco) (medico_id : Z) : option string :=
  match Medico_find_by_id db medico_id with
  | Some m =>
      match Especialidade_find_by_id db (Medico.especialidade_id m) with
      | Some e => Some (Especialidade.nome e)
      | None => None
      end
  | None => None
  end.

(** [duracao_consulta]: the row's value when present, non-zero and at least
    5, else 30. *)
Definition duracao_da_row (row : Row) : Z :=
  match row_duracao_consulta row with
  | Some d => if d =? 0 then 30 else if d <? 5 then 30 else d
  | None => 30
  end.

(** ['medico_id' in row] on a [sqlite3.Row] looks among the values of the
    row; both branches name the same doctor under the join. *)
Definition medico_da_row (row : Row) : Z :=
  if String.eqb (row_nome row) "medico_id"
     || match row_crm row with Some c => String.eqb c "medico_id" | None => false end
  then row_medico_id row else row_id row.

(** Sort key of [sort_key]: (0, timestamp) on a Thursday, (1, timestamp)
    otherwise; the date is read back from the key 'data'. *)
Definition sort_key (h : Horario) : Z * Z :=
  if weekday (h_dia h) =? 3 then (0, h_timestamp h) else (1, h_timestamp h).

(** Order of Python tuples. *)
Definition chave_menor_igual (a b : Z * Z) : bool :=
  (fst a <? fst b) || ((fst a =? fst b) && (snd a <=? snd b)).

(** [sorted(_, key=sort_key)]: a stable sort. *)
Fixpoint inserir (x : Horario) (l : list Horario) : list Horario :=
  match l with
  | [] => [x]
  | y :: l' =>
      if chave_menor_igual (sort_key x) (sort_key y) then x :: y :: l'
      else y :: inserir x l'
  end.

Definition sorted (l : list Horario) : list Horario := foldr inserir [] l.

Section Geracao.

(** [mktime] is [datetime.timestamp()] of the host's time zone, on a local
    time counted in minutes; [hoje] is [date.today()], [agora] is
    [datetime.now()]. *)
Variable mktime : Z -> Z.
Variable hoje : Z.
Variable agora : Z.
Variable db : Banco.

Definition horario_info (row : Row) (medico_id data_atual dia_semana duracao slot : Z) : Horario :=
  {| h_medico_id := medico_id;
     h_medico_nome := row_nome row;
     h_especialidade := default "Especialidade" (_obter_dados_medico db medico_id);
     h_crm := row_crm row;
     h_local_id := row_local_id row;
     h_local_nome := _obter_nome_local db (row_local_id row);
     h_dia := data_atual;
     h_minuto := slot;
     h_dia_semana := nth (Z.to_nat dia_semana) nomes_dias "N/A";
     h_duracao := duracao;
     h_timestamp := mktime (data_atual * 1440 + slot) |}.

(** The [while slot_datetime < fim_datetime] loop; [slot] and [fim] are
    minutes of [data_atual].  The fuel bounds the number of turns. *)
Fixpoint laco_slots (fuel : nat) (row : Row) (medico_id data_atual dia_semana duracao fim slot : Z)
    (horarios : list Horario) : list Horario :=
  match fuel with
  | O => horarios
  | S fuel' =>
      if slot <? fim then
        if 5 <=? Z.of_nat (length horarios) then horarios
        else if (data_atual =? hoje)
                && (instante data_atual slot <=? agora + 60 * micros_por_minuto)
        then laco_slots fuel' row medico_id data_atual dia_semana duracao fim
               (slot + duracao) horarios
        else if _verificar_disponibilidade_slot_simples db medico_id data_atual slot
        then laco_slots fuel' row medico_id data_atual dia_semana duracao fim
               (slot + duracao)
               (horarios ++ [horario_info row medico_id data_atual dia_semana duracao slot])
        else laco_slots fuel' row medico_id data_atual dia_semana duracao fim
               (slot + duracao) horarios
      else horarios
  end.

(** One row that works on [data_atual]: its slots, then the [break] on five
    entries or the rest of the rows.  [None] is an exception ([strptime]). *)
Definition corpo_da_row (row : Row) (medico_id data_atual dia_semana : Z)
    (horarios : list Horario)
    (resto : list Horario -> option (list Horario)) : option (list Horario) :=
  match row_hora_inicio row, row_hora_fim row with
  | Some hora_inicio, Some hora_fim =>
      let duracao := duracao_da_row row in
      let horarios' :=
        laco_slots (Z.to_nat (hora_fim - hora_inicio)) row medico_id data_atual
          dia_semana duracao hora_fim hora_inicio horarios in
      if 5 <=? Z.of_nat (length horarios') then Some horarios'
      else resto horarios'
  | _, _ => None
  end.

(** The [for row in rows] loop. *)
Fixpoint laco_rows (rows : list Row) (data_atual dia_semana : Z)
    (horarios : list Horario) : option (list Horario) :=
  match rows with
  | [] => Some horarios
  | row :: rows' =>
      if negb (row_dia_semana row =? dia_semana) then
        laco_rows rows' data_atual dia_semana horarios
      else
        let medico_id := medico_da_row row in
        match Medico_find_by_id db medico_id with
        | Some medico =>
            if negb (Medico.agenda_aberta medico data_atual)
            then laco_rows rows' data_atual dia_semana horarios
            else corpo_da_row row medico_id data_atual dia_semana horarios
                   (laco_rows rows' data_atual dia_semana)
        | None =>
            corpo_da_row row medico_id data_atual dia_semana horarios
              (laco_rows rows' data_atual dia_semana)
        end
  end.

(** The [for dia in range(50)] loop. *)
Fixpoint laco_dias (dias : list Z) (rows : list Row)
    (horarios : list Horario) : option (list Horario) :=
  match dias with
  | [] => Some horarios
  | dia :: dias' =>
      let data_atual := hoje + dia in
      let dia_semana := weekday data_atual in
      if 5 <=? dia_semana then laco_dias dias' rows horarios
      else
        match laco_rows rows data_atual dia_semana horarios with
        | None => None
        | Some horarios' =>
            if 5 <=? Z.of_nat (length horarios') then Some horarios'
            else laco_dias dias' rows horarios'
        end
  end.

Definition range (n : nat) : list Z := map Z.of_nat (seq 0 n).

Definition _gerar_horarios_disponiveis (rows : list Row) : list Horario :=
  match laco_dias (range 50) rows [] with
  | Some horarios => take 5 (sorted horarios)
  | None => []
  end.

End Geracao.

(** ** Regular expressions of the service *)

Fixpoint valor_decimal (acc : Z) (s : string) : Z :=
  match s with
  | EmptyString => acc
  | String c s' => valor_decimal (acc * 10 + valor_digito c) s'
  end.

(** The longest run of digits at the start of [s], and what follows. *)
Fixpoint digitos_iniciais (s : string) : string * string :=
  match s with
  | EmptyString => (EmptyString, EmptyString)
  | String c s' =>
      if eh_digito c then
        let '(ds, r) := digitos_iniciais s' in (String c ds, r)
      else (EmptyString, s)
  end.

(** [re.match(r'^(\d+)$', s)] on ASCII text, giving [int(group(1))]; [$] also matches
    before a final newline. *)
Definition numero_match (s : string) : option Z :=
  let '(ds, r) := digitos_iniciais s in
  if String.eqb ds "" then None
  else if String.eqb r "" || String.eqb r (String (ascii_of_nat 10) "")
  then Some (valor_decimal 0 ds)
  else None.

(** Exactly [n] digits at the start of [s]. *)
Fixpoint toma_digitos (n : nat) (acc : Z) (s : string) : option (Z * string) :=
  match n with
  | O => Some (acc, s)
  | S k =>
      match s with
      | String c s' =>
          if eh_digito c then toma_digitos k (acc * 10 + valor_digito c) s' else None
      | EmptyString => None
      end
  end.

(** [(\d{1,2})] followed by [k]: greedy, two digits first, then one. *)
Definition um_ou_dois {A} (s : string) (k : Z -> string -> option A) : option A :=
  match (match toma_digitos 2 0 s with Some (v, r) => k v r | None => None end) with
  | Some a => Some a
  | None => match toma_digitos 1 0 s with Some (v, r) => k v r | None => None end
  end.

Fixpoint sem_prefixo (n : nat) (s : string) : string :=
  match n, s with
  | S k, String _ s' => sem_prefixo k s'
  | _, _ => s
  end.

Definition literal {A} (p s : string) (k : string -> option A) : option A :=
  if comeca_com p s then k (sem_prefixo (String.length p) s) else None.

(** [re.search]: the leftmost position where [casa] matches. *)
Fixpoint re_search {A} (casa : string -> option A) (s : string) : option A :=
  match casa s with
  | Some a => Some a
  | None =>
      match s with
      | EmptyString => None
      | String _ s' => re_search casa s'
      end
  end.

(** [(\d{1,2})/(\d{1,2})] and its variants with [-] and [.]. *)
Definition casa_data (sep s : string) : option (Z * Z) :=
  um_ou_dois s (fun dia r =>
    literal sep r (fun r' =>
      um_ou_dois r' (fun mes _ => Some (dia, mes)))).

(** [(\d{1,2}):(\d{2})]. *)
Definition casa_hora_dois_pontos (s : string) : option (Z * Z) :=
  um_ou_dois s (fun hora r =>
    literal ":" r (fun r' =>
      match toma_digitos 2 0 r' with
      | Some (minutos, _) => Some (hora, minutos)
      | None => None
      end)).

(** [(\d{1,2})h(\d{2})?]; an absent second group counts as 0 minutes. *)
Definition casa_hora_h (s : string) : option (Z * Z) :=
  um_ou_dois s (fun hora r =>
    literal "h" r (fun r' =>
      match toma_digitos 2 0 r' with
      | Some (minutos, _) => Some (hora, minutos)
      | None => Some (hora, 0)
      end)).

(** [(\d{1,2}) horas?]. *)
Definition casa_hora_horas (s : string) : option (Z * Z) :=
  um_ou_dois s (fun hora r =>
    literal " hora" r (fun _ => Some (hora, 0))).

(** The first pattern of the list that is found in [s]. *)
Fixpoint primeiro_padrao {A} (padroes : list (string -> option A)) (s : string) : option A :=
  match padroes with
  | [] => None
  | casa :: padroes' =>
      match re_search casa s with
      | Some a => Some a
      | None => primeiro_padrao padroes' s
      end
  end.

Definition buscar_data (mensagem : string) : option (Z * Z) :=
  primeiro_padrao [casa_data "/"; casa_data "-"; casa_data "."] mensagem.

Definition buscar_hora (mensagem : string) : option (Z * Z) :=
  primeiro_padrao [casa_hora_dois_pontos; casa_hora_h; casa_hora_horas] mensagem.

(** [_extrair_cpf] and [_extrair_telefone]. *)
Definition _extrair_cpf (mensagem : string) : option string :=
  let cpf := so_digitos mensagem in
  if Nat.eqb (String.length cpf) 11 then Some cpf else None.

Definition _extrair_telefone (mensagem : string) : option string :=
  let telefone := so_digitos mensagem in
  if Nat.leb 10 (String.length telefone) && Nat.leb (String.length telefone) 11
  then Some telefone else None.

(** ** The choice interpreter *)

Section Escolha.

Variable strip : string -> string.
Variable agora : Z.

Definition ano_atual : Z := fst (fst (ord2ymd (agora / micros_por_dia))).

Definition data_encontrada (mensagem : string) : option string :=
  match buscar_data mensagem with
  | Some (dia, mes) =>
      Some (dois_digitos dia ++ "/" ++ dois_digitos mes ++ "/" ++ decimal ano_atual)%string
  | None => None
  end.

Definition hora_encontrada (mensagem : string) : option string :=
  match buscar_hora mensagem with
  | Some (hora, minutos) => Some (dois_digitos hora ++ ":" ++ dois_digitos minutos)%string
  | None => None
  end.

Definition combina (data hora : option string) (horario : Horario) : bool :=
  let match_data :=
    match data with
    | None => true
    | Some d => comeca_com (prefixo 5 (h_data_formatada horario)) d
    end in
  let match_hora :=
    match hora with
    | None => true
    | Some h => String.eqb h (h_hora horario)
    end in
  match_data && match_hora.

Definition _interpretar_escolha_horario (mensagem : string)
    (horarios_disponiveis : list Horario) : option Horario :=
  let mensagem_clean := strip mensagem in
  match numero_match mensagem_clean with
  | Some numero =>
      let indice := numero - 1 in
      if (0 <=? indice) && (indice <? Z.of_nat (length horarios_disponiveis))
      then nth_error horarios_disponiveis (Z.to_nat indice)
      else None
  | None =>
      find (combina (data_encontrada mensagem) (hora_encontrada mensagem))
        horarios_disponiveis
  end.

End Escolha.

(** ** Conversations, drafts and replies *)

(** The JSON values the service keeps in a draft. *)
Inductive JVal :=
| JNull
| JBool (b : bool)
| JInt (z : Z)
| JStr (s : string)
| JLista (l : list Z).

(** Truth value of a Python object. *)
Definition verdadeiro (v : JVal) : bool :=
  match v with
  | JNull => false
  | JBool b => b
  | JInt z => negb (z =? 0)
  | JStr s => negb (String.eqb s "")
  | JLista l => match l with [] => false | _ => true end
  end.

(** [v == texto]. *)
Definition igual_texto (v : JVal) (texto : string) : bool :=
  match v with
  | JStr s => String.eqb s texto
  | _ => false
  end.

Definition decimal_com_sinal (z : Z) : string :=
  if z <? 0 then "-" ++ decimal (- z) else decimal z.

(** [str(v)], as the f-strings render it. *)
Definition py_str (v : JVal) : string :=
  match v with
  | JNull => "None"
  | JBool true => "True"
  | JBool false => "False"
  | JInt z => decimal_com_sinal z
  | JStr s => s
  | JLista l => "[" ++ String.concat ", " (map decimal_com_sinal l) ++ "]"
  end.

Record Conversa := mkConversa {
  estado : string;
  dados : gmap string JVal;
  paciente_id : option Z
}.

(** [dados.get(chave)] and [dados.get(chave, padrao)]. *)
Definition dget (d : gmap string JVal) (chave : string) : JVal :=
  default JNull (d !! chave).

Definition dget_padrao (d : gmap string JVal) (chave : string) (padrao : JVal) : JVal :=
  default padrao (d !! chave).

Inductive Texto :=
| Literal (s : string)
| Formatado (modelo : string).

Record Resposta := mkResposta {
  success : bool;
  message : Texto;
  tipo : string;
  proximo_estado : string;
  r_horarios : option (list Horario);
  r_agendamentos : option (list Z);
  agendamento_id : option Z
}.

Definition resposta (ok : bool) (msg : Texto) (tipo proximo : string) : Resposta :=
  mkResposta ok msg tipo proximo None None None.

Definition _resposta_erro (mensagem : string) : Resposta :=
  resposta false (Literal mensagem) "erro" "inicio".

(** ** The monad of the handlers *)

Inductive Excecao :=
| KeyError (chave : string)
| AttributeError
| TypeError
| IntegrityError
| OperationalError
| InterfaceError.

Inductive Res (A : Type) :=
| Ok (a : A)
| Raise (e : Excecao).
Arguments Ok {A} a.
Arguments Raise {A} e.

Record Mundo := mkMundo {
  conversa : Conversa;
  banco : Banco
}.

Definition M (A : Type) : Type := Mundo -> Res A * Mundo.

#[global] Instance M_ret : MRet M := fun A a w => (Ok a, w).

#[global] Instance M_bind : MBind M := fun A B f m w =>
  match m w with
  | (Ok a, w') => f a w'
  | (Raise e, w') => (Raise e, w')
  end.

Definition raise {A} (e : Excecao) : M A := fun w => (Raise e, w).

(** [try: m except Exception as e: h e]. *)
Definition tentar {A} (m : M A) (h : Excecao -> M A) : M A := fun w =>
  match m w with
  | (Ok a, w') => (Ok a, w')
  | (Raise e, w') => h e w'
  end.

Definition ler_conversa : M Conversa := fun w => (Ok (conversa w), w).

Definition ler_banco : M Banco := fun w => (Ok (banco w), w).

Definition gravar_banco (db : Banco) : M unit := fun w =>
  (Ok tt, mkMundo (conversa w) db).

(** [conversa.estado = e]. *)
Definition set_estado (e : string) : M unit := fun w =>
  (Ok tt, mkMundo (mkConversa e (dados (conversa w)) (paciente_id (conversa w))) (banco w)).

(** [conversa.set_dados(d)]. *)
Definition set_dados (d : gmap string JVal) : M unit := fun w =>
  (Ok tt, mkMundo (mkConversa (estado (conversa w)) d (paciente_id (conversa w))) (banco w)).

(** [conversa.get_dados() or {}]. *)
Definition get_dados : M (gmap string JVal) := fun w => (Ok (dados (conversa w)), w).

(** [conversa.paciente_id = i]. *)
Definition set_paciente_id (i : option Z) : M unit := fun w =>
  (Ok tt, mkMundo (mkConversa (estado (conversa w)) (dados (conversa w)) i) (banco w)).

(** [d[chave]]. *)
Definition subscrito (d : gmap string JVal) (chave : string) : M JVal :=
  match d !! chave with
  | Some v => mret v
  | None => raise (KeyError chave)
  end.

(** ** Writes to the tables *)

(** A draft value bound to an integer column or parameter.  The drafts the
    service writes hold ids as JSON integers; a text is taken never to equal
    an id, a list cannot be bound. *)
Definition parametro_inteiro (v : JVal) : M (option Z) :=
  match v with
  | JInt z => mret (Some z)
  | JBool b => mret (Some (if b then 1 else 0))
  | JLista _ => raise InterfaceError
  | _ => mret None
  end.

(** A draft value bound to a text column. *)
Definition parametro_texto (v : JVal) : M (option string) :=
  match v with
  | JNull => mret None
  | JLista _ => raise InterfaceError
  | JBool b => mret (Some (if b then "1" else "0"))
  | _ => mret (Some (py_str v))
  end.

Definition maior_id {A} (id : A -> Z) (l : list A) : Z :=
  foldr (fun a acc => Z.max (id a) acc) 0 l.

Definition tem_id {A} (id : A -> Z) (i : Z) (l : list A) : bool :=
  existsb (fun a => id a =? i) l.

(** [Agendamento.create(...)]: the INSERT with the NOT NULL and FOREIGN KEY
    constraints of the table, then the row read back.  [status] defaults to
    'agendado'. *)
Definition Agendamento_create (paciente_id medico_id especialidade_id local_id : option Z)
    (data hora observacoes status anexo_nome anexo_path : option string) : M Agendamento.t :=
  db ← ler_banco;
  match paciente_id, medico_id, especialidade_id, local_id, data, hora with
  | Some p, Some m, Some e, Some l, Some d, Some h =>
      if tem_id Paciente.id p (pacientes db) && tem_id Medico.id m (medicos db)
         && tem_id Especialidade.id e (especialidades db) && tem_id Local.id l (locais db)
      then
        let novo_id := Z.max (seq_agendamentos db) (maior_id Agendamento.id (agendamentos db)) + 1 in
        let a := Agendamento.mk novo_id p m e l d h observacoes
                   (default "agendado" status) anexo_nome anexo_path None in
        gravar_banco (mkBanco (pacientes db) (locais db) (especialidades db) (medicos db)
                        (horarios_disponiveis db) (agendamentos db ++ [a])
                        (seq_pacientes db) novo_id);;
        mret a
      else raise IntegrityError
  | _, _, _, _, _, _ => raise IntegrityError
  end.

(** [Paciente.create(...)]: cpf is NOT NULL UNIQUE, nome is NOT NULL. *)
Definition Paciente_create (cpf nome data_nascimento telefone email carteirinha : option string)
    (tipo_atendimento : string) : M Paciente.t :=
  db ← ler_banco;
  match cpf, nome with
  | Some c, Some n =>
      if existsb (fun p => String.eqb (Paciente.cpf p) c) (pacientes db)
      then raise IntegrityError
      else
        let novo_id := Z.max (seq_pacientes db) (maior_id Paciente.id (pacientes db)) + 1 in
        let p := Paciente.mk novo_id c n data_nascimento (default "" telefone) email
                   carteirinha tipo_atendimento in
        gravar_banco (mkBanco (pacientes db ++ [p]) (locais db) (especialidades db) (medicos db)
                        (horarios_disponiveis db) (agendamentos db)
                        novo_id (seq_agendamentos db));;
        mret p
  | _, _ => raise IntegrityError
  end.

(** [agendamento.cancelar(motivo)]: the UPDATE of the row with its id. *)
Definition Agendamento_cancelar (a : Agendamento.t) (motivo : string) : M unit :=
  db ← ler_banco;
  let cancelado :=
    Agendamento.mk (Agendamento.id a) (Agendamento.paciente_id a) (Agendamento.medico_id a)
      (Agendamento.especialidade_id a) (Agendamento.local_id a) (Agendamento.data a)
      (Agendamento.hora a) (Agendamento.observacoes a) "cancelado"
      (Agendamento.anexo_nome a) (Agendamento.anexo_path a) (Some motivo) in
  gravar_banco (mkBanco (pacientes db) (locais db) (especialidades db) (medicos db)
                  (horarios_disponiveis db)
                  (map (fun x => if Agendamento.id x =? Agendamento.id a then cancelado else x)
                     (agendamentos db))
                  (seq_pacientes db) (seq_agendamentos db)).

(** ** The service *)

(** [int(s)] on a stripped text: an optional sign, then digits that single
    underscores may separate. *)
Fixpoint int_corpo (apos_digito : bool) (acc : Z) (s : string) : option Z :=
  match s with
  | EmptyString => if apos_digito then Some acc else None
  | String c s' =>
      if eh_digito c then int_corpo true (acc * 10 + valor_digito c) s'
      else if Ascii.eqb c "_" && apos_digito then
        match s' with
        | String c' _ => if eh_digito c' then int_corpo false acc s' else None
        | EmptyString => None
        end
      else None
  end.

Definition int_literal (s : string) : option Z :=
  match s with
  | String "+" r => int_corpo false 0 r
  | String "-" r => Z.opp <$> int_corpo false 0 r
  | _ => int_corpo false 0 s
  end.

(** [c.isalnum()] for an ASCII character. *)
Definition eh_alnum (c : ascii) : bool :=
  let n := Z.of_nat (nat_of_ascii c) in
  eh_digito c || ((65 <=? n) && (n <=? 90)) || ((97 <=? n) && (n <=? 122)).

Fixpoint so_alnum (s : string) : string :=
  match s with
  | EmptyString => EmptyString
  | String c s' => if eh_alnum c then String c (so_alnum s') else so_alnum s'
  end.

Definition _eh_saudacao_em (minusculas : string) : bool :=
  alguma_em ["oi"; "olá"; "ola"; "hey"; "hello"; "bom dia"; "boa tarde"; "boa noite"]
    minusculas.

Definition _eh_cancelamento_em (minusculas : string) : bool :=
  alguma_em ["cancelar"; "desmarcar"; "remover consulta"; "cancelo"; "cancelamento"]
    minusculas.

Definition mapeamento_sintomas : list (string * string) :=
  [("coração", "Cardiologia"); ("pele", "Dermatologia"); ("criança", "Pediatria");
   ("neuro", "NeuroPediatra"); ("neurologia", "NeuroPediatra");
   ("neurologista", "NeuroPediatra"); ("neuropediatra", "NeuroPediatra");
   ("pediatra", "NeuroPediatra"); ("avaliação", "Avaliação - terapia");
   ("terapia", "Avaliação - terapia"); ("avaliacao", "Avaliação - terapia");
   ("mulher", "Ginecologia"); ("osso", "Ortopedia"); ("mental", "Psiquiatria");
   ("olho", "Oftalmologia")].

Section Servico.

(** What the service takes from Python and from its host: [str.lower],
    [str.strip], [datetime.strptime] on a text and a format (an ordinal, or
    [None] for ValueError), the first match of [email_pattern], the answer
    of the Gemini model ([None] when the call raises), the time zone
    ([mktime]) and the clock ([hoje], [agora]). *)
Variable lower : string -> string.
Variable strip : string -> string.
Variable strptime_data : string -> string -> option Z.
Variable _extrair_email : string -> option string.
Variable gemini : string -> option string.
Variable mktime : Z -> Z.
Variable hoje : Z.
Variable agora : Z.

Definition _eh_saudacao (mensagem : string) : bool :=
  _eh_saudacao_em (lower mensagem).

Definition _eh_cancelamento (mensagem : string) : bool :=
  _eh_cancelamento_em (lower mensagem).

Definition _detectar_tipo_mensagem (mensagem : string) : string :=
  let mensagem_lower := strip (lower mensagem) in
  if alguma_em ["cancelar"; "desmarcar"; "remover consulta"; "cancelo"] mensagem_lower
  then "cancelamento"
  else if alguma_em ["meus agendamentos"; "minhas consultas"; "consultar agendamento";
                     "ver consultas"] mensagem_lower
  then "consulta"
  else if alguma_em ["telefone"; "endereço"; "onde fica"; "horário funcionamento";
                     "localização"] mensagem_lower
  then "informacao"
  else if alguma_em ["clima"; "tempo"; "futebol"; "política"; "receita culinária"]
            mensagem_lower
  then "fora_escopo"
  else
    match gemini mensagem with
    | Some texto =>
        let resultado :=
          if String.eqb texto "" then "agendamento" else lower (strip texto) in
        if existsb (String.eqb resultado)
             ["agendamento"; "cancelamento"; "consulta"; "informacao"; "fora_escopo"]
        then resultado
        else "agendamento"
    | None =>
        if alguma_em ["oi"; "olá"; "ola"; "bom dia"; "boa tarde"; "boa noite"; "hello";
                      "hi"; "dor"; "problema"; "consulta"; "médico"; "doutor"; "sintoma";
                      "doença"; "preciso"; "quero marcar"; "agendar"; "emergência"]
             mensagem_lower
        then "agendamento"
        else "agendamento"
    end.

Definition _processar_inicio (mensagem : string) : M Resposta :=
  let tipo := _detectar_tipo_mensagem mensagem in
  if String.eqb tipo "cancelamento" then
    set_estado "cancelamento";;
    mret (resposta true (Literal "Olá! Para cancelar uma consulta, preciso do seu CPF. Digite apenas os números:")
            "texto" "cancelamento")
  else if String.eqb tipo "consulta" then
    set_estado "consulta_agendamentos";;
    mret (resposta true (Literal "Olá! Para consultar seus agendamentos, preciso do seu CPF. Digite apenas os números:")
            "texto" "consulta_agendamentos")
  else if String.eqb tipo "informacao" then
    mret (resposta true (Formatado "informacoes") "info" "inicio")
  else if String.eqb tipo "fora_escopo" then
    mret (resposta true (Formatado "fora_escopo") "orientacao" "inicio")
  else
    set_estado "aguardando_cpf";;
    mret (resposta true (Formatado "boas_vindas") "texto" "aguardando_cpf").

Definition _processar_cancelamento_cpf_valido (paciente : Paciente.t) : M Resposta :=
  db ← ler_banco;
  let agendamentos_ :=
    List.filter (fun a => (Agendamento.paciente_id a =? Paciente.id paciente)
                          && String.eqb (Agendamento.status a) "agendado")
      (agendamentos db) in
  match agendamentos_ with
  | [] => mret (resposta false (Formatado "sem_agendamentos_ativos") "texto" "inicio")
  | _ =>
      let ids := map Agendamento.id agendamentos_ in
      set_dados {[ "agendamentos_para_cancelar" := JLista ids ]};;
      mret (mkResposta true (Formatado "lista_para_cancelar") "cancelamento" "cancelamento"
              None (Some ids) None)
  end.

Definition _processar_consulta_agendamentos_cpf_valido (paciente : Paciente.t) : M Resposta :=
  db ← ler_banco;
  let agendamentos_ :=
    List.filter (fun a => Agendamento.paciente_id a =? Paciente.id paciente) (agendamentos db) in
  match agendamentos_ with
  | [] => mret (resposta true (Formatado "nenhum_agendamento") "texto" "inicio")
  | _ =>
      set_estado "finalizado";;
      set_dados ∅;;
      mret (mkResposta true (Formatado "seus_agendamentos") "consulta" "inicio"
              None (Some (map Agendamento.id agendamentos_)) None)
  end.

Definition _processar_cpf (mensagem : string) : M Resposta :=
  match _extrair_cpf mensagem with
  | None =>
      mret (resposta false (Literal "CPF inválido. Por favor, digite apenas os 11 números do CPF:")
              "texto" "aguardando_cpf")
  | Some cpf =>
      db ← ler_banco;
      dados_temp ← get_dados;
      let acao_desejada := dget_padrao dados_temp "acao_desejada" (JStr "agendar") in
      match Paciente_find_by_cpf db cpf with
      | Some paciente =>
          set_paciente_id (Some (Paciente.id paciente));;
          set_dados (<["cpf" := JStr cpf]>
                       (<["paciente_id" := JInt (Paciente.id paciente)]>
                          {[ "acao_desejada" := acao_desejada ]}));;
          mensagem_anterior ←
            match dget_padrao dados_temp "mensagem_inicial" (JStr "") with
            | JStr m => mret (lower m)
            | _ => raise AttributeError
            end;
          c ← ler_conversa;
          if ocorre_em "cancelar" mensagem_anterior || String.eqb (estado c) "cancelamento"
          then _processar_cancelamento_cpf_valido paciente
          else if ocorre_em "consultar" mensagem_anterior
                  || String.eqb (estado c) "consulta_agendamentos"
          then _processar_consulta_agendamentos_cpf_valido paciente
          else
            set_estado "local";;
            mret (resposta true (Formatado "ola_escolha_local") "locais" "local")
      | None =>
          c ← ler_conversa;
          if String.eqb (estado c) "cancelamento"
             || String.eqb (estado c) "consulta_agendamentos"
          then mret (resposta false (Formatado "cpf_nao_encontrado_sem_cadastro") "texto" "inicio")
          else
            set_estado "cadastro";;
            set_dados (<["cpf" := JStr cpf]> {[ "etapa_cadastro" := JStr "nome" ]});;
            mret (resposta true (Formatado "cpf_nao_encontrado_cadastro") "texto" "cadastro")
      end
  end.

Fixpoint _validar_data_nascimento_em (formatos : list string) (data_str : string) : option Z :=
  match formatos with
  | [] => None
  | formato :: formatos' =>
      match strptime_data data_str formato with
      | Some data =>
          if (data <=? hoje) && (693596 <=? data) then Some data
          else _validar_data_nascimento_em formatos' data_str
      | None => _validar_data_nascimento_em formatos' data_str
      end
  end.

Definition _validar_data_nascimento (data_str : string) : option Z :=
  _validar_data_nascimento_em ["%d/%m/%Y"; "%d-%m-%Y"; "%d.%m.%Y"] data_str.

Definition data_invalida : Resposta :=
  resposta false
    (Literal "Data inválida. Digite a data de nascimento no formato DD/MM/AAAA (ex: 15/03/1990):")
    "texto" "cadastro".

(** [None] is the Python [None] the method returns when no step matches. *)
Definition _processar_cadastro (mensagem : string) (dados : gmap string JVal)
    : M (option Resposta) :=
  let etapa := dget_padrao dados "etapa_cadastro" (JStr "nome") in
  if igual_texto etapa "nome" then
    let dados := <["etapa_cadastro" := JStr "data_nascimento"]>
                   (<["nome" := JStr (strip mensagem)]> dados) in
    set_dados dados;;
    mret (Some (resposta true (Formatado "prazer_data_nascimento") "texto" "cadastro"))
  else if igual_texto etapa "data_nascimento" then
    match _validar_data_nascimento (strip mensagem) with
    | None => mret (Some data_invalida)
    | Some data_nascimento =>
        let dados := <["etapa_cadastro" := JStr "telefone"]>
                       (<["data_nascimento" := JStr (strftime_Ymd data_nascimento)]> dados) in
        set_dados dados;;
        mret (Some (resposta true
                      (Literal "Perfeito! Agora preciso do telefone de contato com DDD (ex: 11999887766):")
                      "texto" "cadastro"))
    end
  else if igual_texto etapa "telefone" then
    match _extrair_telefone mensagem with
    | None =>
        mret (Some (resposta false
                      (Literal "Telefone inválido. Digite o telefone com DDD (ex: 11999887766):")
                      "texto" "cadastro"))
    | Some telefone =>
        let dados := <["etapa_cadastro" := JStr "email"]>
                       (<["telefone" := JStr telefone]> dados) in
        set_dados dados;;
        mret (Some (resposta true
                      (Literal "Perfeito! Agora seu e-mail (opcional - digite 'pular' se não quiser informar):")
                      "texto" "cadastro"))
    end
  else if igual_texto etapa "email" then
    let pulou := existsb (String.eqb (lower (strip mensagem))) ["pular"; "não"; "nao"] in
    let email := if pulou then None else _extrair_email mensagem in
    if negb pulou && negb (bool_decide (is_Some email)) then
      mret (Some (resposta false
                    (Literal "E-mail inválido. Digite um e-mail válido ou 'pular' para continuar:")
                    "texto" "cadastro"))
    else
      let dados := <["etapa_cadastro" := JStr "carteirinha"]>
                     (<["email" := match email with Some e => JStr e | None => JNull end]> dados) in
      set_dados dados;;
      mret (Some (resposta true (Literal "Você tem plano de saúde? Se sim, digite o número da sua carteirinha.
Se não tem plano ou prefere atendimento particular, digite 'particular':")
                    "texto" "cadastro"))
  else if igual_texto etapa "carteirinha" then
    let mensagem_lower := lower (strip mensagem) in
    let particular :=
      existsb (String.eqb mensagem_lower) ["particular"; "nao"; "não"; "sem plano"; "pular"] in
    let carteirinha_limpa := so_alnum mensagem in
    if negb particular && negb (Nat.leb 6 (String.length carteirinha_limpa)) then
      mret (Some (resposta false
                    (Literal "Número de carteirinha inválido. Digite um número válido ou 'particular' para atendimento particular:")
                    "texto" "cadastro"))
    else
      let carteirinha := if particular then JNull else JStr (prefixo 50 carteirinha_limpa) in
      let tipo_atendimento := if particular then "particular" else "plano" in
      let dados := <["tipo_atendimento" := JStr tipo_atendimento]>
                     (<["carteirinha" := carteirinha]> dados) in
      cpf ← subscrito dados "cpf";
      nome ← subscrito dados "nome";
      telefone ← subscrito dados "telefone";
      cpf ← parametro_texto cpf;
      nome ← parametro_texto nome;
      data_nascimento ← parametro_texto (dget dados "data_nascimento");
      telefone ← parametro_texto telefone;
      email ← parametro_texto (dget dados "email");
      carteirinha ← parametro_texto (dget dados "carteirinha");
      novo_paciente ← Paciente_create cpf nome data_nascimento telefone email carteirinha
                        tipo_atendimento;
      set_paciente_id (Some (Paciente.id novo_paciente));;
      set_estado "local";;
      set_dados (<["paciente_id" := JInt (Paciente.id novo_paciente)]> dados);;
      mret (Some (resposta true (Formatado "cadastro_realizado") "locais" "local"))
  else mret None.

Definition cidade_de (l : Local.t) : string := default "" (Local.cidade l).

Definition local_combina (mensagem_lower : string) (l : Local.t) : bool :=
  ocorre_em (lower (Local.nome l)) mensagem_lower
  || (negb (String.eqb (cidade_de l) "") && ocorre_em (lower (cidade_de l)) mensagem_lower)
  || ocorre_em mensagem_lower (lower (Local.nome l))
  || (negb (String.eqb (cidade_de l) "") && ocorre_em mensagem_lower (lower (cidade_de l))).

Definition _processar_local (mensagem : string) : M Resposta :=
  db ← ler_banco;
  let locais_ := Local_find_active db in
  let mensagem_lower := strip (lower mensagem) in
  match find (local_combina mensagem_lower) locais_ with
  | Some local_escolhido =>
      dados ← get_dados;
      set_dados (<["local_nome" := JStr (Local.nome local_escolhido)]>
                   (<["local_id" := JInt (Local.id local_escolhido)]> dados));;
      set_estado "especialidade";;
      mret (resposta true (Formatado "local_escolhido") "especialidades" "especialidade")
  | None =>
      mret (resposta false (Formatado "local_nao_identificado") "locais" "local")
  end.

(** SELECT DISTINCT e.* ... WHERE h.local_id = ? AND e.ativo = 1 AND
    m.ativo = 1 AND h.ativo = 1.  The query has no ORDER BY; the rows are
    taken here in the order of the specialties table. *)
Definition especialidades_do_local (db : Banco) (local_id : Z) : list Especialidade.t :=
  List.filter (fun e =>
    Especialidade.ativo e
    && existsb (fun m =>
         (Medico.especialidade_id m =? Especialidade.id e) && Medico.ativo m
         && existsb (fun h =>
              (HorarioDisponivel.medico_id h =? Medico.id m)
              && (HorarioDisponivel.local_id h =? local_id)
              && HorarioDisponivel.ativo h)
              (horarios_disponiveis db))
         (medicos db))
    (especialidades db).

Fixpoint por_sintoma (mapa : list (string * string)) (mensagem_lower : string)
    (especialidades_ : list Especialidade.t) : option Especialidade.t :=
  match mapa with
  | [] => None
  | (palavra, especialidade_nome) :: mapa' =>
      if ocorre_em palavra mensagem_lower then
        match find (fun esp => ocorre_em (lower especialidade_nome)
                                 (lower (Especialidade.nome esp))) especialidades_ with
        | Some esp => Some esp
        | None => por_sintoma mapa' mensagem_lower especialidades_
        end
      else por_sintoma mapa' mensagem_lower especialidades_
  end.

(** [Especialidade.find_by_id(v)] on a draft value. *)
Definition Especialidade_do_rascunho (v : JVal) : M (option Especialidade.t) :=
  i ← parametro_inteiro v;
  db ← ler_banco;
  mret (i ≫= Especialidade_find_by_id db).

Definition _processar_horarios (mensagem : string) (dados : gmap string JVal) : M Resposta :=
  let local_id := dget dados "local_id" in
  let especialidade_id := dget dados "especialidade_id" in
  if negb (verdadeiro local_id) || negb (verdadeiro especialidade_id) then
    set_estado "inicio";;
    set_dados ∅;;
    mret (_resposta_erro "Erro nos dados. Vamos recomeçar.")
  else
    e ← parametro_inteiro especialidade_id;
    l ← parametro_inteiro local_id;
    db ← ler_banco;
    let rows :=
      match e, l with
      | Some e, Some l => consulta_medicos_horarios db e l
      | _, _ => []
      end in
    match rows with
    | [] =>
        match List.filter (fun m => bool_decide (Some (Medico.especialidade_id m) = e))
                (Medico_find_active db) with
        | [] =>
            mret (resposta false
                    (Literal "Não temos médicos desta especialidade disponíveis no momento. Por favor, escolha outra especialidade.")
                    "especialidades" "especialidade")
        | _ =>
            mret (resposta false
                    (Literal "Não há horários disponíveis para esta especialidade neste local. Tente outro local ou especialidade.")
                    "especialidades" "especialidade")
        end
    | _ =>
        let horarios_disponiveis_ := _gerar_horarios_disponiveis mktime hoje agora db rows in
        match horarios_disponiveis_ with
        | [] =>
            mret (resposta false
                    (Literal "Não há horários disponíveis nos próximos dias. Vamos escolher outra especialidade ou local.")
                    "especialidades" "especialidade")
        | _ =>
            if String.eqb mensagem "" || String.eqb (strip mensagem) "" then
              mret (mkResposta true (Formatado "horarios_disponiveis") "horarios" "horarios"
                      (Some horarios_disponiveis_) None None)
            else
              match _interpretar_escolha_horario strip agora mensagem horarios_disponiveis_ with
              | Some escolha =>
                  let dados :=
                    <["hora_formatada" := JStr (h_hora_formatada escolha)]>
                    (<["data_formatada" := JStr (h_data_formatada escolha)]>
                    (<["hora_agendamento" := JStr (h_hora escolha)]>
                    (<["data_agendamento" := JStr (h_data escolha)]>
                    (<["especialidade_nome" :=
                         dget_padrao dados "especialidade_nome" (JStr "Especialidade")]>
                    (<["medico_nome" := JStr (h_medico_nome escolha)]>
                    (<["medico_id" := JInt (h_medico_id escolha)]> dados)))))) in
                  set_dados dados;;
                  especialidade ← Especialidade_do_rascunho especialidade_id;
                  match especialidade with
                  | Some esp =>
                      if Especialidade.requer_anexo esp then
                        c ← ler_conversa;
                        temp_agendamento ←
                          Agendamento_create (paciente_id c) (Some (h_medico_id escolha)) e
                            (Some (h_local_id escolha)) (Some (h_data escolha))
                            (Some (h_hora escolha)) None (Some "pendente_anexo") None None;
                        set_dados (<["agendamento_temp_id" :=
                                       JInt (Agendamento.id temp_agendamento)]> dados);;
                        set_estado "solicitacao_anexo";;
                        mret (resposta true (Formatado "pedido_medico_obrigatorio")
                                "solicitacao_anexo" "solicitacao_anexo")
                      else
                        set_estado "confirmacao";;
                        mret (resposta true (Formatado "resumo_do_agendamento")
                                "confirmacao" "confirmacao")
                  | None =>
                      set_estado "confirmacao";;
                      mret (resposta true (Formatado "resumo_do_agendamento")
                              "confirmacao" "confirmacao")
                  end
              | None =>
                  mret (mkResposta true (Formatado "horarios_para_exibicao") "horarios"
                          "horarios" (Some horarios_disponiveis_) None None)
              end
        end
    end.

Definition _processar_especialidade (mensagem : string) : M Resposta :=
  dados ← get_dados;
  db ← ler_banco;
  let local_id := dget dados "local_id" in
  especialidades_ ←
    (if verdadeiro local_id then
       match local_id with
       | JInt l => mret (especialidades_do_local db l)
       | _ => raise OperationalError
       end
     else mret (Especialidade_find_active db));
  let mensagem_lower := strip (lower mensagem) in
  let especialidade_escolhida :=
    match find (fun esp => ocorre_em (lower (Especialidade.nome esp)) mensagem_lower
                           || ocorre_em mensagem_lower (lower (Especialidade.nome esp)))
            especialidades_ with
    | Some esp => Some esp
    | None => por_sintoma mapeamento_sintomas mensagem_lower especialidades_
    end in
  match especialidade_escolhida with
  | Some esp =>
      dados ← get_dados;
      let dados := <["especialidade_nome" := JStr (Especialidade.nome esp)]>
                     (<["especialidade_id" := JInt (Especialidade.id esp)]> dados) in
      set_dados dados;;
      set_estado "horarios";;
      match List.filter (fun m => Medico.especialidade_id m =? Especialidade.id esp)
              (Medico_find_active db) with
      | [] =>
          mret (resposta false (Formatado "sem_medicos_da_especialidade")
                  "especialidades" "especialidade")
      | _ =>
          set_estado "horarios";;
          set_dados dados;;
          _processar_horarios "" dados
      end
  | None =>
      mret (resposta false (Formatado "especialidade_nao_identificada")
              "especialidades" "especialidade")
  end.

Definition _processar_solicitacao_anexo (mensagem : string) (dados : gmap string JVal)
    : M Resposta :=
  let mensagem_lower := strip (lower mensagem) in
  if alguma_em ["enviei"; "enviado"; "anexei"; "anexado"; "upload"; "foto"; "arquivo";
                "ok"; "pronto"; "sim"] mensagem_lower
  then
    let dados :=
      <["anexo_nome" :=
          JStr ("pedido_medico_" ++ py_str (dget_padrao dados "paciente_id" (JStr "user")))]>
        (<["anexo_recebido" := JBool true]> dados) in
    set_dados dados;;
    set_estado "confirmacao";;
    mret (resposta true (Formatado "anexo_recebido_resumo") "confirmacao" "confirmacao")
  else if alguma_em ["pular"; "sem anexo"; "não tenho"; "nao tenho"; "depois"; "não"; "nao"]
            mensagem_lower
  then
    set_estado "confirmacao";;
    mret (resposta true (Formatado "prosseguindo_sem_anexo") "confirmacao" "confirmacao")
  else if alguma_em ["link"; "upload"; "anexo"] mensagem_lower then
    c ← ler_conversa;
    medico_id ← parametro_inteiro (dget dados "medico_id");
    especialidade_id ← parametro_inteiro (dget dados "especialidade_id");
    local_id ← parametro_inteiro (dget dados "local_id");
    data ← parametro_texto (dget dados "data");
    hora ← parametro_texto (dget dados "hora");
    temp_agendamento ←
      Agendamento_create (paciente_id c) medico_id especialidade_id local_id data hora
        None (Some "pendente_anexo") None None;
    set_dados (<["agendamento_temp_id" := JInt (Agendamento.id temp_agendamento)]> dados);;
    mret (resposta true (Formatado "link_para_anexar") "solicitacao_anexo" "solicitacao_anexo")
  else
    mret (resposta true (Formatado "anexo_necessario") "solicitacao_anexo" "solicitacao_anexo").

Definition eh_afirmativa (mensagem_lower : string) : bool :=
  alguma_em ["sim"; "s"; "confirmo"; "ok"; "confirmar"] mensagem_lower.

Definition eh_negativa (mensagem_lower : string) : bool :=
  alguma_em ["não"; "nao"; "n"; "cancelar"; "voltar"] mensagem_lower.

(** The body of the [try] of the affirmative branch. *)
Definition confirmar_agendamento (dados : gmap string JVal) : M Resposta :=
  let anexo_nome := dget_padrao dados "anexo_nome" (JStr "") in
  '(observacoes, anexo_path) ←
    (if verdadeiro (dget dados "anexo_recebido") then
       mret ("✅ Pedido médico anexado via chatbot", "anexos/" ++ py_str anexo_nome)
     else if negb (verdadeiro anexo_nome) then
       especialidade_id ← subscrito dados "especialidade_id";
       especialidade ← Especialidade_do_rascunho especialidade_id;
       match especialidade with
       | Some esp =>
           if Especialidade.requer_anexo esp
           then mret ("⚠️ Especialidade requer pedido médico - levar documento físico", "")
           else mret ("", "")
       | None => mret ("", "")
       end
     else mret ("", ""));
  c ← ler_conversa;
  medico_id ← subscrito dados "medico_id";
  especialidade_id ← subscrito dados "especialidade_id";
  local_id ← subscrito dados "local_id";
  data ← subscrito dados "data_agendamento";
  hora ← subscrito dados "hora_agendamento";
  medico_id ← parametro_inteiro medico_id;
  especialidade_id ← parametro_inteiro especialidade_id;
  local_id ← parametro_inteiro local_id;
  data ← parametro_texto data;
  hora ← parametro_texto hora;
  anexo_nome ← parametro_texto anexo_nome;
  agendamento ←
    Agendamento_create (paciente_id c) medico_id especialidade_id local_id data hora
      (Some observacoes) None anexo_nome (Some anexo_path);
  set_estado "finalizado";;
  set_dados ∅;;
  _ ← subscrito dados "local_id";
  _ ← subscrito dados "medico_nome";
  _ ← subscrito dados "especialidade_nome";
  _ ← subscrito dados "data_formatada";
  _ ← subscrito dados "hora_formatada";
  mret (mkResposta true (Formatado "agendamento_confirmado") "sucesso" "finalizado"
          None None (Some (Agendamento.id agendamento))).

Definition _processar_confirmacao (mensagem : string) (dados : gmap string JVal)
    : M Resposta :=
  let mensagem_lower := strip (lower mensagem) in
  if eh_afirmativa mensagem_lower then
    tentar (confirmar_agendamento dados)
      (fun _ => mret (resposta false
                        (Literal "Erro ao confirmar agendamento. Tente novamente.")
                        "erro" "horarios"))
  else if eh_negativa mensagem_lower then
    set_estado "horarios";;
    mret (resposta true
            (Literal "Agendamento cancelado. Vou mostrar outros horários disponíveis:")
            "horarios" "horarios")
  else
    mret (resposta false
            (Literal "Não entendi sua resposta. Por favor, digite **'sim'** para confirmar o agendamento ou **'não'** para cancelar:")
            "confirmacao" "confirmacao").

(** After [cancelar] the handler reads the doctor and the specialty of the
    row and formats its date and time with [to_dict] for the reply.  These
    calls only read; [to_dict] raises on a row whose date or time is not a
    text, which the rows of this model, holding both as texts, never are. *)
Definition _processar_cancelamento (mensagem : string) : M Resposta :=
  dados ← get_dados;
  match dados !! "agendamentos_para_cancelar" with
  | Some agendamentos_ids =>
      (* int() strips the text once more *)
      match int_literal (strip (strip mensagem)) with
      | None =>
          mret (resposta false
                  (Literal "Por favor, digite apenas o número do agendamento que deseja cancelar:")
                  "cancelamento" "cancelamento")
      | Some numero =>
          tamanho ←
            match agendamentos_ids with
            | JLista l => mret (Z.of_nat (length l))
            | JStr s => mret (Z.of_nat (String.length s))
            | _ => raise TypeError
            end;
          if (1 <=? numero) && (numero <=? tamanho) then
            db ← ler_banco;
            let agendamento :=
              match agendamentos_ids with
              | JLista l => nth_error l (Z.to_nat (numero - 1)) ≫= Agendamento_find_by_id db
              | _ => None
              end in
            match agendamento with
            | Some a =>
                if String.eqb (Agendamento.status a) "agendado" then
                  Agendamento_cancelar a "Cancelado pelo paciente via chatbot";;
                  set_estado "finalizado";;
                  set_dados ∅;;
                  mret (resposta true (Formatado "agendamento_cancelado") "sucesso" "finalizado")
                else
                  mret (resposta false
                          (Literal "Agendamento não encontrado ou já foi cancelado. Digite um número válido:")
                          "cancelamento" "cancelamento")
            | None =>
                mret (resposta false
                        (Literal "Agendamento não encontrado ou já foi cancelado. Digite um número válido:")
                        "cancelamento" "cancelamento")
            end
          else
            mret (resposta false (Formatado "numero_invalido") "cancelamento" "cancelamento")
      end
  | None => _processar_cpf mensagem
  end.

Definition desculpa : string := "Desculpe, ocorreu um erro. Vamos recomeçar o atendimento.".

(** [return handler(...)] for a handler that always answers. *)
Definition devolver (m : M Resposta) : M (option Resposta) :=
  r ← m; mret (Some r).

(** The body of the [try] of [processar_mensagem]. *)
Definition despachar (mensagem : string) : M (option Resposta) :=
  c ← ler_conversa;
  let estado := if String.eqb (estado c) "" then "inicio" else estado c in
  dados ← get_dados;
  if negb (String.eqb estado "cancelamento") && _eh_cancelamento mensagem then
    set_estado "cancelamento";;
    set_dados ∅;;
    devolver (_processar_cancelamento mensagem)
  else if _eh_saudacao mensagem then
    set_estado "inicio";;
    set_dados ∅;;
    devolver (_processar_inicio mensagem)
  else if String.eqb estado "inicio" || String.eqb estado "finalizado" then
    devolver (_processar_inicio mensagem)
  else if String.eqb estado "aguardando_cpf" then devolver (_processar_cpf mensagem)
  else if String.eqb estado "cadastro" then _processar_cadastro mensagem dados
  else if String.eqb estado "local" then devolver (_processar_local mensagem)
  else if String.eqb estado "especialidade" then devolver (_processar_especialidade mensagem)
  else if String.eqb estado "horarios" then devolver (_processar_horarios mensagem dados)
  else if String.eqb estado "solicitacao_anexo"
  then devolver (_processar_solicitacao_anexo mensagem dados)
  else if String.eqb estado "confirmacao" then devolver (_processar_confirmacao mensagem dados)
  else if String.eqb estado "cancelamento" then devolver (_processar_cancelamento mensagem)
  else if String.eqb estado "consulta_agendamentos" then devolver (_processar_cpf mensagem)
  else
    set_estado "inicio";;
    set_dados ∅;;
    devolver (_processar_inicio mensagem).

Definition processar_mensagem (mensagem : string) : M (option Resposta) :=
  tentar (despachar mensagem)
    (fun _ =>
       set_estado "inicio";;
       set_dados ∅;;
       mret (Some (_resposta_erro desculpa))).

End Servico.

(** ** A host for the examples *)

(** [str.lower] and [str.strip] on ASCII text. *)
Definition minuscula (c : ascii) : ascii :=
  let n := nat_of_ascii c in
  if Nat.leb 65 n && Nat.leb n 90 then ascii_of_nat (n + 32) else c.

Fixpoint lower_ascii (s : string) : string :=
  match s with
  | EmptyString => EmptyString
  | String c s' => String (minuscula c) (lower_ascii s')
  end.

Definition eh_espaco (c : ascii) : bool :=
  let n := nat_of_ascii c in
  Nat.eqb n 32 || (Nat.leb 9 n && Nat.leb n 13) || (Nat.leb 28 n && Nat.leb n 31).

Fixpoint lstrip (s : string) : string :=
  match s with
  | EmptyString => EmptyString
  | String c s' => if eh_espaco c then lstrip s' else s
  end.

Fixpoint inverter (acc s : string) : string :=
  match s with
  | EmptyString => acc
  | String c s' => inverter (String c acc) s'
  end.

Definition strip_ascii (s : string) : string :=
  inverter "" (lstrip (inverter "" (lstrip s))).

(** A host without a Gemini key ([_initialize_genai] raises), on UTC, that
    rejects every birth date and finds no e-mail address. *)
Definition sem_gemini (_ : string) : option string := None.
Definition sem_datas (_ _ : string) : option Z := None.
Definition sem_email (_ : string) : option string := None.
Definition mktime_utc (minutos : Z) : Z := (minutos - 719163 * 1440) * 60.

(** Tuesday 2026-11-03, 07:30. *)
Definition hoje_exemplo : Z := 739923.
Definition agora_exemplo : Z := instante hoje_exemplo 450.

Definition banco_exemplo : Banco :=
  {| pacientes := [Paciente.mk 1 "12345678901" "Ana" None "31999887766" None None "particular"];
     locais := [Local.mk 1 "Centro" (Some "Contagem") true];
     especialidades :=
       [Especialidade.mk 1 "Cardiologia" true false;
        Especialidade.mk 2 "Pediatria" true true];
     medicos :=
       [Medico.mk 1 "Joao" (Some "CRM1") 1 true None;
        Medico.mk 2 "Bia" None 2 true None];
     horarios_disponiveis :=
       [HorarioDisponivel.mk 1 1 1 1 (Some 480) (Some 600) (Some 30) true;
        HorarioDisponivel.mk 2 1 1 3 (Some 480) (Some 540) (Some 30) true;
        HorarioDisponivel.mk 3 2 1 2 (Some 840) (Some 960) (Some 60) true];
     agendamentos :=
       [Agendamento.mk 1 1 1 1 1 "2026-11-03" "09:00" None "agendado" None None None];
     seq_pacientes := 1;
     seq_agendamentos := 1 |}.

Definition processar_exemplo (mensagem : string) : M (option Resposta) :=
  processar_mensagem lower_ascii strip_ascii sem_datas sem_email sem_gemini mktime_utc
    hoje_exemplo agora_exemplo mensagem.

(** A draft as [_processar_local], [_processar_especialidade] and
    [_processar_horarios] leave it. *)
Definition rascunho_exemplo (especialidade_id : Z) (especialidade_nome : string)
    : gmap string JVal :=
  <["hora_formatada" := JStr "08:00"]>
  (<["data_formatada" := JStr "05/11/2026"]>
  (<["hora_agendamento" := JStr "08:00"]>
  (<["data_agendamento" := JStr "2026-11-05"]>
  (<["especialidade_nome" := JStr especialidade_nome]>
  (<["medico_nome" := JStr "Joao"]>
  (<["medico_id" := JInt 1]>
  (<["especialidade_id" := JInt especialidade_id]>
  (<["local_nome" := JStr "Centro"]>
  (<["local_id" := JInt 1]>
  (<["paciente_id" := JInt 1]>
  {[ "cpf" := JStr "12345678901" ]})))))))))).

(** The rows and the candidates of Cardiologia at Centro. *)
Definition rows_exemplo : list Row := consulta_medicos_horarios banco_exemplo 1 1.

Definition slots_exemplo : list Horario :=
  _gerar_horarios_disponiveis mktime_utc hoje_exemplo agora_exemplo banco_exemplo rows_exemplo.

(** Thursday 2026-11-05 at 08:00 and Tuesday 2026-11-03 at 09:30. *)
Definition quinta_exemplo : Horario :=
  mkHorario 1 "Joao" "Cardiologia" (Some "CRM1") 1 "Centro" 739925 480 "Quinta" 30
    (mktime_utc (739925 * 1440 + 480)).

Definition terca_exemplo : Horario :=
  mkHorario 1 "Joao" "Cardiologia" (Some "CRM1") 1 "Centro" 739923 570 "Terça" 30
    (mktime_utc (739923 * 1440 + 570)).

(** Wednesday 2026-11-04 at 14:00, the first candidate of Pediatria. *)
Definition quarta_exemplo : Horario :=
  mkHorario 2 "Bia" "Pediatria" None 1 "Centro" 739924 840 "Quarta" 60
    (mktime_utc (739924 * 1440 + 840)).

Definition mundo_exemplo (estado : string) (d : gmap string JVal) : Mundo :=
  mkMundo (mkConversa estado d (Some 1)) banco_exemplo.

(** The table once a placeholder for Pediatria is in it. *)
Definition temporario_exemplo : Agendamento.t :=
  Agendamento.mk 2 1 2 2 1 "2026-11-04" "14:00" None "pendente_anexo" None None None.

Definition banco_com_temporario : Banco :=
  mkBanco (pacientes banco_exemplo) (locais banco_exemplo) (especialidades banco_exemplo)
    (medicos banco_exemplo) (horarios_disponiveis banco_exemplo)
    (agendamentos banco_exemplo ++ [temporario_exemplo]) 1 2.

Definition rascunho_pediatria : gmap string JVal :=
  <["agendamento_temp_id" := JInt 2]>
  (<["hora_formatada" := JStr "14:00"]>
  (<["data_formatada" := JStr "04/11/2026"]>
  (<["hora_agendamento" := JStr "14:00"]>
  (<["data_agendamento" := JStr "2026-11-04"]>
  (<["especialidade_nome" := JStr "Pediatria"]>
  (<["medico_nome" := JStr "Bia"]>
  (<["medico_id" := JInt 2]>
  (<["especialidade_id" := JInt 2]>
  (<["local_nome" := JStr "Centro"]>
  (<["local_id" := JInt 1]>
  (<["paciente_id" := JInt 1]>
  {[ "cpf" := JStr "12345678901" ]}))))))))))).

(** The draft when the specialty has just been chosen. *)
Definition rascunho_antes_da_escolha : gmap string JVal :=
  <["especialidade_nome" := JStr "Pediatria"]>
  (<["especialidade_id" := JInt 2]>
  (<["local_nome" := JStr "Centro"]>
  (<["local_id" := JInt 1]>
  (<["paciente_id" := JInt 1]>
  {[ "cpf" := JStr "12345678901" ]})))).

(** A draft at the last step of a registration, and one whose step the
    handler does not know. *)
Definition rascunho_cadastro (etapa : string) : gmap string JVal :=
  <["telefone" := JStr "31988887777"]>
  (<["nome" := JStr "Bia Lima"]>
  (<["cpf" := JStr "98765432100"]>
  {[ "etapa_cadastro" := JStr etapa ]})).

(** ** Vocabulary of the statements *)

(** The order [sorted] puts its entries in. *)
Definition ordem (a b : Horario) : Prop :=
  chave_menor_igual (sort_key a) (sort_key b) = true.

(** What the loops establish for every entry they append. *)
Definition slot_valido (hoje agora : Z) (db : Banco) (h : Horario) : Prop :=
  (hoje <= h_dia h < hoje + 50)
  /\ weekday (h_dia h) < 5
  /\ (h_dia h = hoje -> agora + 60 * micros_por_minuto < instante (h_dia h) (h_minuto h))
  /\ _verificar_disponibilidade_slot_simples db (h_medico_id h) (h_dia h) (h_minuto h) = true.

(** The conversation after a full reset. *)
Definition reiniciada (w : Mundo) : Mundo :=
  mkMundo (mkConversa "inicio" ∅ (paciente_id (conversa w))) (banco w).



(** A draft that holds a slot selection the tables can take: the patient
    of the conversation and the doctor, specialty and location of the draft
    exist, and the attachment name, when present, is not a list. *)
Definition selecao_valida (w : Mundo) (d : gmap string JVal)
    (p m e l : Z) (data hora : string) : Prop :=
  paciente_id (conversa w) = Some p
  /\ d !! "medico_id" = Some (JInt m)
  /\ d !! "especialidade_id" = Some (JInt e)
  /\ d !! "local_id" = Some (JInt l)
  /\ d !! "data_agendamento" = Some (JStr data)
  /\ d !! "hora_agendamento" = Some (JStr hora)
  /\ (forall ids, d !! "anexo_nome" <> Some (JLista ids))
  /\ tem_id Paciente.id p (pacientes (banco w)) = true
  /\ tem_id Medico.id m (medicos (banco w)) = true
  /\ tem_id Especialidade.id e (especialidades (banco w)) = true
  /\ tem_id Local.id l (locais (banco w)) = true.

(** ** Vocabulary of the further properties *)

(** Where an entry of the slot list comes from: a row that works on the
    weekday of the entry, whose doctor's agenda is open on that date, at a
    whole number of consultations after the start of the row and before its
    end. *)
Definition origem (mktime : Z -> Z) (db : Banco) (rows : list Row) (h : Horario) : Prop :=
  exists row inicio fim k,
    In row rows
    /\ row_dia_semana row = weekday (h_dia h)
    /\ h_medico_id h = medico_da_row row
    /\ h_medico_nome h = row_nome row
    /\ h_local_id h = row_local_id row
    /\ row_hora_inicio row = Some inicio
    /\ row_hora_fim row = Some fim
    /\ 0 <= k
    /\ h_minuto h = inicio + k * duracao_da_row row
    /\ h_minuto h < fim
    /\ h_duracao h = duracao_da_row row
    /\ (forall m, Medico_find_by_id db (h_medico_id h) = Some m ->
                  Medico.agenda_aberta m (h_dia h) = true)
    /\ h_dia_semana h = nth (Z.to_nat (weekday (h_dia h))) nomes_dias "N/A"
    /\ h_timestamp h = mktime (h_dia h * 1440 + h_minuto h).

(** The states [processar_mensagem] dispatches on. *)
Definition estados_conhecidos : list string :=
  ["inicio"; "aguardando_cpf"; "cadastro"; "local"; "especialidade"; "horarios";
   "solicitacao_anexo"; "confirmacao"; "cancelamento"; "consulta_agendamentos";
   "finalizado"].

Definition tipos_de_mensagem : list string :=
  ["agendamento"; "cancelamento"; "consulta"; "informacao"; "fora_escopo"].

(** A computation that leaves the state of the conversation as it is or
    sets one of the known states, whether it returns or raises. *)
Definition estavel {A} (m : M A) : Prop :=
  forall w x w1, m w = (x, w1) ->
    estado (conversa w1) = estado (conversa w)
    \/ In (estado (conversa w1)) estados_conhecidos.

(** A method that never returns Python's [None]. *)
Definition responde (m : M (option Resposta)) : Prop :=
  forall w w', m w <> (Ok None, w').

(** * Properties *)

(** ** The order of the sort *)


Lemma ordem_total a b : ordem a b \/ ordem b a.
Proof.
  unfold ordem, chave_menor_igual.
  destruct (sort_key a) as [fa ta], (sort_key b) as [fb tb]; simpl.
  destruct (Z.ltb_spec fa fb), (Z.ltb_spec fb fa), (Z.eqb_spec fa fb),
    (Z.eqb_spec fb fa), (Z.leb_spec ta tb), (Z.leb_spec tb ta); simpl; auto; lia.
Qed.

Lemma ordem_trans a b c : ordem a b -> ordem b c -> ordem a c.
Proof.
  unfold ordem, chave_menor_igual.
  destruct (sort_key a) as [fa ta], (sort_key b) as [fb tb], (sort_key c) as [fc tc]; simpl.
  rewrite !orb_true_iff, !andb_true_iff, !Z.ltb_lt, !Z.eqb_eq, !Z.leb_le. lia.
Qed.

Lemma inserir_Forall (P : Horario -> Prop) x l :
  P x -> Forall P l -> Forall P (inserir x l).
Proof.
  intros Hx Hl. induction Hl as [|y l Hy Hl IH]; simpl.
  - by constructor.
  - destruct (chave_menor_igual _ _); repeat constructor; auto.
Qed.

Lemma sorted_Forall (P : Horario -> Prop) l : Forall P l -> Forall P (sorted l).
Proof.
  induction 1 as [|x l Hx Hl IH]; simpl; [constructor|].
  by apply inserir_Forall.
Qed.

Lemma inserir_length x l : length (inserir x l) = S (length l).
Proof.
  induction l as [|y l IH]; simpl; [done|].
  destruct (chave_menor_igual _ _); simpl; by rewrite ?IH.
Qed.

Lemma sorted_length l : length (sorted l) = length l.
Proof. induction l as [|x l IH]; simpl; [done|]. by rewrite inserir_length, IH. Qed.

Lemma inserir_StronglySorted x l :
  StronglySorted ordem l -> StronglySorted ordem (inserir x l).
Proof.
  induction 1 as [|y l Hl IH Hy]; simpl.
  - repeat constructor.
  - destruct (chave_menor_igual (sort_key x) (sort_key y)) eqn:Hxy.
    + constructor; [by constructor|].
      constructor; [exact Hxy|].
      eapply Forall_impl; [exact Hy|]. intros z Hz. by eapply ordem_trans.
    + constructor; [exact IH|].
      apply inserir_Forall; [|exact Hy].
      destruct (ordem_total x y) as [H|H]; [unfold ordem in H; congruence|exact H].
Qed.

Lemma sorted_StronglySorted l : StronglySorted ordem (sorted l).
Proof.
  induction l as [|x l IH]; simpl; [constructor|]. by apply inserir_StronglySorted.
Qed.

Lemma StronglySorted_take (R : Horario -> Horario -> Prop) n l :
  StronglySorted R l -> StronglySorted R (take n l).
Proof.
  intros H. revert n. induction H as [|x l Hl IH Hx]; intros [|n]; simpl; try constructor.
  - apply IH.
  - by apply Forall_take.
Qed.

Lemma StronglySorted_lookup (R : Horario -> Horario -> Prop) l (i j : nat) a b :
  StronglySorted R l -> (i < j)%nat -> l !! i = Some a -> l !! j = Some b -> R a b.
Proof.
  intros H. revert i j. induction H as [|x l Hl IH Hx]; intros i j Hij Hi Hj.
  - by rewrite lookup_nil in Hi.
  - destruct j as [|j]; [lia|]. destruct i as [|i]; simpl in *.
    + inversion Hi; subst. rewrite Forall_forall in Hx.
      apply Hx. eapply list_elem_of_lookup_2. exact Hj.
    + eapply IH; [|exact Hi|exact Hj]. lia.
Qed.

(** A key compares as its two components do. *)
Lemma ordem_quinta a b :
  ordem a b ->
  (weekday (h_dia b) = 3 -> weekday (h_dia a) = 3)
  /\ ((weekday (h_dia a) = 3 <-> weekday (h_dia b) = 3) -> h_timestamp a <= h_timestamp b).
Proof.
  unfold ordem, chave_menor_igual, sort_key.
  destruct (Z.eqb_spec (weekday (h_dia a)) 3), (Z.eqb_spec (weekday (h_dia b)) 3); simpl;
    rewrite ?orb_true_iff, ?andb_true_iff, ?Z.ltb_lt, ?Z.eqb_eq, ?Z.leb_le;
    intros H; split; intros; try tauto; try lia.
Qed.

(** ** Slot generation *)

Lemma duracao_da_row_min row : 5 <= duracao_da_row row.
Proof.
  unfold duracao_da_row. destruct (row_duracao_consulta row) as [d|]; [|lia].
  destruct (Z.eqb_spec d 0); [lia|]. destruct (Z.ltb_spec d 5); lia.
Qed.

Lemma weekday_range d : 0 <= weekday d < 7.
Proof. unfold weekday. apply Z.mod_pos_bound. lia. Qed.


Section Propriedades_da_geracao.

Variable mktime : Z -> Z.
Variable hoje : Z.
Variable agora : Z.
Variable db : Banco.

Local Abbreviation valido := (slot_valido hoje agora db).


Lemma laco_slots_valido fuel row medico_id data_atual dia_semana duracao fim :
  hoje <= data_atual < hoje + 50 ->
  weekday data_atual < 5 ->
  forall slot horarios,
    Forall valido horarios ->
    Forall valido
      (laco_slots mktime hoje agora db fuel row medico_id data_atual dia_semana duracao fim
         slot horarios).
Proof.
  intros Hdia Hsem. induction fuel as [|fuel IH]; intros slot horarios Hh; simpl; [done|].
  destruct (slot <? fim); [|done].
  destruct (5 <=? Z.of_nat (length horarios)); [done|].
  destruct ((data_atual =? hoje) && _) eqn:Hpassado; [by apply IH|].
  destruct (_verificar_disponibilidade_slot_simples db medico_id data_atual slot) eqn:Hlivre;
    [|by apply IH].
  apply IH. apply Forall_app; split; [done|]. constructor; [|constructor].
  unfold slot_valido; simpl. split; [lia|]. split; [lia|]. split; [|exact Hlivre].
  intros ->. rewrite Z.eqb_refl in Hpassado. simpl in Hpassado.
  apply Z.leb_gt in Hpassado. lia.
Qed.

Lemma laco_slots_length fuel row medico_id data_atual dia_semana duracao fim :
  forall slot horarios,
    (length horarios <= 5)%nat ->
    (length (laco_slots mktime hoje agora db fuel row medico_id data_atual dia_semana
               duracao fim slot horarios) <= 5)%nat.
Proof.
  induction fuel as [|fuel IH]; intros slot horarios Hh; simpl; [done|].
  destruct (slot <? fim); [|done].
  destruct (Z.leb_spec 5 (Z.of_nat (length horarios))); [done|].
  destruct ((data_atual =? hoje) && _); [by apply IH|].
  destruct (_verificar_disponibilidade_slot_simples db medico_id data_atual slot);
    [|by apply IH].
  apply IH. rewrite length_app. simpl. lia.
Qed.

(** The fuel of [corpo_da_row] never cuts the loop short: with a step of at
    least one minute, any larger fuel gives the same list. *)
Lemma laco_slots_combustivel row medico_id data_atual dia_semana duracao fim :
  0 < duracao ->
  forall fuel fuel' slot horarios,
    (Z.to_nat (fim - slot) <= fuel)%nat ->
    (Z.to_nat (fim - slot) <= fuel')%nat ->
    laco_slots mktime hoje agora db fuel row medico_id data_atual dia_semana duracao fim
      slot horarios
    = laco_slots mktime hoje agora db fuel' row medico_id data_atual dia_semana duracao fim
        slot horarios.
Proof.
  intros Hd. induction fuel as [|fuel IH]; intros fuel' slot horarios Hf Hf'.
  - destruct fuel' as [|fuel']; simpl; [done|].
    destruct (Z.ltb_spec slot fim); [lia|done].
  - destruct fuel' as [|fuel']; simpl.
    + destruct (Z.ltb_spec slot fim); [lia|done].
    + destruct (Z.ltb_spec slot fim); [|done].
      destruct (5 <=? Z.of_nat (length horarios)); [done|].
      destruct ((data_atual =? hoje) && _); [apply IH; lia|].
      destruct (_verificar_disponibilidade_slot_simples db medico_id data_atual slot);
        apply IH; lia.
Qed.

Lemma corpo_da_row_valido row medico_id data_atual dia_semana horarios resto horarios' :
  hoje <= data_atual < hoje + 50 ->
  weekday data_atual < 5 ->
  (forall hs hs', Forall valido hs -> resto hs = Some hs' -> Forall valido hs') ->
  Forall valido horarios ->
  corpo_da_row mktime hoje agora db row medico_id data_atual dia_semana horarios resto
    = Some horarios' ->
  Forall valido horarios'.
Proof.
  intros Hdia Hsem Hresto Hh. unfold corpo_da_row.
  destruct (row_hora_inicio row) as [hora_inicio|]; [|done].
  destruct (row_hora_fim row) as [hora_fim|]; [|done].
  pose proof (laco_slots_valido (Z.to_nat (hora_fim - hora_inicio)) row medico_id data_atual
                dia_semana (duracao_da_row row) hora_fim Hdia Hsem hora_inicio horarios Hh)
    as Hslots.
  destruct (5 <=? _); [intros [= <-]; done|].
  intros Hr. by eapply Hresto.
Qed.

Lemma laco_rows_valido rows data_atual dia_semana :
  hoje <= data_atual < hoje + 50 ->
  weekday data_atual < 5 ->
  forall horarios horarios',
    Forall valido horarios ->
    laco_rows mktime hoje agora db rows data_atual dia_semana horarios = Some horarios' ->
    Forall valido horarios'.
Proof.
  intros Hdia Hsem. induction rows as [|row rows IH]; intros horarios horarios' Hh; simpl.
  - by intros [= <-].
  - destruct (negb (row_dia_semana row =? dia_semana)); [by apply IH|].
    destruct (Medico_find_by_id db (medico_da_row row)) as [medico|].
    + destruct (negb (Medico.agenda_aberta medico data_atual)); [by apply IH|].
      by apply corpo_da_row_valido.
    + by apply corpo_da_row_valido.
Qed.

Lemma laco_dias_valido dias rows :
  Forall (fun dia => 0 <= dia < 50) dias ->
  forall horarios horarios',
    Forall valido horarios ->
    laco_dias mktime hoje agora db dias rows horarios = Some horarios' ->
    Forall valido horarios'.
Proof.
  induction 1 as [|dia dias Hdia Hdias IH]; intros horarios horarios' Hh; simpl.
  - by intros [= <-].
  - destruct (Z.leb_spec 5 (weekday (hoje + dia))); [by apply IH|].
    destruct (laco_rows _ _ _ _ _ _ _ _) as [hs|] eqn:Hrows; [|done].
    assert (Forall valido hs) by (eapply laco_rows_valido; [| |exact Hh|exact Hrows]; lia).
    destruct (5 <=? _); [by intros [= <-]|]. by apply IH.
Qed.

Lemma laco_rows_length rows data_atual dia_semana :
  forall horarios horarios',
    (length horarios <= 5)%nat ->
    laco_rows mktime hoje agora db rows data_atual dia_semana horarios = Some horarios' ->
    (length horarios' <= 5)%nat.
Proof.
  assert (Hcorpo : forall row medico_id horarios resto horarios',
            (forall hs hs', (length hs <= 5)%nat -> resto hs = Some hs' ->
                            (length hs' <= 5)%nat) ->
            (length horarios <= 5)%nat ->
            corpo_da_row mktime hoje agora db row medico_id data_atual dia_semana horarios
              resto = Some horarios' ->
            (length horarios' <= 5)%nat).
  { intros row medico_id horarios resto horarios' Hresto Hh. unfold corpo_da_row.
    destruct (row_hora_inicio row) as [hora_inicio|]; [|done].
    destruct (row_hora_fim row) as [hora_fim|]; [|done].
    pose proof (laco_slots_length (Z.to_nat (hora_fim - hora_inicio)) row medico_id
                  data_atual dia_semana (duracao_da_row row) hora_fim hora_inicio horarios Hh).
    destruct (5 <=? _); [by intros [= <-]|]. intros Hr. by eapply Hresto. }
  induction rows as [|row rows IH]; intros horarios horarios' Hh; simpl.
  - by intros [= <-].
  - destruct (negb (row_dia_semana row =? dia_semana)); [by apply IH|].
    destruct (Medico_find_by_id db (medico_da_row row)) as [medico|].
    + destruct (negb (Medico.agenda_aberta medico data_atual)); [by apply IH|].
      by apply Hcorpo.
    + by apply Hcorpo.
Qed.

Lemma laco_dias_length dias rows :
  forall horarios horarios',
    (length horarios <= 5)%nat ->
    laco_dias mktime hoje agora db dias rows horarios = Some horarios' ->
    (length horarios' <= 5)%nat.
Proof.
  induction dias as [|dia dias IH]; intros horarios horarios' Hh; simpl.
  - by intros [= <-].
  - destruct (5 <=? weekday (hoje + dia)); [by apply IH|].
    destruct (laco_rows _ _ _ _ _ _ _ _) as [hs|] eqn:Hrows; [|done].
    pose proof (laco_rows_length _ _ _ _ _ Hh Hrows).
    destruct (5 <=? _); [by intros [= <-]|]. by apply IH.
Qed.

(** The loops stop at five entries, so the final slice keeps the whole
    sorted list. *)
Lemma gerar_sem_corte rows horarios :
  laco_dias mktime hoje agora db (range 50) rows [] = Some horarios ->
  _gerar_horarios_disponiveis mktime hoje agora db rows = sorted horarios.
Proof.
  intros H. unfold _gerar_horarios_disponiveis. rewrite H.
  apply take_ge. rewrite sorted_length.
  eapply laco_dias_length; [|exact H]. simpl. lia.
Qed.

Lemma range_limites n : Forall (fun dia => 0 <= dia < Z.of_nat n) (range n).
Proof.
  unfold range. rewrite Forall_forall. intros dia Hin.
  apply list_elem_of_In, in_map_iff in Hin as (k & <- & Hk). apply in_seq in Hk. lia.
Qed.

Lemma gerar_valido rows :
  Forall valido (_gerar_horarios_disponiveis mktime hoje agora db rows).
Proof.
  unfold _gerar_horarios_disponiveis.
  destruct (laco_dias _ _ _ _ _ _ _) as [hs|] eqn:Hdias; [|constructor].
  apply Forall_take, sorted_Forall.
  eapply laco_dias_valido; [|constructor|exact Hdias].
  apply (range_limites 50).
Qed.


(** C2: a generated slot list has at most 5 entries, none on a Saturday or
    Sunday, none dated today at or before the current time plus one hour,
    and all dated within the 50 days that start today. *)
Theorem C2_limites_da_lista (rows : list Row) :
  (length (_gerar_horarios_disponiveis mktime hoje agora db rows) <= 5)%nat
  /\ Forall (fun h =>
       weekday (h_dia h) <> 5 /\ weekday (h_dia h) <> 6
       /\ (h_dia h = hoje ->
           agora + 60 * micros_por_minuto < instante (h_dia h) (h_minuto h))
       /\ hoje <= h_dia h < hoje + 50)
       (_gerar_horarios_disponiveis mktime hoje agora db rows).
Proof.
  split.
  - unfold _gerar_horarios_disponiveis.
    destruct (laco_dias _ _ _ _ _ _ _); simpl; [|lia].
    rewrite length_take. lia.
  - eapply Forall_impl; [apply gerar_valido|].
    intros h (Hdia & Hsem & Hhoje & _).
    split; [lia|]. split; [lia|]. split; [exact Hhoje|lia].
Qed.

(** C3: in a generated slot list an entry on a Thursday never comes after
    an entry on another day, and two entries that are both on a Thursday, or
    both on other days, come in non-decreasing order of timestamp. *)
Theorem C3_quinta_primeiro (rows : list Row) (i j : nat) (a b : Horario) :
  (i < j)%nat ->
  _gerar_horarios_disponiveis mktime hoje agora db rows !! i = Some a ->
  _gerar_horarios_disponiveis mktime hoje agora db rows !! j = Some b ->
  (weekday (h_dia b) = 3 -> weekday (h_dia a) = 3)
  /\ ((weekday (h_dia a) = 3 <-> weekday (h_dia b) = 3) -> h_timestamp a <= h_timestamp b).
Proof.
  intros Hij Ha Hb. apply ordem_quinta.
  eapply (StronglySorted_lookup ordem); [|exact Hij|exact Ha|exact Hb].
  unfold _gerar_horarios_disponiveis.
  destruct (laco_dias _ _ _ _ _ _ _); [|constructor].
  apply StronglySorted_take, sorted_StronglySorted.
Qed.

End Propriedades_da_geracao.

(** ** The choice interpreter *)

(** C9: on a non-empty candidate list, a message that is not a number and
    holds neither a date fragment nor a time fragment selects the first
    candidate. *)
Theorem C9_primeiro_candidato (strip : string -> string) (agora : Z) (mensagem : string)
    (primeiro : Horario) (demais : list Horario) :
  numero_match (strip mensagem) = None ->
  buscar_data mensagem = None ->
  buscar_hora mensagem = None ->
  _interpretar_escolha_horario strip agora mensagem (primeiro :: demais) = Some primeiro.
Proof.
  intros Hnum Hdata Hhora.
  unfold _interpretar_escolha_horario, data_encontrada, hora_encontrada.
  rewrite Hnum, Hdata, Hhora. reflexivity.
Qed.

(** ** The state machine *)

Ltac passo :=
  unfold mbind, M_bind, mret, M_ret, raise, tentar, devolver, set_estado, set_dados,
    set_paciente_id, get_dados, ler_conversa, ler_banco, gravar_banco; simpl.

Section Propriedades_do_servico.

Variable lower : string -> string.
Variable strip : string -> string.
Variable strptime_data : string -> string -> option Z.
Variable _extrair_email : string -> option string.
Variable gemini : string -> option string.
Variable mktime : Z -> Z.
Variable hoje : Z.
Variable agora : Z.

Local Abbreviation processar := (processar_mensagem lower strip strptime_data _extrair_email gemini
                         mktime hoje agora).
Local Abbreviation despacho := (despachar lower strip strptime_data _extrair_email gemini
                        mktime hoje agora).


Lemma _processar_inicio_ok mensagem w :
  exists r e,
    _processar_inicio lower strip gemini mensagem w
    = (Ok r, mkMundo (mkConversa e (dados (conversa w)) (paciente_id (conversa w))) (banco w)).
Proof.
  destruct w as [[e d p] b]. unfold _processar_inicio.
  repeat case_match; passo; eauto.
Qed.

(** C10: a message whose lower-cased text contains a greeting and no
    cancellation keyword is handled, in every state, by the start handler
    on the conversation reset to 'inicio' with an empty draft; whatever the
    draft held is gone afterwards. *)
Theorem C10_saudacao_reinicia (mensagem : string) (w : Mundo) :
  _eh_saudacao_em (lower mensagem) = true ->
  _eh_cancelamento_em (lower mensagem) = false ->
  processar mensagem w
  = devolver (_processar_inicio lower strip gemini mensagem) (reiniciada w)
  /\ dados (conversa (snd (processar mensagem w))) = ∅.
Proof.
  intros Hsaud Hcanc.
  assert (Heq : processar mensagem w
                = devolver (_processar_inicio lower strip gemini mensagem) (reiniciada w)).
  { unfold processar_mensagem, despachar, _eh_cancelamento, _eh_saudacao.
    passo. rewrite Hcanc, Hsaud, andb_false_r. passo.
    destruct (_processar_inicio_ok mensagem (reiniciada w)) as (r & e & Hr).
    unfold reiniciada in *. simpl in *. rewrite Hr. reflexivity. }
  split; [exact Heq|]. rewrite Heq.
  destruct (_processar_inicio_ok mensagem (reiniciada w)) as (r & e & Hr).
  unfold devolver. passo. rewrite Hr. reflexivity.
Qed.

(** *** Faults *)


(** An unknown CPF in the cancellation or lookup flow: the reply names
    'inicio' as the next state and the conversation is left as it was. *)
Lemma cpf_desconhecido_mantem_estado (mensagem cpf : string) (w : Mundo) :
  _extrair_cpf mensagem = Some cpf ->
  Paciente_find_by_cpf (banco w) cpf = None ->
  estado (conversa w) = "cancelamento" \/ estado (conversa w) = "consulta_agendamentos" ->
  _processar_cpf lower mensagem w
  = (Ok (resposta false (Formatado "cpf_nao_encontrado_sem_cadastro") "texto" "inicio"), w).
Proof.
  intros Hcpf Hpac Hest. unfold _processar_cpf. rewrite Hcpf. passo. rewrite Hpac. passo.
  destruct Hest as [-> | ->]; reflexivity.
Qed.




(** *** Confirmation *)


Lemma maior_id_limite {A} (id : A -> Z) (l : list A) (a : A) :
  In a l -> id a <= maior_id id l.
Proof.
  induction l as [|x l IH]; simpl; [done|]. intros [-> | Hin]; [lia|].
  specialize (IH Hin). lia.
Qed.

Lemma parametro_texto_ok (v : JVal) (w : Mundo) :
  (forall ids, v <> JLista ids) -> exists t, parametro_texto v w = (Ok t, w).
Proof. intros Hv. destruct v as [|[]| | |ids]; passo; eauto. by destruct (Hv ids). Qed.

(** The affirmative branch on a valid selection: one row is appended, with
    the default status, and the conversation is finished. *)
Lemma confirmar_cria_agendamento (w : Mundo) (p m e l : Z) (data hora : string) :
  selecao_valida w (dados (conversa w)) p m e l data hora ->
  exists r a,
    tentar (confirmar_agendamento (dados (conversa w)))
      (fun _ => mret (resposta false
                        (Literal "Erro ao confirmar agendamento. Tente novamente.")
                        "erro" "horarios")) w
    = (Ok r,
       mkMundo (mkConversa "finalizado" ∅ (Some p))
         (mkBanco (pacientes (banco w)) (locais (banco w)) (especialidades (banco w))
            (medicos (banco w)) (horarios_disponiveis (banco w))
            (agendamentos (banco w) ++ [a]) (seq_pacientes (banco w))
            (Z.max (seq_agendamentos (banco w))
               (maior_id Agendamento.id (agendamentos (banco w))) + 1)))
    /\ Agendamento.paciente_id a = p
    /\ Agendamento.medico_id a = m
    /\ Agendamento.especialidade_id a = e
    /\ Agendamento.local_id a = l
    /\ Agendamento.data a = data
    /\ Agendamento.hora a = hora
    /\ Agendamento.status a = "agendado"
    /\ Agendamento.id a
       = Z.max (seq_agendamentos (banco w))
           (maior_id Agendamento.id (agendamentos (banco w))) + 1.
Proof.
  destruct w as [[est d pid] b]. unfold selecao_valida. simpl.
  intros (-> & Hm & He & Hl & Hdata & Hhora & Hanexo & Hp & Hmed & Hesp & Hloc).
  unfold confirmar_agendamento, tentar.
  (* the attachment block answers without touching the conversation *)
  set (w := mkMundo (mkConversa est d (Some p)) b).
  assert (Hbloco : exists op,
    (if verdadeiro (dget d "anexo_recebido")
     then mret ("✅ Pedido médico anexado via chatbot",
                ("anexos/" ++ py_str (dget_padrao d "anexo_nome" (JStr "")))%string)
     else if negb (verdadeiro (dget_padrao d "anexo_nome" (JStr "")))
     then especialidade_id ← subscrito d "especialidade_id";
          especialidade ← Especialidade_do_rascunho especialidade_id;
          match especialidade with
          | Some esp =>
              if Especialidade.requer_anexo esp
              then mret ("⚠️ Especialidade requer pedido médico - levar documento físico", "")
              else mret ("", "")
          | None => mret ("", "")
          end
     else mret ("", "")) w = (Ok op, w)).
  { destruct (verdadeiro (dget d "anexo_recebido")); [passo; eauto|].
    destruct (negb _); [|passo; eauto].
    unfold subscrito, Especialidade_do_rascunho. rewrite He. passo.
    destruct (Especialidade_find_by_id b e) as [esp|]; [|eauto].
    destruct (Especialidade.requer_anexo esp); eauto. }
  destruct Hbloco as ([obs path] & Hbloco).
  unfold mbind at 1. unfold M_bind at 1. rewrite Hbloco.
  assert (Hnome : forall ids, dget_padrao d "anexo_nome" (JStr "") <> JLista ids).
  { intros ids. unfold dget_padrao. destruct (d !! "anexo_nome") as [v|] eqn:Hv; simpl.
    - intros ->. by apply (Hanexo ids).
    - done. }
  destruct (parametro_texto_ok _ w Hnome) as (nome & Hnome').
  unfold subscrito. rewrite Hm, He, Hl, Hdata, Hhora. subst w. passo.
  unfold mbind, M_bind in Hnome'. 
  replace (parametro_texto (dget_padrao d "anexo_nome" (JStr ""))
             (mkMundo (mkConversa est d (Some p)) b))
    with (Ok nome, mkMundo (mkConversa est d (Some p)) b).
  unfold Agendamento_create. passo. rewrite Hp, Hmed, Hesp, Hloc. passo.
  repeat case_match; simplify_eq; do 2 eexists; (split; [reflexivity|]); simpl; done.
Qed.

(** C4 (amended): in [_processar_confirmacao], an affirmative message on a
    valid selection appends exactly one appointment with the doctor,
    specialty, date and time of the draft and the status 'agendado', empties
    the draft and sets the state 'finalizado'; a negative message that is
    not affirmative sets the state 'horarios' and leaves the draft and the
    tables as they are; a message that is neither leaves everything as it
    is and asks again. *)
Theorem C4_confirmacao (mensagem : string) (w : Mundo) :
  (eh_afirmativa (strip (lower mensagem)) = true ->
   forall p m e l data hora,
     selecao_valida w (dados (conversa w)) p m e l data hora ->
     exists r a w',
       _processar_confirmacao lower strip mensagem (dados (conversa w)) w = (Ok r, w')
       /\ agendamentos (banco w') = (agendamentos (banco w) ++ [a])%list
       /\ Agendamento.medico_id a = m
       /\ Agendamento.especialidade_id a = e
       /\ Agendamento.data a = data
       /\ Agendamento.hora a = hora
       /\ Agendamento.status a = "agendado"
       /\ estado (conversa w') = "finalizado"
       /\ dados (conversa w') = ∅)
  /\ (eh_afirmativa (strip (lower mensagem)) = false ->
      eh_negativa (strip (lower mensagem)) = true ->
      _processar_confirmacao lower strip mensagem (dados (conversa w)) w
      = (Ok (resposta true
               (Literal "Agendamento cancelado. Vou mostrar outros horários disponíveis:")
               "horarios" "horarios"),
         mkMundo (mkConversa "horarios" (dados (conversa w)) (paciente_id (conversa w)))
           (banco w)))
  /\ (eh_afirmativa (strip (lower mensagem)) = false ->
      eh_negativa (strip (lower mensagem)) = false ->
      _processar_confirmacao lower strip mensagem (dados (conversa w)) w
      = (Ok (resposta false
               (Literal "Não entendi sua resposta. Por favor, digite **'sim'** para confirmar o agendamento ou **'não'** para cancelar:")
               "confirmacao" "confirmacao"),
         w)).
Proof.
  unfold _processar_confirmacao. split; [|split].
  - intros -> p m e l data hora Hsel.
    destruct (confirmar_cria_agendamento w p m e l data hora Hsel)
      as (r & a & Hr & _ & Hm & He & _ & Hdata & Hhora & Hstatus & _).
    rewrite Hr. do 3 eexists. split; [reflexivity|]. simpl. done.
  - intros -> ->. reflexivity.
  - intros -> ->. by destruct w.
Qed.

(** *** Slot choice *)

Lemma laco_dias_sem_rows (db : Banco) (dias : list Z) :
  laco_dias mktime hoje agora db dias [] [] = Some [].
Proof.
  induction dias as [|dia dias IH]; simpl; [done|].
  destruct (5 <=? weekday (hoje + dia)); done.
Qed.

Lemma gerar_sem_rows (db : Banco) :
  _gerar_horarios_disponiveis mktime hoje agora db [] = [].
Proof. unfold _gerar_horarios_disponiveis. by rewrite laco_dias_sem_rows. Qed.

Lemma interpretar_sem_horarios (mensagem : string) :
  _interpretar_escolha_horario strip agora mensagem [] = None.
Proof.
  unfold _interpretar_escolha_horario.
  destruct (numero_match (strip mensagem)) as [n|]; [|done].
  simpl. destruct (_ && _); [|done]. by destruct (Z.to_nat (n - 1)).
Qed.

Lemma find_by_id_tem_id (db : Banco) (e : Z) (esp : Especialidade.t) :
  Especialidade_find_by_id db e = Some esp ->
  tem_id Especialidade.id e (especialidades db) = true.
Proof.
  unfold Especialidade_find_by_id, tem_id. intros H.
  apply find_some in H as [Hin Heq]. apply existsb_exists. eauto.
Qed.

(** A slot chosen for a specialty that requires an attachment: the
    placeholder row is appended and its id goes to the draft. *)
Lemma escolha_cria_temporario (mensagem : string) (w : Mundo) (d : gmap string JVal)
    (l e p : Z) (escolha : Horario) (esp : Especialidade.t) :
  d !! "local_id" = Some (JInt l) -> l <> 0 ->
  d !! "especialidade_id" = Some (JInt e) -> e <> 0 ->
  mensagem <> "" -> strip mensagem <> "" ->
  _interpretar_escolha_horario strip agora mensagem
    (_gerar_horarios_disponiveis mktime hoje agora (banco w)
       (consulta_medicos_horarios (banco w) e l)) = Some escolha ->
  Especialidade_find_by_id (banco w) e = Some esp ->
  Especialidade.requer_anexo esp = true ->
  paciente_id (conversa w) = Some p ->
  tem_id Paciente.id p (pacientes (banco w)) = true ->
  tem_id Medico.id (h_medico_id escolha) (medicos (banco w)) = true ->
  tem_id Local.id (h_local_id escolha) (locais (banco w)) = true ->
  exists t w',
    _processar_horarios strip mktime hoje agora mensagem d w
    = (Ok (resposta true (Formatado "pedido_medico_obrigatorio")
             "solicitacao_anexo" "solicitacao_anexo"), w')
    /\ estado (conversa w') = "solicitacao_anexo"
    /\ agendamentos (banco w') = (agendamentos (banco w) ++ [t])%list
    /\ Agendamento.status t = "pendente_anexo"
    /\ Agendamento.medico_id t = h_medico_id escolha
    /\ Agendamento.data t = h_data escolha
    /\ Agendamento.hora t = h_hora escolha
    /\ dados (conversa w') !! "agendamento_temp_id" = Some (JInt (Agendamento.id t)).
Proof.
  destruct w as [[est d0 pid] b]. simpl.
  intros Hl Hl0 He He0 Hmsg Hstrip Hesc Hesp Hreq -> Hp Hmed Hloc.
  unfold _processar_horarios, dget. rewrite Hl, He. simpl.
  apply Z.eqb_neq in Hl0, He0. rewrite Hl0, He0. passo.
  apply String.eqb_neq in Hmsg, Hstrip.
  destruct (consulta_medicos_horarios b e l) as [|row rows] eqn:Hrows.
  { rewrite gerar_sem_rows, interpretar_sem_horarios in Hesc. done. }
  destruct (_gerar_horarios_disponiveis mktime hoje agora b (row :: rows))
    as [|h hs] eqn:Hger.
  { rewrite interpretar_sem_horarios in Hesc. done. }
  rewrite Hmsg, Hstrip, Hesc. passo.
  unfold Especialidade_do_rascunho. passo. rewrite Hesp, Hreq. passo.
  unfold Agendamento_create. passo.
  rewrite Hp, Hmed, (find_by_id_tem_id _ _ _ Hesp), Hloc. passo.
  do 2 eexists. split; [reflexivity|]. simpl.
  repeat (split; [reflexivity|]). apply lookup_insert_eq.
Qed.

(** C6 (amended): when the chosen specialty requires an attachment, the
    slot choice appends a placeholder appointment with status
    'pendente_anexo' and the state becomes 'solicitacao_anexo'; the
    confirmation then appends a separate appointment with status 'agendado'
    under a new id, and every row the table held, the placeholder with its
    status 'pendente_anexo' among them, stays as it was. *)
Theorem C6_temporario_e_confirmacao :
  (forall (mensagem : string) (w : Mundo) (d : gmap string JVal) (l e p : Z)
          (escolha : Horario) (esp : Especialidade.t),
     d !! "local_id" = Some (JInt l) -> l <> 0 ->
     d !! "especialidade_id" = Some (JInt e) -> e <> 0 ->
     mensagem <> "" -> strip mensagem <> "" ->
     _interpretar_escolha_horario strip agora mensagem
       (_gerar_horarios_disponiveis mktime hoje agora (banco w)
          (consulta_medicos_horarios (banco w) e l)) = Some escolha ->
     Especialidade_find_by_id (banco w) e = Some esp ->
     Especialidade.requer_anexo esp = true ->
     paciente_id (conversa w) = Some p ->
     tem_id Paciente.id p (pacientes (banco w)) = true ->
     tem_id Medico.id (h_medico_id escolha) (medicos (banco w)) = true ->
     tem_id Local.id (h_local_id escolha) (locais (banco w)) = true ->
     exists r t w',
       _processar_horarios strip mktime hoje agora mensagem d w = (Ok r, w')
       /\ tipo r = "solicitacao_anexo"
       /\ estado (conversa w') = "solicitacao_anexo"
       /\ agendamentos (banco w') = (agendamentos (banco w) ++ [t])%list
       /\ Agendamento.status t = "pendente_anexo"
       /\ dados (conversa w') !! "agendamento_temp_id" = Some (JInt (Agendamento.id t)))
  /\ (forall (mensagem : string) (w : Mundo) (t : Agendamento.t) (p m e l : Z)
             (data hora : string),
        In t (agendamentos (banco w)) ->
        Agendamento.status t = "pendente_anexo" ->
        eh_afirmativa (strip (lower mensagem)) = true ->
        selecao_valida w (dados (conversa w)) p m e l data hora ->
        exists r a w',
          _processar_confirmacao lower strip mensagem (dados (conversa w)) w = (Ok r, w')
          /\ agendamentos (banco w') = (agendamentos (banco w) ++ [a])%list
          /\ Agendamento.status a = "agendado"
          /\ Agendamento.id a <> Agendamento.id t
          /\ In t (agendamentos (banco w'))).
Proof.
  split.
  - intros mensagem w d l e p escolha esp Hl Hl0 He He0 Hmsg Hstrip Hesc Hesp Hreq Hpid
      Hp Hmed Hloc.
    destruct (escolha_cria_temporario mensagem w d l e p escolha esp Hl Hl0 He He0 Hmsg
                Hstrip Hesc Hesp Hreq Hpid Hp Hmed Hloc)
      as (t & w' & Hr & Hest & Hag & Hst & _ & _ & _ & Htemp).
    exists (resposta true (Formatado "pedido_medico_obrigatorio")
              "solicitacao_anexo" "solicitacao_anexo"), t, w'.
    done.
  - intros mensagem w t p m e l data hora Hin Hst Hafirm Hsel.
    unfold _processar_confirmacao. rewrite Hafirm.
    destruct (confirmar_cria_agendamento w p m e l data hora Hsel)
      as (r & a & Hr & _ & _ & _ & _ & _ & _ & Hstatus & Hid).
    rewrite Hr. do 3 eexists. split; [reflexivity|]. simpl.
    split; [reflexivity|]. split; [exact Hstatus|]. split.
    + pose proof (maior_id_limite Agendamento.id _ _ Hin). lia.
    + apply in_or_app. by left.
Qed.

End Propriedades_do_servico.

(** * Further properties *)

(** ** Where the slots come from *)

Section Origem_dos_slots.

Variable mktime : Z -> Z.
Variable hoje : Z.
Variable agora : Z.
Variable db : Banco.

Lemma laco_slots_origem (P : Horario -> Prop) row medico_id data_atual dia_semana duracao
    fim inicio :
  (forall k, 0 <= k -> inicio + k * duracao < fim ->
             P (horario_info mktime db row medico_id data_atual dia_semana duracao
                  (inicio + k * duracao))) ->
  forall fuel k horarios,
    0 <= k ->
    Forall P horarios ->
    Forall P (laco_slots mktime hoje agora db fuel row medico_id data_atual dia_semana
                duracao fim (inicio + k * duracao) horarios).
Proof.
  intros Hinfo. induction fuel as [|fuel IH]; intros k horarios Hk Hh; simpl; [done|].
  destruct (Z.ltb_spec (inicio + k * duracao) fim); [|done].
  destruct (5 <=? Z.of_nat (length horarios)); [done|].
  replace (inicio + k * duracao + duracao) with (inicio + (k + 1) * duracao) by lia.
  destruct (_ && _); [apply IH; [lia|done]|].
  destruct (_verificar_disponibilidade_slot_simples _ _ _ _); [|apply IH; [lia|done]].
  apply IH; [lia|]. apply Forall_app; split; [done|]. constructor; [|constructor].
  by apply Hinfo.
Qed.

Lemma corpo_da_row_origem rows row medico_id data_atual horarios resto horarios' :
  In row rows ->
  row_dia_semana row = weekday data_atual ->
  medico_id = medico_da_row row ->
  (forall m, Medico_find_by_id db medico_id = Some m ->
             Medico.agenda_aberta m data_atual = true) ->
  (forall hs hs', Forall (origem mktime db rows) hs -> resto hs = Some hs' ->
                  Forall (origem mktime db rows) hs') ->
  Forall (origem mktime db rows) horarios ->
  corpo_da_row mktime hoje agora db row medico_id data_atual (weekday data_atual) horarios
    resto = Some horarios' ->
  Forall (origem mktime db rows) horarios'.
Proof.
  intros Hin Hsem -> Hagenda Hresto Hh. unfold corpo_da_row.
  destruct (row_hora_inicio row) as [hora_inicio|] eqn:Hi; [|done].
  destruct (row_hora_fim row) as [hora_fim|] eqn:Hf; [|done].
  assert (Hslots : Forall (origem mktime db rows)
            (laco_slots mktime hoje agora db (Z.to_nat (hora_fim - hora_inicio)) row
               (medico_da_row row) data_atual (weekday data_atual) (duracao_da_row row)
               hora_fim hora_inicio horarios)).
  { replace hora_inicio with (hora_inicio + 0 * duracao_da_row row) at 2 by lia.
    apply laco_slots_origem; [|lia|done].
    intros k Hk Hlt. exists row, hora_inicio, hora_fim, k. simpl.
    repeat (split; [done|]). done. }
  destruct (5 <=? _); [by intros [= <-]|]. intros Hr. by eapply Hresto.
Qed.

Lemma laco_rows_origem rows data_atual :
  forall rows', (forall row, In row rows' -> In row rows) ->
  forall horarios horarios',
    Forall (origem mktime db rows) horarios ->
    laco_rows mktime hoje agora db rows' data_atual (weekday data_atual) horarios
      = Some horarios' ->
    Forall (origem mktime db rows) horarios'.
Proof.
  induction rows' as [|row rows' IH]; intros Hsub horarios horarios' Hh; simpl.
  - by intros [= <-].
  - assert (Hsub' : forall r, In r rows' -> In r rows) by (intros r Hr; apply Hsub; by right).
    destruct (Z.eqb_spec (row_dia_semana row) (weekday data_atual)) as [Hsem|]; simpl;
      [|by apply IH].
    destruct (Medico_find_by_id db (medico_da_row row)) as [medico|] eqn:Hmed.
    + destruct (Medico.agenda_aberta medico data_atual) eqn:Hag; simpl; [|by apply IH].
      apply (corpo_da_row_origem rows); auto.
      * apply Hsub. by left.
      * intros m Hm. rewrite Hmed in Hm. by injection Hm as <-.
      * intros hs hs' Hhs. by apply IH.
    + apply (corpo_da_row_origem rows); auto.
      * apply Hsub. by left.
      * intros m Hm. rewrite Hmed in Hm. discriminate Hm.
      * intros hs hs' Hhs. by apply IH.
Qed.

Lemma laco_dias_origem dias rows :
  forall horarios horarios',
    Forall (origem mktime db rows) horarios ->
    laco_dias mktime hoje agora db dias rows horarios = Some horarios' ->
    Forall (origem mktime db rows) horarios'.
Proof.
  induction dias as [|dia dias IH]; intros horarios horarios' Hh; simpl.
  - by intros [= <-].
  - destruct (5 <=? weekday (hoje + dia)); [by apply IH|].
    destruct (laco_rows _ _ _ _ _ _ _ _) as [hs|] eqn:Hrows; [|done].
    assert (Forall (origem mktime db rows) hs)
      by (eapply laco_rows_origem; [|exact Hh|exact Hrows]; auto).
    destruct (5 <=? _); [by intros [= <-]|]. by apply IH.
Qed.

Lemma gerar_origem rows :
  Forall (origem mktime db rows) (_gerar_horarios_disponiveis mktime hoje agora db rows).
Proof.
  unfold _gerar_horarios_disponiveis.
  destruct (laco_dias _ _ _ _ _ _ _) as [hs|] eqn:Hdias; [|constructor].
  apply Forall_take, sorted_Forall. eapply laco_dias_origem; [constructor|exact Hdias].
Qed.

(** X1: every generated slot lies in the working hours of a row given to
    the generator: the row works on the weekday of the slot, the slot starts
    a whole number of consultations after the row's start time and before its
    end time, and it carries the row's doctor, location and duration, which
    is at least 5 minutes. *)
Theorem X1_slot_dentro_do_expediente (rows : list Row) :
  Forall (fun h =>
    exists row inicio fim k,
      In row rows
      /\ row_dia_semana row = weekday (h_dia h)
      /\ h_medico_id h = medico_da_row row
      /\ h_local_id h = row_local_id row
      /\ row_hora_inicio row = Some inicio
      /\ row_hora_fim row = Some fim
      /\ 0 <= k
      /\ h_minuto h = inicio + k * h_duracao h
      /\ inicio <= h_minuto h < fim
      /\ h_duracao h = duracao_da_row row
      /\ 5 <= h_duracao h)
    (_gerar_horarios_disponiveis mktime hoje agora db rows).
Proof.
  eapply Forall_impl; [apply gerar_origem|].
  intros h (row & inicio & fim & k & Hin & Hsem & Hmed & _ & Hloc & Hi & Hf & Hk & Hmin
            & Hfim & Hdur & _).
  pose proof (duracao_da_row_min row).
  exists row, inicio, fim, k. rewrite Hdur. repeat (split; [done || nia|]). lia.
Qed.

(** X2: no generated slot falls before the agenda-open date of its doctor:
    when the doctor of a slot is in the table, [agenda_aberta] holds on the
    date of the slot. *)
Theorem X2_agenda_aberta (rows : list Row) :
  Forall (fun h =>
    forall m, Medico_find_by_id db (h_medico_id h) = Some m ->
      Medico.agenda_aberta m (h_dia h) = true
      /\ forall abertura, Medico.data_abertura_agenda m = Some abertura ->
                          abertura <= h_dia h)
    (_gerar_horarios_disponiveis mktime hoje agora db rows).
Proof.
  eapply Forall_impl; [apply gerar_origem|].
  intros h (row & inicio & fim & k & _ & _ & _ & _ & _ & _ & _ & _ & _ & _ & _ & Hag & _)
    m Hm.
  specialize (Hag m Hm). split; [done|]. intros abertura Hab.
  unfold Medico.agenda_aberta in Hag. rewrite Hab in Hag. lia.
Qed.

(** X3: the weekday name a generated slot carries is the name of the
    weekday of its date, one of Segunda to Sexta, and its timestamp is the
    timestamp of its date and time. *)
Theorem X3_rotulo_do_dia (rows : list Row) :
  Forall (fun h =>
    h_dia_semana h = nth (Z.to_nat (weekday (h_dia h))) nomes_dias "N/A"
    /\ In (h_dia_semana h) ["Segunda"; "Terça"; "Quarta"; "Quinta"; "Sexta"]
    /\ h_timestamp h = mktime (h_dia h * 1440 + h_minuto h))
    (_gerar_horarios_disponiveis mktime hoje agora db rows).
Proof.
  apply Forall_forall. intros h Hh.
  pose proof (proj1 (Forall_forall _ _) (gerar_origem rows) h Hh)
    as (row & inicio & fim & k & _ & _ & _ & _ & _ & _ & _ & _ & _ & _ & _ & _ & Hnome & Hts).
  pose proof (proj1 (Forall_forall _ _) (gerar_valido mktime hoje agora db rows) h Hh)
    as (_ & Hsem & _).
  split; [done|]. split; [|done]. rewrite Hnome.
  pose proof (weekday_range (h_dia h)) as Hr.
  assert (Hc : weekday (h_dia h) = 0 \/ weekday (h_dia h) = 1 \/ weekday (h_dia h) = 2
               \/ weekday (h_dia h) = 3 \/ weekday (h_dia h) = 4) by lia.
  destruct Hc as [-> | [-> | [-> | [-> | ->]]]]; simpl; auto 6.
Qed.

Lemma inserir_Permutation x l : inserir x l ≡ₚ x :: l.
Proof.
  induction l as [|y l IH]; simpl; [done|].
  destruct (chave_menor_igual _ _); [done|]. rewrite IH. apply Permutation_swap.
Qed.

Lemma sorted_Permutation l : sorted l ≡ₚ l.
Proof.
  induction l as [|x l IH]; simpl; [done|]. by rewrite inserir_Permutation, IH.
Qed.

(** X4: the collecting loops stop at five entries, so the final slice drops
    nothing: when no exception occurs the result is a rearrangement of the
    entries collected, in the order of the sort. *)
Theorem X4_lista_e_permutacao (rows : list Row) (horarios : list Horario) :
  laco_dias mktime hoje agora db (range 50) rows [] = Some horarios ->
  _gerar_horarios_disponiveis mktime hoje agora db rows ≡ₚ horarios
  /\ StronglySorted ordem (_gerar_horarios_disponiveis mktime hoje agora db rows)
  /\ (length horarios <= 5)%nat.
Proof.
  intros H. rewrite (gerar_sem_corte _ _ _ _ _ _ H).
  split; [apply sorted_Permutation|]. split; [apply sorted_StronglySorted|].
  eapply laco_dias_length; [|exact H]. simpl. lia.
Qed.

End Origem_dos_slots.

(** ** Writes to the appointments table *)

Lemma find_id_novo (l : list Agendamento.t) (a : Agendamento.t) :
  maior_id Agendamento.id l < Agendamento.id a ->
  find (fun x => Agendamento.id x =? Agendamento.id a) (l ++ [a]) = Some a.
Proof.
  intros Hmax. induction l as [|x l IH]; simpl.
  - by rewrite Z.eqb_refl.
  - simpl in Hmax. destruct (Z.eqb_spec (Agendamento.id x) (Agendamento.id a)); [lia|].
    apply IH. lia.
Qed.

(** What a successful [Agendamento.create] returns and leaves. *)
Lemma create_ok_linha (paciente_id medico_id especialidade_id local_id : option Z)
    (data hora observacoes status anexo_nome anexo_path : option string)
    (w w' : Mundo) (a : Agendamento.t) :
  Agendamento_create paciente_id medico_id especialidade_id local_id data hora observacoes
    status anexo_nome anexo_path w = (Ok a, w') ->
  exists p m e l d h,
    paciente_id = Some p /\ medico_id = Some m /\ especialidade_id = Some e
    /\ local_id = Some l /\ data = Some d /\ hora = Some h
    /\ a = Agendamento.mk
             (Z.max (seq_agendamentos (banco w))
                (maior_id Agendamento.id (agendamentos (banco w))) + 1)
             p m e l d h observacoes (default "agendado" status) anexo_nome anexo_path None
    /\ w' = mkMundo (conversa w)
              (mkBanco (pacientes (banco w)) (locais (banco w)) (especialidades (banco w))
                 (medicos (banco w)) (horarios_disponiveis (banco w))
                 (agendamentos (banco w) ++ [a]) (seq_pacientes (banco w))
                 (Agendamento.id a)).
Proof.
  destruct w as [c b]. unfold Agendamento_create.
  unfold mbind, M_bind, ler_banco, gravar_banco, mret, M_ret, raise. simpl.
  destruct paciente_id as [p|], medico_id as [m|], especialidade_id as [e|],
    local_id as [l|], data as [d|], hora as [h|]; simpl; try discriminate.
  destruct (_ && _); [|discriminate]. intros [= <- <-].
  exists p, m, e, l, d, h. done.
Qed.

(** X6: the row [Agendamento.create] returns has an id above every id of the
    table, is what [find_by_id] of that id gives afterwards, carries the
    values given (status 'agendado' when none is given), and the rows already
    there keep their place. *)
Theorem X6_create_id_novo (paciente_id medico_id especialidade_id local_id : option Z)
    (data hora observacoes status anexo_nome anexo_path : option string)
    (w w' : Mundo) (a : Agendamento.t) :
  Agendamento_create paciente_id medico_id especialidade_id local_id data hora observacoes
    status anexo_nome anexo_path w = (Ok a, w') ->
  (forall x, In x (agendamentos (banco w)) -> Agendamento.id x < Agendamento.id a)
  /\ seq_agendamentos (banco w) < Agendamento.id a
  /\ seq_agendamentos (banco w') = Agendamento.id a
  /\ Agendamento_find_by_id (banco w') (Agendamento.id a) = Some a
  /\ agendamentos (banco w') = (agendamentos (banco w) ++ [a])%list
  /\ Some (Agendamento.paciente_id a) = paciente_id
  /\ Some (Agendamento.medico_id a) = medico_id
  /\ Some (Agendamento.especialidade_id a) = especialidade_id
  /\ Some (Agendamento.local_id a) = local_id
  /\ Some (Agendamento.data a) = data
  /\ Some (Agendamento.hora a) = hora
  /\ Agendamento.status a = default "agendado" status.
Proof.
  intros Hc.
  destruct (create_ok_linha _ _ _ _ _ _ _ _ _ _ _ _ _ Hc)
    as (p & m & e & l & d & h & -> & -> & -> & -> & -> & -> & Ha & ->).
  simpl.
  assert (Hid : Agendamento.id a
                = Z.max (seq_agendamentos (banco w))
                    (maior_id Agendamento.id (agendamentos (banco w))) + 1)
    by (by rewrite Ha).
  split. { intros x Hx. pose proof (maior_id_limite Agendamento.id _ _ Hx). lia. }
  split; [lia|]. split; [reflexivity|].
  split. { unfold Agendamento_find_by_id. simpl. apply find_id_novo. lia. }
  by rewrite Ha.
Qed.

(** The availability check reads the table through the rows that hold the
    triple with status 'agendado'. *)
Lemma disponivel_app db db' medico_id data minuto a :
  agendamentos db' = (agendamentos db ++ [a])%list ->
  _verificar_disponibilidade_slot_simples db' medico_id data minuto
  = _verificar_disponibilidade_slot_simples db medico_id data minuto
    && negb (ocupa medico_id (strftime_Ymd data) (strftime_HM minuto) a).
Proof.
  intros Hag. unfold _verificar_disponibilidade_slot_simples, contar_agendados.
  rewrite Hag, List.filter_app, length_app. simpl.
  destruct (ocupa _ _ _ a); simpl.
  - rewrite andb_false_r. apply negb_false_iff, Z.ltb_lt. lia.
  - rewrite andb_true_r. f_equal. f_equal. lia.
Qed.

Section Reserva.

Variable mktime : Z -> Z.
Variable hoje : Z.
Variable agora : Z.


Lemma gerar_ext (db db' : Banco) :
  medicos db' = medicos db ->
  locais db' = locais db ->
  especialidades db' = especialidades db ->
  (forall m d t, _verificar_disponibilidade_slot_simples db' m d t
                 = _verificar_disponibilidade_slot_simples db m d t) ->
  forall rows,
    _gerar_horarios_disponiveis mktime hoje agora db' rows
    = _gerar_horarios_disponiveis mktime hoje agora db rows.
Proof.
  intros Hmed Hloc Hesp Hver rows.
  assert (Hfind : forall i, Medico_find_by_id db' i = Medico_find_by_id db i)
    by (intros i; unfold Medico_find_by_id; by rewrite Hmed).
  assert (Hinfo : forall row mid d ds dur slot,
            horario_info mktime db' row mid d ds dur slot
            = horario_info mktime db row mid d ds dur slot).
  { intros. unfold horario_info, _obter_dados_medico, _obter_nome_local,
      Especialidade_find_by_id, Local_find_by_id. by rewrite Hfind, Hesp, Hloc. }
  assert (Hslots : forall fuel row mid d ds dur fim slot hs,
            laco_slots mktime hoje agora db' fuel row mid d ds dur fim slot hs
            = laco_slots mktime hoje agora db fuel row mid d ds dur fim slot hs).
  { induction fuel as [|fuel IH]; intros; simpl; [done|].
    rewrite Hver, Hinfo, !IH. done. }
  assert (Hrows : forall rs d ds hs,
            laco_rows mktime hoje agora db' rs d ds hs
            = laco_rows mktime hoje agora db rs d ds hs).
  { assert (Hcorpo : forall row mid d ds hs resto' resto,
              (forall x, resto' x = resto x) ->
              corpo_da_row mktime hoje agora db' row mid d ds hs resto'
              = corpo_da_row mktime hoje agora db row mid d ds hs resto).
    { intros row mid d ds hs resto' resto Hr. unfold corpo_da_row.
      destruct (row_hora_inicio row); [|done]. destruct (row_hora_fim row); [|done].
      rewrite Hslots. by destruct (5 <=? _). }
    induction rs as [|row rs IH]; intros; simpl; [done|].
    rewrite Hfind, IH. destruct (negb _); [done|].
    destruct (Medico_find_by_id db (medico_da_row row)) as [medico|].
    - destruct (negb _); [done|]. apply Hcorpo. intros x. apply IH.
    - apply Hcorpo. intros x. apply IH. }
  assert (Hdias : forall dias hs,
            laco_dias mktime hoje agora db' dias rows hs
            = laco_dias mktime hoje agora db dias rows hs).
  { induction dias as [|dia dias IH]; intros; simpl; [done|].
    rewrite Hrows, IH. repeat case_match; by rewrite ?IH. }
  unfold _gerar_horarios_disponiveis. by rewrite Hdias.
Qed.

(** X8: an appointment stored with a status other than 'agendado', such
    as the placeholder 'pendente_anexo' of the slot choice, reserves nothing:
    the availability check and every generated list are the same as before
    the insert. *)
Theorem X8_temporario_nao_bloqueia (paciente_id medico_id especialidade_id local_id : option Z)
    (data hora observacoes anexo_nome anexo_path : option string) (status : string)
    (w w' : Mundo) (a : Agendamento.t) :
  status <> "agendado" ->
  Agendamento_create paciente_id medico_id especialidade_id local_id data hora observacoes
    (Some status) anexo_nome anexo_path w = (Ok a, w') ->
  (forall m d t, _verificar_disponibilidade_slot_simples (banco w') m d t
                 = _verificar_disponibilidade_slot_simples (banco w) m d t)
  /\ forall rows,
       _gerar_horarios_disponiveis mktime hoje agora (banco w') rows
       = _gerar_horarios_disponiveis mktime hoje agora (banco w) rows.
Proof.
  intros Hst Hc.
  destruct (create_ok_linha _ _ _ _ _ _ _ _ _ _ _ _ _ Hc)
    as (p & m & e & l & d & h & _ & _ & _ & _ & _ & _ & Ha & ->).
  simpl. clear Hc.
  set (db' := mkBanco (pacientes (banco w)) (locais (banco w)) (especialidades (banco w))
                (medicos (banco w)) (horarios_disponiveis (banco w))
                (agendamentos (banco w) ++ [a]) (seq_pacientes (banco w))
                (Agendamento.id a)).
  assert (Hver : forall m0 d0 t0,
            _verificar_disponibilidade_slot_simples db' m0 d0 t0
            = _verificar_disponibilidade_slot_simples (banco w) m0 d0 t0).
  { intros m0 d0 t0. rewrite (disponivel_app (banco w) db' m0 d0 t0 a eq_refl).
    rewrite Ha. unfold ocupa. simpl.
    apply String.eqb_neq in Hst. rewrite Hst, !andb_false_r. apply andb_true_r. }
  split; [exact Hver|]. intros rows. by apply gerar_ext.
Qed.

(** X9: [agendamento.cancelar] overwrites every row that has the id of the
    object with the object's columns, status 'cancelado' and the reason, and
    leaves the other rows alone; when no other row holds a doctor, date and
    time with status 'agendado', the availability check accepts that slot
    afterwards. *)
Theorem X9_cancelar_libera (a : Agendamento.t) (motivo : string) (w : Mundo) :
  exists w',
    Agendamento_cancelar a motivo w = (Ok tt, w')
    /\ conversa w' = conversa w
    /\ length (agendamentos (banco w')) = length (agendamentos (banco w))
    /\ (forall i x, agendamentos (banco w) !! i = Some x ->
          Agendamento.id x <> Agendamento.id a ->
          agendamentos (banco w') !! i = Some x)
    /\ (forall i x, agendamentos (banco w) !! i = Some x ->
          Agendamento.id x = Agendamento.id a ->
          exists x', agendamentos (banco w') !! i = Some x'
            /\ Agendamento.status x' = "cancelado"
            /\ Agendamento.motivo_cancelamento x' = Some motivo
            /\ Agendamento.id x' = Agendamento.id a)
    /\ (forall m dia minuto,
          (forall x, In x (agendamentos (banco w)) ->
             Agendamento.id x <> Agendamento.id a ->
             ocupa m (strftime_Ymd dia) (strftime_HM minuto) x = false) ->
          _verificar_disponibilidade_slot_simples (banco w') m dia minuto = true).
Proof.
  destruct w as [c b].
  unfold Agendamento_cancelar, mbind, M_bind, ler_banco, gravar_banco. simpl.
  eexists. split; [reflexivity|]. simpl.
  split; [reflexivity|]. split; [by rewrite length_map|].
  split. { intros i x Hi Hne. rewrite list_lookup_fmap, Hi. simpl.
           by destruct (Z.eqb_spec (Agendamento.id x) (Agendamento.id a)). }
  split. { intros i x Hi Heq. eexists. rewrite list_lookup_fmap, Hi. simpl.
           rewrite Heq, Z.eqb_refl. done. }
  intros m dia minuto Hlivre.
  unfold _verificar_disponibilidade_slot_simples, contar_agendados. simpl.
  apply negb_true_iff, Z.ltb_ge.
  induction (agendamentos b) as [|x l IH]; simpl; [lia|].
  destruct (Z.eqb_spec (Agendamento.id x) (Agendamento.id a)).
  - unfold ocupa at 1. simpl. rewrite !andb_false_r. simpl.
    apply IH. intros y Hy. apply Hlivre. by right.
  - rewrite (Hlivre x); [|by left|done]. apply IH. intros y Hy. apply Hlivre. by right.
Qed.

End Reserva.

(** ** Intent and states *)

Section Estados_e_intencao.

Variable lower : string -> string.
Variable strip : string -> string.
Variable strptime_data : string -> string -> option Z.
Variable _extrair_email : string -> option string.
Variable gemini : string -> option string.
Variable mktime : Z -> Z.
Variable hoje : Z.
Variable agora : Z.

Local Abbreviation processar := (processar_mensagem lower strip strptime_data _extrair_email gemini
                         mktime hoje agora).
Local Abbreviation despacho := (despachar lower strip strptime_data _extrair_email gemini
                        mktime hoje agora).

(** X10: the intent is always one of the five labels; a cancellation
    keyword decides it before the model is asked; without any keyword, a
    failed call gives 'agendamento', and an answer of the model is taken only
    when, stripped and lower-cased, it is one of the five labels. *)
Theorem X10_tipo_da_mensagem (mensagem : string) :
  In (_detectar_tipo_mensagem lower strip gemini mensagem) tipos_de_mensagem
  /\ (alguma_em ["cancelar"; "desmarcar"; "remover consulta"; "cancelo"]
        (strip (lower mensagem)) = true ->
      _detectar_tipo_mensagem lower strip gemini mensagem = "cancelamento")
  /\ (alguma_em ["cancelar"; "desmarcar"; "remover consulta"; "cancelo"]
        (strip (lower mensagem)) = false ->
      alguma_em ["meus agendamentos"; "minhas consultas"; "consultar agendamento";
                 "ver consultas"] (strip (lower mensagem)) = false ->
      alguma_em ["telefone"; "endereço"; "onde fica"; "horário funcionamento";
                 "localização"] (strip (lower mensagem)) = false ->
      alguma_em ["clima"; "tempo"; "futebol"; "política"; "receita culinária"]
        (strip (lower mensagem)) = false ->
      match gemini mensagem with
      | None => _detectar_tipo_mensagem lower strip gemini mensagem = "agendamento"
      | Some texto =>
          (In (lower (strip texto)) tipos_de_mensagem -> texto <> "" ->
           _detectar_tipo_mensagem lower strip gemini mensagem = lower (strip texto))
          /\ (~ In (lower (strip texto)) tipos_de_mensagem ->
              _detectar_tipo_mensagem lower strip gemini mensagem = "agendamento")
      end).
Proof.
  unfold _detectar_tipo_mensagem, tipos_de_mensagem.
  split; [|split].
  - repeat case_match; simpl; auto 10.
    match goal with
    | H : existsb _ _ = true |- _ =>
        apply existsb_exists in H as (x & Hx & Heq); apply String.eqb_eq in Heq; by subst
    end.
  - by intros ->.
  - intros -> -> -> ->. destruct (gemini mensagem) as [texto|].
    + split.
      * intros Hin Hne. apply String.eqb_neq in Hne. rewrite Hne.
        destruct (existsb _ _) eqn:He; [done|].
        assert (Ht : existsb (String.eqb (lower (strip texto)))
                       ["agendamento"; "cancelamento"; "consulta"; "informacao";
                        "fora_escopo"] = true).
        { apply existsb_exists. exists (lower (strip texto)). split; [done|].
          apply String.eqb_refl. }
        congruence.
      * intros Hn. destruct (String.eqb texto ""); [done|].
        destruct (existsb _ _) eqn:He; [|done].
        apply existsb_exists in He as (x & Hx & Heq). apply String.eqb_eq in Heq. by subst.
    + by case_match.
Qed.

(** *** The states reached *)

Lemma estavel_ret {A} (a : A) : estavel (mret a).
Proof. intros w x w1 [= <- <-]. by left. Qed.

Lemma estavel_raise {A} (e : Excecao) : estavel (raise e : M A).
Proof. intros w x w1 [= <- <-]. by left. Qed.

Lemma estavel_bind {A B} (m : M A) (f : A -> M B) :
  estavel m -> (forall a, estavel (f a)) -> estavel (m ≫= f).
Proof.
  intros Hm Hf w x w1. unfold mbind, M_bind.
  destruct (m w) as [[a|e] w'] eqn:Hmw.
  - intros H. apply Hf in H. apply Hm in Hmw. destruct H as [H|H]; [|by right].
    rewrite H. exact Hmw.
  - intros [= <- <-]. by eapply Hm.
Qed.

Lemma estavel_tentar {A} (m : M A) (h : Excecao -> M A) :
  estavel m -> (forall e, estavel (h e)) -> estavel (tentar m h).
Proof.
  intros Hm Hh w x w1. unfold tentar.
  destruct (m w) as [[a|e] w'] eqn:Hmw.
  - intros [= <- <-]. by eapply Hm.
  - intros H. apply Hh in H. apply Hm in Hmw. destruct H as [H|H]; [|by right].
    rewrite H. exact Hmw.
Qed.

Lemma estavel_set_estado (e : string) : In e estados_conhecidos -> estavel (set_estado e).
Proof. intros He w x w1 [= <- <-]. by right. Qed.

Lemma estavel_conversa {A} (m : M A) :
  (forall w x w1, m w = (x, w1) -> estado (conversa w1) = estado (conversa w)) -> estavel m.
Proof. intros Hm w x w1 H. left. by eapply Hm. Qed.

Lemma estavel_set_dados d : estavel (set_dados d).
Proof. by apply estavel_conversa; intros w x w1 [= <- <-]. Qed.

Lemma estavel_set_paciente_id i : estavel (set_paciente_id i).
Proof. by apply estavel_conversa; intros w x w1 [= <- <-]. Qed.

Lemma estavel_get_dados : estavel get_dados.
Proof. by apply estavel_conversa; intros w x w1 [= <- <-]. Qed.

Lemma estavel_ler_conversa : estavel ler_conversa.
Proof. by apply estavel_conversa; intros w x w1 [= <- <-]. Qed.

Lemma estavel_ler_banco : estavel ler_banco.
Proof. by apply estavel_conversa; intros w x w1 [= <- <-]. Qed.

Lemma estavel_gravar_banco db : estavel (gravar_banco db).
Proof. by apply estavel_conversa; intros w x w1 [= <- <-]. Qed.

Lemma estavel_subscrito d chave : estavel (subscrito d chave).
Proof. unfold subscrito. destruct (d !! chave); [apply estavel_ret|apply estavel_raise]. Qed.

Lemma estavel_parametro_inteiro v : estavel (parametro_inteiro v).
Proof. destruct v; first [apply estavel_ret|apply estavel_raise]. Qed.

Lemma estavel_parametro_texto v : estavel (parametro_texto v).
Proof. destruct v; first [apply estavel_ret|apply estavel_raise]. Qed.

Ltac conhecido := unfold estados_conhecidos; simpl; tauto.

(** One step of the proof that a handler is [estavel]. *)
Ltac estavel_passo :=
  first
    [ apply estavel_ret
    | apply estavel_raise
    | apply estavel_set_dados
    | apply estavel_set_paciente_id
    | apply estavel_get_dados
    | apply estavel_ler_conversa
    | apply estavel_ler_banco
    | apply estavel_gravar_banco
    | apply estavel_subscrito
    | apply estavel_parametro_inteiro
    | apply estavel_parametro_texto
    | apply estavel_set_estado; conhecido
    | apply estavel_tentar; [|intros ?]
    | apply estavel_bind; [|intros ?]
    | progress case_match ].

Lemma estavel_Agendamento_create p m e l d h o s an ap :
  estavel (Agendamento_create p m e l d h o s an ap).
Proof. unfold Agendamento_create. repeat estavel_passo. Qed.

Lemma estavel_Paciente_create c n d t e ca ti : estavel (Paciente_create c n d t e ca ti).
Proof. unfold Paciente_create. repeat estavel_passo. Qed.

Lemma estavel_Agendamento_cancelar a motivo : estavel (Agendamento_cancelar a motivo).
Proof. unfold Agendamento_cancelar. repeat estavel_passo. Qed.

Lemma estavel_Especialidade_do_rascunho v : estavel (Especialidade_do_rascunho v).
Proof. unfold Especialidade_do_rascunho. repeat estavel_passo. Qed.

Ltac estavel_handler :=
  repeat first
    [ apply estavel_Agendamento_create
    | apply estavel_Paciente_create
    | apply estavel_Agendamento_cancelar
    | apply estavel_Especialidade_do_rascunho
    | estavel_passo ].

Lemma estavel_inicio mensagem : estavel (_processar_inicio lower strip gemini mensagem).
Proof. unfold _processar_inicio. estavel_handler. Qed.

Lemma estavel_cpf mensagem : estavel (_processar_cpf lower mensagem).
Proof.
  unfold _processar_cpf, _processar_cancelamento_cpf_valido,
    _processar_consulta_agendamentos_cpf_valido.
  estavel_handler.
Qed.

Lemma estavel_cadastro mensagem d :
  estavel (_processar_cadastro lower strip strptime_data _extrair_email hoje mensagem d).
Proof. unfold _processar_cadastro. estavel_handler. Qed.

Lemma estavel_local mensagem : estavel (_processar_local lower strip mensagem).
Proof. unfold _processar_local. estavel_handler. Qed.

Lemma estavel_horarios mensagem d :
  estavel (_processar_horarios strip mktime hoje agora mensagem d).
Proof. unfold _processar_horarios. estavel_handler. Qed.

Lemma estavel_especialidade mensagem :
  estavel (_processar_especialidade lower strip mktime hoje agora mensagem).
Proof.
  unfold _processar_especialidade.
  repeat first [ apply estavel_horarios | estavel_handler ].
Qed.

Lemma estavel_solicitacao_anexo mensagem d :
  estavel (_processar_solicitacao_anexo lower strip mensagem d).
Proof. unfold _processar_solicitacao_anexo. estavel_handler. Qed.

Lemma estavel_confirmacao mensagem d :
  estavel (_processar_confirmacao lower strip mensagem d).
Proof. unfold _processar_confirmacao, confirmar_agendamento. estavel_handler. Qed.

Lemma estavel_cancelamento mensagem :
  estavel (_processar_cancelamento lower strip mensagem).
Proof.
  unfold _processar_cancelamento.
  repeat first [ apply estavel_cpf | estavel_handler ].
Qed.

Lemma estavel_devolver (m : M Resposta) : estavel m -> estavel (devolver m).
Proof. intros Hm. unfold devolver. apply estavel_bind; [done|]. intros r. apply estavel_ret. Qed.

Lemma despachar_estados mensagem w x w1 :
  despacho mensagem w = (x, w1) ->
  In (estado (conversa w1)) estados_conhecidos
  \/ (estado (conversa w1) = "" /\ estado (conversa w) = "").
Proof.
  destruct w as [[est d p] b]. unfold despachar.
  unfold mbind at 1 2, M_bind at 1 2, ler_conversa, get_dados. simpl.
  set (efetivo := if String.eqb est "" then "inicio" else est).
  assert (Hef : forall nome, String.eqb efetivo nome = true ->
                  In nome estados_conhecidos ->
                  In est estados_conhecidos \/ est = "").
  { intros nome Hn Hin. apply String.eqb_eq in Hn. subst efetivo.
    destruct (String.eqb_spec est ""); [by right|]. left. by subst. }
  assert (Hre : forall (e0 : string) (m : M Resposta),
            In e0 estados_conhecidos -> estavel m ->
            (set_estado e0;; set_dados ∅;; devolver m)
              {| conversa := mkConversa est d p; banco := b |} = (x, w1) ->
            In (estado (conversa w1)) estados_conhecidos).
  { intros e0 m He0 Hm H. apply estavel_devolver in Hm.
    apply Hm in H. simpl in H. destruct H as [-> | H]; done. }
  assert (Hst : forall (m : M (option Resposta)) nome,
            String.eqb efetivo nome = true -> In nome estados_conhecidos ->
            estavel m ->
            m {| conversa := mkConversa est d p; banco := b |} = (x, w1) ->
            In (estado (conversa w1)) estados_conhecidos
            \/ (estado (conversa w1) = "" /\ est = "")).
  { intros m nome Hn Hin Hm H. apply Hm in H. simpl in H.
    destruct H as [H | H]; [|by left].
    destruct (Hef nome Hn Hin) as [Hk | ->]; [left; by rewrite H|by right]. }
  destruct (negb (String.eqb efetivo "cancelamento") && _).
  { intros H. left. eapply Hre; [|apply estavel_cancelamento|exact H]. conhecido. }
  destruct (_eh_saudacao lower mensagem).
  { intros H. left. eapply Hre; [|apply estavel_inicio|exact H]. conhecido. }
  destruct (String.eqb efetivo "inicio" || String.eqb efetivo "finalizado") eqn:H1.
  { apply orb_true_iff in H1 as [H1|H1];
      (eapply Hst; [exact H1|conhecido|apply estavel_devolver, estavel_inicio]). }
  destruct (String.eqb efetivo "aguardando_cpf") eqn:H2;
    [eapply Hst; [exact H2|conhecido|apply estavel_devolver, estavel_cpf]|].
  destruct (String.eqb efetivo "cadastro") eqn:H3;
    [eapply Hst; [exact H3|conhecido|apply estavel_cadastro]|].
  destruct (String.eqb efetivo "local") eqn:H4;
    [eapply Hst; [exact H4|conhecido|apply estavel_devolver, estavel_local]|].
  destruct (String.eqb efetivo "especialidade") eqn:H5;
    [eapply Hst; [exact H5|conhecido|apply estavel_devolver, estavel_especialidade]|].
  destruct (String.eqb efetivo "horarios") eqn:H6;
    [eapply Hst; [exact H6|conhecido|apply estavel_devolver, estavel_horarios]|].
  destruct (String.eqb efetivo "solicitacao_anexo") eqn:H7;
    [eapply Hst; [exact H7|conhecido|apply estavel_devolver, estavel_solicitacao_anexo]|].
  destruct (String.eqb efetivo "confirmacao") eqn:H8;
    [eapply Hst; [exact H8|conhecido|apply estavel_devolver, estavel_confirmacao]|].
  destruct (String.eqb efetivo "cancelamento") eqn:H9;
    [eapply Hst; [exact H9|conhecido|apply estavel_devolver, estavel_cancelamento]|].
  destruct (String.eqb efetivo "consulta_agendamentos") eqn:H10;
    [eapply Hst; [exact H10|conhecido|apply estavel_devolver, estavel_cpf]|].
  intros H. left. eapply Hre; [|apply estavel_inicio|exact H]. conhecido.
Qed.

(** X11: after any message, in any conversation, the state of the
    conversation is one of the eleven states the dispatcher knows; it is
    unset only when it was unset before. *)
Theorem X11_estados_fechados (mensagem : string) (w : Mundo) :
  In (estado (conversa (snd (processar mensagem w)))) estados_conhecidos
  \/ (estado (conversa (snd (processar mensagem w))) = "" /\ estado (conversa w) = "").
Proof.
  unfold processar_mensagem, tentar.
  destruct (despacho mensagem w) as [[r|e] w1] eqn:Hd.
  - simpl. by eapply despachar_estados.
  - simpl. left. conhecido.
Qed.

End Estados_e_intencao.

(** ** Patients *)

Lemma find_cpf_novo (l : list Paciente.t) (p : Paciente.t) :
  existsb (fun x => String.eqb (Paciente.cpf x) (Paciente.cpf p)) l = false ->
  find (fun x => String.eqb (Paciente.cpf x) (Paciente.cpf p)) (l ++ [p]) = Some p.
Proof.
  induction l as [|x l IH]; simpl.
  - by rewrite String.eqb_refl.
  - destruct (String.eqb (Paciente.cpf x) (Paciente.cpf p)); [done|]. exact IH.
Qed.

(** X12: [Paciente.create] refuses a missing CPF, a missing name and a CPF
    that is already in the table, raising IntegrityError without a change;
    otherwise it appends one patient under a new id, whom [find_by_cpf] then
    gives, and CPFs that were pairwise distinct stay so. *)
Theorem X12_paciente_cpf_unico (cpf nome data_nascimento telefone email carteirinha : option string)
    (tipo_atendimento : string) (w : Mundo) :
  let aceito :=
    match cpf, nome with
    | Some c, Some _ =>
        negb (existsb (fun p => String.eqb (Paciente.cpf p) c) (pacientes (banco w)))
    | _, _ => false
    end in
  (aceito = false ->
   Paciente_create cpf nome data_nascimento telefone email carteirinha tipo_atendimento w
   = (Raise IntegrityError, w))
  /\ (aceito = true ->
      exists p w',
        Paciente_create cpf nome data_nascimento telefone email carteirinha
          tipo_atendimento w = (Ok p, w')
        /\ pacientes (banco w') = (pacientes (banco w) ++ [p])%list
        /\ agendamentos (banco w') = agendamentos (banco w)
        /\ conversa w' = conversa w
        /\ Some (Paciente.cpf p) = cpf
        /\ Some (Paciente.nome p) = nome
        /\ (forall x, In x (pacientes (banco w)) -> Paciente.id x < Paciente.id p)
        /\ Paciente_find_by_cpf (banco w') (Paciente.cpf p) = Some p
        /\ (NoDup (map Paciente.cpf (pacientes (banco w))) ->
            NoDup (map Paciente.cpf (pacientes (banco w'))))).
Proof.
  destruct w as [c b]. unfold Paciente_create. passo.
  destruct cpf as [cpf|]; [|split; [reflexivity|discriminate]].
  destruct nome as [nome|]; [|split; [reflexivity|discriminate]].
  destruct (existsb _ (pacientes b)) eqn:Hex; simpl.
  { split; [reflexivity|discriminate]. }
  split; [discriminate|]. intros _. do 2 eexists. split; [reflexivity|]. simpl.
  repeat (split; [reflexivity|]).
  split. { intros x Hx. pose proof (maior_id_limite Paciente.id _ _ Hx). lia. }
  split. { unfold Paciente_find_by_cpf. simpl.
           apply (find_cpf_novo (pacientes b)
                    (Paciente.mk _ cpf nome data_nascimento _ email carteirinha
                       tipo_atendimento)). exact Hex. }
  intros Hnd. rewrite map_app. simpl. apply NoDup_app. split; [exact Hnd|].
  split; [|apply NoDup_singleton].
  intros x Hx Hx'. apply list_elem_of_singleton in Hx'. subst x.
  apply list_elem_of_In, in_map_iff in Hx as (q & Hq & Hin).
  assert (existsb (fun p => String.eqb (Paciente.cpf p) cpf) (pacientes b) = true).
  { apply existsb_exists. exists q. split; [done|]. by apply String.eqb_eq. }
  congruence.
Qed.

Section Passos_do_atendimento.

Variable lower : string -> string.
Variable strip : string -> string.
Variable strptime_data : string -> string -> option Z.
Variable _extrair_email : string -> option string.
Variable gemini : string -> option string.
Variable mktime : Z -> Z.
Variable hoje : Z.
Variable agora : Z.

Local Abbreviation processar := (processar_mensagem lower strip strptime_data _extrair_email gemini
                         mktime hoje agora).
Local Abbreviation despacho := (despachar lower strip strptime_data _extrair_email gemini
                        mktime hoje agora).

(** X13: the last step of the registration, for an ASCII message, on a draft
    that holds the CPF, the name and the phone as texts and a CPF not yet
    registered: a message that is one of the words for private care, or that
    holds at least six letters and digits, creates the patient with the draft's CPF, name and
    phone, ties the conversation to the new patient and goes to the choice of
    location; any other message is refused and changes nothing. *)
Theorem X13_cadastro_concluido (mensagem : string) (d : gmap string JVal) (w : Mundo)
    (cpf nome telefone : string) :
  isascii mensagem = true ->
  d !! "etapa_cadastro" = Some (JStr "carteirinha") ->
  d !! "cpf" = Some (JStr cpf) ->
  d !! "nome" = Some (JStr nome) ->
  d !! "telefone" = Some (JStr telefone) ->
  (forall l, d !! "data_nascimento" <> Some (JLista l)) ->
  (forall l, d !! "email" <> Some (JLista l)) ->
  existsb (fun p => String.eqb (Paciente.cpf p) cpf) (pacientes (banco w)) = false ->
  let particular :=
    existsb (String.eqb (lower (strip mensagem)))
      ["particular"; "nao"; "não"; "sem plano"; "pular"] in
  let valida := particular || Nat.leb 6 (String.length (so_alnum mensagem)) in
  (valida = false ->
   exists r,
     _processar_cadastro lower strip strptime_data _extrair_email hoje mensagem d w
     = (Ok (Some r), w)
     /\ success r = false)
  /\ (valida = true ->
      exists r p w',
        _processar_cadastro lower strip strptime_data _extrair_email hoje mensagem d w
        = (Ok (Some r), w')
        /\ success r = true
        /\ estado (conversa w') = "local"
        /\ paciente_id (conversa w') = Some (Paciente.id p)
        /\ dados (conversa w') !! "paciente_id" = Some (JInt (Paciente.id p))
        /\ pacientes (banco w') = (pacientes (banco w) ++ [p])%list
        /\ Paciente.cpf p = cpf
        /\ Paciente.nome p = nome
        /\ Paciente.telefone p = telefone
        /\ Paciente.tipo_atendimento p = (if particular then "particular" else "plano")
        /\ Paciente.carteirinha p
           = (if particular then None else Some (prefixo 50 (so_alnum mensagem)))).
Proof.
  intros _ Hetapa Hcpf Hnome Htel Hnasc Hemail Hnovo particular valida.
  destruct w as [[est d0 pid] b]. simpl in Hnovo.
  unfold _processar_cadastro, dget_padrao. rewrite Hetapa. cbv zeta.
  subst valida particular.
  remember (existsb (String.eqb (lower (strip mensagem))) _) as particular eqn:Ep.
  remember (Nat.leb 6 (String.length (so_alnum mensagem))) as longa eqn:El.
  clear Ep El.
  assert (Hcria : forall cart tipo,
    match cart with JNull | JStr _ => True | _ => False end ->
    exists p,
      Paciente.cpf p = cpf /\ Paciente.nome p = nome /\ Paciente.telefone p = telefone
      /\ Paciente.tipo_atendimento p = tipo
      /\ Paciente.carteirinha p = match cart with JStr c => Some c | _ => None end
      /\ forall k : Paciente.t -> M (option Resposta),
        (let dados := <["tipo_atendimento" := JStr tipo]> (<["carteirinha" := cart]> d) in
         cpf ← subscrito dados "cpf";
         nome ← subscrito dados "nome";
         telefone ← subscrito dados "telefone";
         cpf ← parametro_texto cpf;
         nome ← parametro_texto nome;
         data_nascimento ← parametro_texto (dget dados "data_nascimento");
         telefone ← parametro_texto telefone;
         email ← parametro_texto (dget dados "email");
         carteirinha ← parametro_texto (dget dados "carteirinha");
         novo_paciente ← Paciente_create cpf nome data_nascimento telefone email carteirinha
                           tipo;
         k novo_paciente) (mkMundo (mkConversa est d0 pid) b)
        = k p (mkMundo (mkConversa est d0 pid)
                 (mkBanco (pacientes b ++ [p]) (locais b) (especialidades b) (medicos b)
                    (horarios_disponiveis b) (agendamentos b)
                    (Z.max (seq_pacientes b) (maior_id Paciente.id (pacientes b)) + 1)
                    (seq_agendamentos b)))).
  { intros cart tipo Hcart. cbv zeta.
    set (dd := <["tipo_atendimento":=JStr tipo]> (<["carteirinha":=cart]> d)).
    assert (E1 : dd !! "cpf" = Some (JStr cpf))
      by (unfold dd; rewrite !lookup_insert_ne by done; done).
    assert (E2 : dd !! "nome" = Some (JStr nome))
      by (unfold dd; rewrite !lookup_insert_ne by done; done).
    assert (E3 : dd !! "telefone" = Some (JStr telefone))
      by (unfold dd; rewrite !lookup_insert_ne by done; done).
    assert (E4 : dd !! "data_nascimento" = d !! "data_nascimento")
      by (unfold dd; rewrite !lookup_insert_ne by done; done).
    assert (E5 : dd !! "email" = d !! "email")
      by (unfold dd; rewrite !lookup_insert_ne by done; done).
    assert (E6 : dd !! "carteirinha" = Some cart)
      by (unfold dd; rewrite lookup_insert_ne by done; apply lookup_insert_eq).
    clearbody dd.
    unfold subscrito, dget. rewrite E1, E2, E3, E4, E5, E6.
    destruct (d !! "data_nascimento") as [[|[]| | |l]|] eqn:Hn;
      try (by destruct (Hnasc l));
      (destruct (d !! "email") as [[|[]| | |l']|] eqn:He;
       try (by destruct (Hemail l'));
       (destruct cart as [|[]| | |lc]; try (by destruct Hcart);
        ((eexists; repeat apply conj);
         [idtac .. | intros k; unfold Paciente_create; passo; rewrite Hnovo; passo; reflexivity];
         reflexivity))). }
  destruct particular; simpl.
  - split; [discriminate|]. intros _.
    destruct (Hcria JNull "particular") as (p & H1 & H2 & H3 & H4 & H5 & Hk); [done|].
    cbv zeta in Hk. rewrite Hk. passo.
    do 3 eexists. split; [reflexivity|]. simpl.
    repeat (split; [first [reflexivity | assumption | apply lookup_insert_eq]|]). assumption.
  - destruct longa; simpl.
    + split; [discriminate|]. intros _.
      destruct (Hcria (JStr (prefixo 50 (so_alnum mensagem))) "plano")
        as (p & H1 & H2 & H3 & H4 & H5 & Hk); [done|].
      cbv zeta in Hk. rewrite Hk. passo.
      do 3 eexists. split; [reflexivity|]. simpl.
      repeat (split; [first [reflexivity | assumption | apply lookup_insert_eq]|]). assumption.
    + split; [|discriminate]. intros _. eexists. split; reflexivity.
Qed.

(** X14: whatever the state, for an ASCII message, the CPF step writes
    nothing to the tables, and it ties the conversation to a patient only when that
    patient is in the table under the eleven digits of the message; it opens
    a registration only for eleven digits no patient has, with a draft that
    holds that CPF and the first step and nothing else. *)
Theorem X14_cpf_identifica (mensagem : string) (w : Mundo) :
  isascii mensagem = true ->
  let w' := snd (_processar_cpf lower mensagem w) in
  banco w' = banco w
  /\ (paciente_id (conversa w') = paciente_id (conversa w)
      \/ exists p, In p (pacientes (banco w))
           /\ Paciente.cpf p = so_digitos mensagem
           /\ String.length (so_digitos mensagem) = 11%nat
           /\ paciente_id (conversa w') = Some (Paciente.id p))
  /\ (estado (conversa w') = "cadastro" -> estado (conversa w) <> "cadastro" ->
      Paciente_find_by_cpf (banco w) (so_digitos mensagem) = None
      /\ String.length (so_digitos mensagem) = 11%nat
      /\ dados (conversa w')
         = <["cpf" := JStr (so_digitos mensagem)]> {[ "etapa_cadastro" := JStr "nome" ]}).
Proof.
  intros _. destruct w as [[e d pid] b]. unfold _processar_cpf, _extrair_cpf.
  destruct (Nat.eqb (String.length (so_digitos mensagem)) 11) eqn:Hlen.
  2: { passo. split; [done|]. split; [by left|]. intros -> H. by destruct H. }
  apply Nat.eqb_eq in Hlen. passo.
  destruct (Paciente_find_by_cpf b (so_digitos mensagem)) as [p|] eqn:Hp.
  - apply find_some in Hp as [Hin Hcpf]. apply String.eqb_eq in Hcpf.
    unfold _processar_cancelamento_cpf_valido,
      _processar_consulta_agendamentos_cpf_valido.
    destruct (dget_padrao d "mensagem_inicial" (JStr "")); passo;
      repeat (case_match; passo);
      (split; [reflexivity|]; split; [right; exists p; auto|];
       intros Hest1 Hest2; first [discriminate Hest1 | by destruct Hest2]).
  - passo.
    destruct (String.eqb e "cancelamento" || String.eqb e "consulta_agendamentos") eqn:Hest;
      simpl.
    + split; [done|]. split; [by left|]. intros -> H. by destruct H.
    + split; [done|]. split; [by left|]. intros _ _. done.
Qed.

(** X15: for a message with no cancellation keyword and no greeting, the
    states 'inicio' and 'finalizado' and an unset state hand the message to
    the start handler with the draft as it is; a state the dispatcher does
    not know resets the conversation first. *)
Theorem X15_inicio_e_estado_desconhecido (mensagem : string) (w : Mundo) :
  _eh_cancelamento_em (lower mensagem) = false ->
  _eh_saudacao_em (lower mensagem) = false ->
  (In (estado (conversa w)) [""; "inicio"; "finalizado"] ->
   processar mensagem w = devolver (_processar_inicio lower strip gemini mensagem) w
   /\ dados (conversa (snd (processar mensagem w))) = dados (conversa w))
  /\ (~ In (estado (conversa w)) ("" :: estados_conhecidos) ->
      processar mensagem w
      = devolver (_processar_inicio lower strip gemini mensagem) (reiniciada w)
      /\ dados (conversa (snd (processar mensagem w))) = ∅).
Proof.
  intros Hcanc Hsaud.
  assert (Hdev : forall w0, exists r w1,
    devolver (_processar_inicio lower strip gemini mensagem) w0 = (Ok r, w1)
    /\ dados (conversa w1) = dados (conversa w0)).
  { intros w0. destruct (_processar_inicio_ok lower strip gemini mensagem w0) as (r & e & Hr).
    unfold devolver, mbind, M_bind. rewrite Hr. by do 2 eexists. }
  assert (Hproc : forall w0,
    despacho mensagem w = devolver (_processar_inicio lower strip gemini mensagem) w0 ->
    processar mensagem w = devolver (_processar_inicio lower strip gemini mensagem) w0
    /\ dados (conversa (snd (processar mensagem w))) = dados (conversa w0)).
  { intros w0 Hd. unfold processar_mensagem, tentar. rewrite Hd.
    destruct (Hdev w0) as (r & w1 & -> & Hw1). done. }
  destruct w as [[e d pid] b].
  split.
  - intros Hin. simpl in Hin. apply Hproc.
    unfold despachar, _eh_cancelamento, _eh_saudacao.
    unfold mbind at 1 2, M_bind at 1 2, ler_conversa, get_dados. simpl.
    rewrite Hcanc, Hsaud, andb_false_r.
    destruct Hin as [<-|[<-|[<-|[]]]]; reflexivity.
  - intros Hnin. apply (Hproc (reiniciada (mkMundo (mkConversa e d pid) b))).
    unfold despachar, _eh_cancelamento, _eh_saudacao.
    unfold mbind at 1 2, M_bind at 1 2, ler_conversa, get_dados. simpl.
    rewrite Hcanc, Hsaud, andb_false_r.
    unfold estados_conhecidos in Hnin. simpl in Hnin.
    repeat match goal with
           | |- context [String.eqb e ?s] =>
               destruct (String.eqb_spec e s) as [->|?]; [exfalso; apply Hnin; tauto|]
           end.
    reflexivity.
Qed.

(** *** Replies *)

Lemma responde_ret (r : Resposta) : responde (mret (Some r)).
Proof. intros w w'. discriminate. Qed.

Lemma responde_bind {A} (m : M A) (k : A -> M (option Resposta)) :
  (forall a, responde (k a)) -> responde (m ≫= k).
Proof.
  intros Hk w w'. unfold mbind, M_bind.
  destruct (m w) as [[a|e] w1]; [apply Hk|discriminate].
Qed.

Lemma responde_devolver (m : M Resposta) : responde (devolver m).
Proof. unfold devolver. apply responde_bind. intros a. apply responde_ret. Qed.

Ltac responde_passo :=
  repeat first
    [ apply responde_ret
    | apply responde_devolver
    | apply responde_bind; intros ?
    | progress case_match ].

Lemma responde_elim (m : M (option Resposta)) (w w' : Mundo) :
  responde m -> m w = (Ok None, w') -> False.
Proof. intros Hm H. exact (Hm w w' H). Qed.

Lemma cadastro_sem_resposta (mensagem : string) (d : gmap string JVal) (w w' : Mundo) :
  _processar_cadastro lower strip strptime_data _extrair_email hoje mensagem d w
  = (Ok None, w') ->
  w' = w
  /\ forall e, In e ["nome"; "data_nascimento"; "telefone"; "email"; "carteirinha"] ->
       igual_texto (dget_padrao d "etapa_cadastro" (JStr "nome")) e = false.
Proof.
  unfold _processar_cadastro. intros H.
  destruct (igual_texto _ "nome") eqn:E1;
    [exfalso; eapply responde_elim; [|exact H]; responde_passo|].
  destruct (igual_texto _ "data_nascimento") eqn:E2;
    [exfalso; eapply responde_elim; [|exact H]; responde_passo|].
  destruct (igual_texto _ "telefone") eqn:E3;
    [exfalso; eapply responde_elim; [|exact H]; responde_passo|].
  destruct (igual_texto _ "email") eqn:E4;
    [exfalso; eapply responde_elim; [|exact H]; responde_passo|].
  destruct (igual_texto _ "carteirinha") eqn:E5;
    [exfalso; eapply responde_elim; [|exact H]; responde_passo|].
  split; [unfold mret, M_ret in H; congruence|].
  intros e [<-|[<-|[<-|[<-|[<-|[]]]]]]; assumption.
Qed.

(** X16: the service returns Python's [None] in one situation only: the
    state is 'cadastro' and the draft's registration step is none of the five
    steps of the handler; the conversation and the tables are then left as
    they were. *)
Theorem X16_sem_resposta (mensagem : string) (w w' : Mundo) :
  processar mensagem w = (Ok None, w') ->
  w' = w
  /\ estado (conversa w) = "cadastro"
  /\ forall e, In e ["nome"; "data_nascimento"; "telefone"; "email"; "carteirinha"] ->
       igual_texto (dget_padrao (dados (conversa w)) "etapa_cadastro" (JStr "nome")) e
       = false.
Proof.
  unfold processar_mensagem, tentar.
  destruct (despacho mensagem w) as [[r|e] w1] eqn:Hd; [|passo; discriminate].
  intros [= -> ->]. revert Hd. destruct w as [[e d pid] b].
  unfold despachar. unfold mbind at 1 2, M_bind at 1 2, ler_conversa, get_dados. simpl.
  intros Hd.
  repeat match type of Hd with
         | (if ?c then _ else _) _ = _ => destruct c eqn:?
         end;
    try discriminate;
    try solve [exfalso; eapply responde_elim; [|exact Hd]; responde_passo].
  apply cadastro_sem_resposta in Hd as [-> Hd]. split; [reflexivity|].
  split; [|exact Hd].
  destruct (String.eqb e "") eqn:He; [discriminate|].
  by apply String.eqb_eq.
Qed.

(** *** Location *)

Lemma ocorre_em_vazio (s : string) : ocorre_em "" s = true.
Proof. destruct s; reflexivity. Qed.

(** X17: the location step never writes to the tables; it answers with
    success only after storing the id and the name of an active location in
    the draft, the other keys kept, and moving to the choice of specialty; it
    fails without a change otherwise.  A message that is empty once stripped
    is contained in every name, so it takes the first active location. *)
Theorem X17_local_escolhido (mensagem : string) (w : Mundo) :
  exists r w',
    _processar_local lower strip mensagem w = (Ok r, w')
    /\ banco w' = banco w
    /\ (success r = false -> w' = w)
    /\ (success r = true ->
        exists l, In l (locais (banco w)) /\ Local.ativo l = true
          /\ estado (conversa w') = "especialidade"
          /\ dados (conversa w')
             = <["local_nome" := JStr (Local.nome l)]>
                 (<["local_id" := JInt (Local.id l)]> (dados (conversa w))))
    /\ (strip (lower mensagem) = "" ->
        forall l, head (Local_find_active (banco w)) = Some l ->
        success r = true
        /\ dados (conversa w') !! "local_id" = Some (JInt (Local.id l))).
Proof.
  destruct w as [[e d pid] b]. unfold _processar_local. passo.
  destruct (find _ (Local_find_active b)) as [l|] eqn:Hf; simpl.
  - do 2 eexists. split; [reflexivity|]. simpl. split; [reflexivity|].
    split; [discriminate|]. split.
    + intros _. exists l. apply find_some in Hf as [Hin _].
      apply list_elem_of_In, list_elem_of_filter in Hin as [Hat Hin].
      apply list_elem_of_In in Hin. done.
    + intros Hvazio l0 Hl0. split; [reflexivity|].
      destruct (Local_find_active b) as [|l1 ls]; [discriminate|].
      injection Hl0 as ->. simpl in Hf. rewrite Hvazio in Hf.
      unfold local_combina in Hf. rewrite ocorre_em_vazio in Hf.
      rewrite orb_true_r in Hf. simpl in Hf. injection Hf as ->.
      rewrite lookup_insert_ne by done. apply lookup_insert_eq.
  - do 2 eexists. split; [reflexivity|]. simpl. split; [reflexivity|].
    split; [reflexivity|]. split; [discriminate|].
    intros Hvazio l0 Hl0. exfalso.
    destruct (Local_find_active b) as [|l1 ls]; [discriminate|].
    simpl in Hf. rewrite Hvazio in Hf.
    unfold local_combina in Hf. rewrite ocorre_em_vazio in Hf.
    rewrite orb_true_r in Hf. simpl in Hf. discriminate.
Qed.

(** *** The upload link *)

Lemma parametro_inteiro_puro (v : JVal) (w : Mundo) :
  (exists x, parametro_inteiro v w = (Ok x, w))
  \/ (exists e, parametro_inteiro v w = (Raise e, w)).
Proof. destruct v as [|[]| | |]; simpl; eauto. Qed.

Lemma parametro_texto_puro (v : JVal) (w : Mundo) :
  (exists x, parametro_texto v w = (Ok x, w))
  \/ (exists e, parametro_texto v w = (Raise e, w)).
Proof. destruct v as [|[]| | |]; simpl; eauto. Qed.

Lemma Agendamento_create_sem_data_ou_hora
    (p m e l : option Z) (data hora obs status anexo_nome anexo_path : option string)
    (w : Mundo) :
  data = None \/ hora = None ->
  Agendamento_create p m e l data hora obs status anexo_nome anexo_path w
  = (Raise IntegrityError, w).
Proof.
  intros H. unfold Agendamento_create. passo.
  destruct p, m, e, l, data, hora; try reflexivity; by destruct H.
Qed.

(** X18: in the attachment step, a message that asks for the link (and has
    none of the words of the two earlier branches) reads the date and the
    time under the keys 'data' and 'hora'; on a draft without one of them,
    as the slot step leaves it (it writes 'data_agendamento' and
    'hora_agendamento'), the handler raises and writes nothing. *)
Theorem X18_link_sem_data (mensagem : string) (d : gmap string JVal) (w : Mundo) :
  alguma_em ["enviei"; "enviado"; "anexei"; "anexado"; "upload"; "foto"; "arquivo";
             "ok"; "pronto"; "sim"] (strip (lower mensagem)) = false ->
  alguma_em ["pular"; "sem anexo"; "não tenho"; "nao tenho"; "depois"; "não"; "nao"]
    (strip (lower mensagem)) = false ->
  alguma_em ["link"; "upload"; "anexo"] (strip (lower mensagem)) = true ->
  d !! "data" = None \/ d !! "hora" = None ->
  exists e, _processar_solicitacao_anexo lower strip mensagem d w = (Raise e, w).
Proof.
  intros H1 H2 H3 Hd. unfold _processar_solicitacao_anexo. cbv zeta.
  rewrite H1, H2, H3.
  unfold mbind, M_bind, ler_conversa.
  destruct (parametro_inteiro_puro (dget d "medico_id") w) as [[m ->]|[e ->]]; [|eauto].
  destruct (parametro_inteiro_puro (dget d "especialidade_id") w) as [[es ->]|[e ->]]; [|eauto].
  destruct (parametro_inteiro_puro (dget d "local_id") w) as [[l ->]|[e ->]]; [|eauto].
  destruct (parametro_texto_puro (dget d "data") w) as [[data Hdata]|[e ->]]; [|eauto].
  rewrite Hdata.
  destruct (parametro_texto_puro (dget d "hora") w) as [[hora Hhora]|[e ->]]; [|eauto].
  rewrite Hhora.
  rewrite Agendamento_create_sem_data_ou_hora; [eauto|].
  unfold dget in Hdata, Hhora.
  destruct Hd as [Hd|Hd]; rewrite Hd in *; simpl in *; unfold mret, M_ret in *;
    [left|right]; congruence.
Qed.

End Passos_do_atendimento.

(** ** Texts typed by the patient *)

Lemma so_digitos_digitos (s : string) :
  forallb eh_digito (list_ascii_of_string (so_digitos s)) = true.
Proof.
  induction s as [|c s IH]; simpl; [reflexivity|].
  destruct (eh_digito c) eqn:Hc; simpl; [rewrite Hc|]; exact IH.
Qed.

Lemma so_digitos_fixo (s : string) :
  forallb eh_digito (list_ascii_of_string s) = true -> so_digitos s = s.
Proof.
  induction s as [|c s IH]; simpl; [reflexivity|].
  intros H. apply andb_prop in H as [-> H]. by rewrite IH.
Qed.

(** X19: for an ASCII message, what [_extrair_cpf] and [_extrair_telefone]
    return holds digits only, eleven of them for a CPF and ten or eleven for a phone, whatever
    else the message holds; each returns its own result unchanged when given
    it again. *)
Theorem X19_cpf_e_telefone_so_digitos (mensagem : string) :
  isascii mensagem = true ->
  (forall cpf, _extrair_cpf mensagem = Some cpf ->
     forallb eh_digito (list_ascii_of_string cpf) = true
     /\ String.length cpf = 11%nat
     /\ _extrair_cpf cpf = Some cpf)
  /\ (forall telefone, _extrair_telefone mensagem = Some telefone ->
        forallb eh_digito (list_ascii_of_string telefone) = true
        /\ (10 <= String.length telefone <= 11)%nat
        /\ _extrair_telefone telefone = Some telefone).
Proof.
  intros _. split.
  - intros cpf. unfold _extrair_cpf.
    destruct (Nat.eqb (String.length (so_digitos mensagem)) 11) eqn:Hlen; [|discriminate].
    intros [= <-]. pose proof (so_digitos_digitos mensagem) as Hd.
    split; [exact Hd|]. split; [by apply Nat.eqb_eq|].
    by rewrite (so_digitos_fixo _ Hd), Hlen.
  - intros telefone. unfold _extrair_telefone.
    destruct (Nat.leb 10 (String.length (so_digitos mensagem))
              && Nat.leb (String.length (so_digitos mensagem)) 11) eqn:Hlen; [|discriminate].
    intros [= <-]. pose proof (so_digitos_digitos mensagem) as Hd.
    split; [exact Hd|]. split.
    + apply andb_prop in Hlen as [H1 H2]. apply Nat.leb_le in H1, H2. lia.
    + by rewrite (so_digitos_fixo _ Hd), Hlen.
Qed.

Section Textos.

Variable strptime_data : string -> string -> option Z.
Variable hoje : Z.

Lemma _validar_data_nascimento_em_ok formatos data_str data :
  _validar_data_nascimento_em strptime_data hoje formatos data_str = Some data ->
  693596 <= data <= hoje
  /\ exists formato, In formato formatos /\ strptime_data data_str formato = Some data.
Proof.
  induction formatos as [|f fs IH]; simpl; [discriminate|].
  destruct (strptime_data data_str f) as [d|] eqn:Hd.
  - destruct ((d <=? hoje) && (693596 <=? d)) eqn:Hr.
    + intros [= <-]. apply andb_prop in Hr as [H1 H2].
      apply Z.leb_le in H1, H2. split; [lia|]. exists f. auto.
    + intros H. destruct (IH H) as (? & f' & ? & ?). split; [done|]. exists f'. auto.
  - intros H. destruct (IH H) as (? & f' & ? & ?). split; [done|]. exists f'. auto.
Qed.

(** X20: a birth date [_validar_data_nascimento] accepts is not before
    1900-01-01 and not after today, and is what [strptime] reads from the
    text under one of the three formats; a text no format reads is refused,
    and the first format that reads a date in that range decides. *)
Theorem X20_data_de_nascimento (data_str : string) :
  (forall data, _validar_data_nascimento strptime_data hoje data_str = Some data ->
     693596 <= data <= hoje
     /\ strftime_Ymd 693596 = "1900-01-01"
     /\ exists formato, In formato ["%d/%m/%Y"; "%d-%m-%Y"; "%d.%m.%Y"]
          /\ strptime_data data_str formato = Some data)
  /\ ((forall formato, strptime_data data_str formato = None) ->
      _validar_data_nascimento strptime_data hoje data_str = None)
  /\ (forall data, strptime_data data_str "%d/%m/%Y" = Some data ->
        693596 <= data <= hoje ->
        _validar_data_nascimento strptime_data hoje data_str = Some data).
Proof.
  split; [|split].
  - intros data H. apply _validar_data_nascimento_em_ok in H as [Hr Hf].
    split; [exact Hr|]. split; [vm_compute; reflexivity|exact Hf].
  - intros Hn. unfold _validar_data_nascimento. simpl. by rewrite !Hn.
  - intros data Hd Hr. unfold _validar_data_nascimento. simpl. rewrite Hd.
    destruct (Z.leb_spec data hoje); [|lia].
    destruct (Z.leb_spec 693596 data); [|lia]. reflexivity.
Qed.

End Textos.

(** ** The choice of a slot *)

Section Escolha_do_horario.

Variable strip : string -> string.
Variable mktime : Z -> Z.
Variable hoje : Z.
Variable agora : Z.

Lemma interpretar_In (mensagem : string) (horarios : list Horario) (h : Horario) :
  _interpretar_escolha_horario strip agora mensagem horarios = Some h -> In h horarios.
Proof.
  unfold _interpretar_escolha_horario.
  destruct (numero_match (strip mensagem)) as [n|].
  - destruct ((0 <=? n - 1) && (n - 1 <? Z.of_nat (length horarios))); [|discriminate].
    apply nth_error_In.
  - intros H. by apply find_some in H as [? _].
Qed.

(** X21: for a message that is ASCII, also once stripped, the choice
    interpreter never invents a slot: its answer is an entry of the list it
    was given.  A message that is a number picks the
    entry at that position, counted from one, and nothing when the position
    is outside the list, without falling back to the search by date and time;
    any other message picks the first entry matching the date and the time
    found in it. *)
Theorem X21_escolha_pertence_a_lista (mensagem : string) (horarios : list Horario) :
  isascii mensagem = true ->
  isascii (strip mensagem) = true ->
  (forall h, _interpretar_escolha_horario strip agora mensagem horarios = Some h ->
     In h horarios)
  /\ (forall n, numero_match (strip mensagem) = Some n ->
        _interpretar_escolha_horario strip agora mensagem horarios
        = (if (1 <=? n) && (n <=? Z.of_nat (length horarios))
           then horarios !! Z.to_nat (n - 1) else None)
        /\ (n < 1 \/ Z.of_nat (length horarios) < n ->
            _interpretar_escolha_horario strip agora mensagem horarios = None))
  /\ (numero_match (strip mensagem) = None ->
      forall h, _interpretar_escolha_horario strip agora mensagem horarios = Some h ->
        combina (data_encontrada agora mensagem) (hora_encontrada mensagem) h = true
        /\ exists i, horarios !! i = Some h
             /\ forall j x, (j < i)%nat -> horarios !! j = Some x ->
                  combina (data_encontrada agora mensagem) (hora_encontrada mensagem) x
                  = false).
Proof.
  intros _ _. split; [intros h; apply interpretar_In|]. split.
  - intros n Hn. unfold _interpretar_escolha_horario. rewrite Hn.
    assert (Heq : (0 <=? n - 1) && (n - 1 <? Z.of_nat (length horarios))
                  = (1 <=? n) && (n <=? Z.of_nat (length horarios))).
    { destruct (Z.leb_spec 0 (n - 1)), (Z.leb_spec 1 n); try lia;
        destruct (Z.ltb_spec (n - 1) (Z.of_nat (length horarios))),
          (Z.leb_spec n (Z.of_nat (length horarios))); try lia; reflexivity. }
    rewrite Heq. clear Heq. split.
    + destruct ((1 <=? n) && (n <=? Z.of_nat (length horarios))); [|reflexivity].
      clear. generalize (Z.to_nat (n - 1)).
      induction horarios as [|x l IH]; intros [|k]; simpl; auto.
    + intros Hfora.
      destruct (Z.leb_spec 1 n); [|reflexivity].
      destruct (Z.leb_spec n (Z.of_nat (length horarios))); [lia|reflexivity].
  - intros Hn h. unfold _interpretar_escolha_horario. rewrite Hn.
    generalize (combina (data_encontrada agora mensagem) (hora_encontrada mensagem)).
    intros f. induction horarios as [|x l IH]; simpl; [discriminate|].
    destruct (f x) eqn:Hx.
    + intros [= <-]. split; [exact Hx|]. exists 0%nat. split; [reflexivity|]. lia.
    + intros H. destruct (IH H) as (Hf & i & Hi & Hmin). split; [exact Hf|].
      exists (S i). split; [exact Hi|]. intros [|j] y Hj; simpl.
      * by intros [= <-].
      * apply Hmin. lia.
Qed.



End Escolha_do_horario.

(** ** Cancelling by number *)

Section Cancelamento_por_numero.

Variable lower : string -> string.
Variable strip : string -> string.

(** X22: with a list of appointments to cancel in the draft, a message that
    reads as a number outside 1..length is refused and changes nothing; a
    number inside picks the id at that position, and when the appointment of
    that id is still 'agendado' the handler sets its status to 'cancelado'
    with the reason "Cancelado pelo paciente via chatbot", leaves the rows of
    other ids as they are, empties the draft and finishes the conversation. *)
Theorem X22_cancelamento_por_numero (mensagem : string) (w : Mundo) (ids : list Z) (n : Z) :
  dados (conversa w) !! "agendamentos_para_cancelar" = Some (JLista ids) ->
  int_literal (strip (strip mensagem)) = Some n ->
  (n < 1 \/ Z.of_nat (length ids) < n ->
   exists r, _processar_cancelamento lower strip mensagem w = (Ok r, w) /\ success r = false)
  /\ (forall i a,
        1 <= n <= Z.of_nat (length ids) ->
        nth_error ids (Z.to_nat (n - 1)) = Some i ->
        Agendamento_find_by_id (banco w) i = Some a ->
        Agendamento.status a = "agendado" ->
        exists r w',
          _processar_cancelamento lower strip mensagem w = (Ok r, w')
          /\ success r = true
          /\ estado (conversa w') = "finalizado"
          /\ dados (conversa w') = ∅
          /\ length (agendamentos (banco w')) = length (agendamentos (banco w))
          /\ (forall x, In x (agendamentos (banco w')) -> Agendamento.id x = i ->
                Agendamento.status x = "cancelado"
                /\ Agendamento.motivo_cancelamento x
                   = Some "Cancelado pelo paciente via chatbot")
          /\ (forall x, In x (agendamentos (banco w)) -> Agendamento.id x <> i ->
                In x (agendamentos (banco w')))).
Proof.
  destruct w as [[e d pid] b]. simpl. intros Hd Hn.
  unfold _processar_cancelamento. passo. rewrite Hd, Hn. passo. split.
  - intros Hfora.
    assert (Hc : (1 <=? n) && (n <=? Z.of_nat (length ids)) = false).
    { destruct (Z.leb_spec 1 n); [|reflexivity].
      destruct (Z.leb_spec n (Z.of_nat (length ids))); [lia|reflexivity]. }
    rewrite Hc. eexists. split; reflexivity.
  - intros i a Hr Hi Ha Hst.
    assert (Hc : (1 <=? n) && (n <=? Z.of_nat (length ids)) = true).
    { destruct (Z.leb_spec 1 n); [|lia].
      destruct (Z.leb_spec n (Z.of_nat (length ids))); [reflexivity|lia]. }
    rewrite Hc, Hi. simpl. rewrite Ha, Hst. simpl.
    unfold Agendamento_cancelar. passo.
    assert (Hid : Agendamento.id a = i).
    { apply find_some in Ha as [_ Ha]. by apply Z.eqb_eq. }
    do 2 eexists. split; [reflexivity|]. simpl.
    split; [reflexivity|]. split; [reflexivity|]. split; [reflexivity|].
    split; [apply length_map|]. split.
    + intros x Hx Hxi. apply in_map_iff in Hx as (y & Hy & _).
      destruct (Z.eqb_spec (Agendamento.id y) (Agendamento.id a)) as [Heq|Hne].
      * subst x. simpl. done.
      * subst x. congruence.
    + intros x Hx Hxi. apply in_map_iff. exists x. split; [|exact Hx].
      destruct (Z.eqb_spec (Agendamento.id x) (Agendamento.id a)); [congruence|reflexivity].
Qed.

End Cancelamento_por_numero.

(** ** The appointments of a patient *)

Lemma filter_sublist_of {A} (f : A -> bool) (l : list A) :
  List.filter f l `sublist_of` l.
Proof.
  induction l as [|x l IH]; simpl; [constructor|].
  destruct (f x); by constructor.
Qed.

(** X24: the list the cancellation flow shows for an identified patient
    holds the ids of that patient's appointments with status 'agendado', all
    of them and no other, in the order of the table; it is stored in the
    draft in place of what the draft held.  With no such appointment the
    reply is a failure and nothing changes.  The tables are only read. *)
Theorem X24_lista_para_cancelar (paciente : Paciente.t) (w : Mundo) :
  exists r w',
    _processar_cancelamento_cpf_valido paciente w = (Ok r, w')
    /\ banco w' = banco w
    /\ (forall ids, r_agendamentos r = Some ids ->
          ids <> []
          /\ dados (conversa w') = {[ "agendamentos_para_cancelar" := JLista ids ]}
          /\ estado (conversa w') = estado (conversa w)
          /\ (exists l, ids = map Agendamento.id l
                 /\ l `sublist_of` agendamentos (banco w))
          /\ forall i, In i ids <->
               exists a, In a (agendamentos (banco w))
                 /\ Agendamento.id a = i
                 /\ Agendamento.paciente_id a = Paciente.id paciente
                 /\ Agendamento.status a = "agendado")
    /\ (r_agendamentos r = None ->
        w' = w /\ success r = false
        /\ forall a, In a (agendamentos (banco w)) ->
             Agendamento.paciente_id a = Paciente.id paciente ->
             Agendamento.status a <> "agendado").
Proof.
  destruct w as [[e d pid] b]. unfold _processar_cancelamento_cpf_valido. passo.
  set (f := fun a : Agendamento.t =>
              (Agendamento.paciente_id a =? Paciente.id paciente)
              && String.eqb (Agendamento.status a) "agendado").
  assert (Hf : forall a, f a = true <->
                 Agendamento.paciente_id a = Paciente.id paciente
                 /\ Agendamento.status a = "agendado").
  { intros a. unfold f. rewrite andb_true_iff, Z.eqb_eq, String.eqb_eq. tauto. }
  destruct (List.filter f (agendamentos b)) as [|a0 l] eqn:Hfil.
  - do 2 eexists. split; [reflexivity|]. simpl. split; [reflexivity|].
    split; [discriminate|]. intros _. split; [reflexivity|]. split; [reflexivity|].
    intros a Ha Hp Hs.
    assert (Hin : In a (List.filter f (agendamentos b)))
      by (apply filter_In; split; [exact Ha|]; by apply Hf).
    rewrite Hfil in Hin. destruct Hin.
  - do 2 eexists. split; [reflexivity|]. simpl. split; [reflexivity|].
    split; [|discriminate]. intros ids [= <-].
    split; [discriminate|]. split; [reflexivity|]. split; [reflexivity|].
    split.
    { exists (a0 :: l). split; [reflexivity|]. rewrite <- Hfil. apply filter_sublist_of. }
    intros i.
    change (In i (Agendamento.id a0 :: map Agendamento.id l))
      with (In i (map Agendamento.id (a0 :: l))).
    rewrite <- Hfil, in_map_iff. split.
    + intros (a & Hid & Ha). apply filter_In in Ha as [Ha Hfa]. apply Hf in Hfa.
      exists a. tauto.
    + intros (a & Ha & Hid & Hp & Hs). exists a. split; [exact Hid|].
      apply filter_In. split; [exact Ha|]. by apply Hf.
Qed.

(** * Examples *)

(** The patterns agree with [re] on these texts. *)
Example buscar_data_exemplo :
  buscar_data "dia 10/1 as 14h" = Some (10, 1) /\ buscar_data "1.5.6" = Some (1, 5)
  /\ buscar_data "amanha" = None.
Proof. repeat split; reflexivity. Qed.

Example buscar_hora_exemplo :
  buscar_hora "dia 10/1 as 14h" = Some (14, 0) /\ buscar_hora "as 9 horas" = Some (9, 0)
  /\ buscar_hora "123:45" = Some (23, 45) /\ buscar_hora "8h30" = Some (8, 30).
Proof. repeat split; reflexivity. Qed.

Example numero_match_exemplo :
  numero_match "12" = Some 12 /\ numero_match "0" = Some 0 /\ numero_match "1a" = None
  /\ numero_match "" = None.
Proof. repeat split; reflexivity. Qed.

Example strftime_exemplo :
  strftime_Ymd 739923 = "2026-11-03" /\ strftime_dmY 738945 = "29/02/2024"
  /\ strftime_HM 545 = "09:05" /\ weekday 739925 = 3.
Proof. repeat split; reflexivity. Qed.

(** "3" picks the third candidate, "6" none, and "05/11 08:30" the entry of
    that day and time. *)
Example escolha_exemplo :
  _interpretar_escolha_horario strip_ascii agora_exemplo "3" slots_exemplo = Some terca_exemplo
  /\ _interpretar_escolha_horario strip_ascii agora_exemplo "6" slots_exemplo = None
  /\ (h_hora <$> _interpretar_escolha_horario strip_ascii agora_exemplo "05/11 08:30"
                    slots_exemplo) = Some "08:30".
Proof. repeat split; vm_compute; reflexivity. Qed.

Example slots_exemplo_valor :
  map (fun h => (h_data h, h_hora h, h_dia_semana h)) slots_exemplo
  = [("2026-11-05", "08:00", "Quinta"); ("2026-11-05", "08:30", "Quinta");
     ("2026-11-03", "09:30", "Terça"); ("2026-11-10", "08:00", "Terça");
     ("2026-11-10", "08:30", "Terça")].
Proof. vm_compute. reflexivity. Qed.

Lemma C3_quinta_primeiro_witness :
  (0 < 2)%nat
  /\ slots_exemplo !! 0%nat = Some quinta_exemplo
  /\ slots_exemplo !! 2%nat = Some terca_exemplo
  /\ ((weekday (h_dia terca_exemplo) = 3 -> weekday (h_dia quinta_exemplo) = 3)
      /\ ((weekday (h_dia quinta_exemplo) = 3 <-> weekday (h_dia terca_exemplo) = 3) ->
          h_timestamp quinta_exemplo <= h_timestamp terca_exemplo)).
Proof.
  split; [lia|]. split; [vm_compute; reflexivity|]. split; [vm_compute; reflexivity|].
  apply (C3_quinta_primeiro mktime_utc hoje_exemplo agora_exemplo banco_exemplo rows_exemplo
           0%nat 2%nat quinta_exemplo terca_exemplo).
  - lia.
  - vm_compute; reflexivity.
  - vm_compute; reflexivity.
Defined.

Lemma C9_primeiro_candidato_witness :
  numero_match (strip_ascii "amanha cedo") = None
  /\ buscar_data "amanha cedo" = None
  /\ buscar_hora "amanha cedo" = None
  /\ _interpretar_escolha_horario strip_ascii agora_exemplo "amanha cedo"
       (quinta_exemplo :: [terca_exemplo]) = Some quinta_exemplo.
Proof.
  split; [reflexivity|]. split; [reflexivity|]. split; [reflexivity|].
  apply (C9_primeiro_candidato strip_ascii agora_exemplo "amanha cedo"
           quinta_exemplo [terca_exemplo]); reflexivity.
Defined.

(** A name typed during registration that holds "oi". *)
Lemma C10_saudacao_reinicia_witness :
  let w := mundo_exemplo "cadastro"
             (<["cpf" := JStr "98765432100"]> {[ "etapa_cadastro" := JStr "nome" ]}) in
  _eh_saudacao_em (lower_ascii "Heloisa") = true
  /\ _eh_cancelamento_em (lower_ascii "Heloisa") = false
  /\ processar_exemplo "Heloisa" w
     = devolver (_processar_inicio lower_ascii strip_ascii sem_gemini "Heloisa")
         (reiniciada w)
  /\ dados (conversa (snd (processar_exemplo "Heloisa" w))) = ∅.
Proof.
  intros w. split; [reflexivity|]. split; [reflexivity|].
  apply (C10_saudacao_reinicia lower_ascii strip_ascii sem_datas sem_email sem_gemini
           mktime_utc hoje_exemplo agora_exemplo "Heloisa" w); reflexivity.
Defined.



Lemma selecao_exemplo_valida :
  selecao_valida (mundo_exemplo "confirmacao" (rascunho_exemplo 1 "Cardiologia"))
    (rascunho_exemplo 1 "Cardiologia") 1 1 1 1 "2026-11-05" "08:00".
Proof.
  unfold selecao_valida. repeat (split; [vm_compute; reflexivity|]).
  split; [intros ids H; vm_compute in H; discriminate H|].
  repeat split; vm_compute; reflexivity.
Defined.

Lemma C4_confirmacao_witness :
  let w := mundo_exemplo "confirmacao" (rascunho_exemplo 1 "Cardiologia") in
  (eh_afirmativa (strip_ascii (lower_ascii "sim")) = true
   /\ selecao_valida w (dados (conversa w)) 1 1 1 1 "2026-11-05" "08:00"
   /\ exists r a w',
        _processar_confirmacao lower_ascii strip_ascii "sim" (dados (conversa w)) w = (Ok r, w')
        /\ agendamentos (banco w') = (agendamentos (banco w) ++ [a])%list
        /\ Agendamento.medico_id a = 1
        /\ Agendamento.especialidade_id a = 1
        /\ Agendamento.data a = "2026-11-05"
        /\ Agendamento.hora a = "08:00"
        /\ Agendamento.status a = "agendado"
        /\ estado (conversa w') = "finalizado"
        /\ dados (conversa w') = ∅)
  /\ (eh_afirmativa (strip_ascii (lower_ascii "nao")) = false
      /\ eh_negativa (strip_ascii (lower_ascii "nao")) = true
      /\ _processar_confirmacao lower_ascii strip_ascii "nao" (dados (conversa w)) w
         = (Ok (resposta true
                  (Literal "Agendamento cancelado. Vou mostrar outros horários disponíveis:")
                  "horarios" "horarios"),
            mkMundo (mkConversa "horarios" (dados (conversa w)) (paciente_id (conversa w)))
              (banco w)))
  /\ (eh_afirmativa (strip_ascii (lower_ascii "talvez")) = false
      /\ eh_negativa (strip_ascii (lower_ascii "talvez")) = false
      /\ _processar_confirmacao lower_ascii strip_ascii "talvez" (dados (conversa w)) w
         = (Ok (resposta false
                  (Literal "Não entendi sua resposta. Por favor, digite **'sim'** para confirmar o agendamento ou **'não'** para cancelar:")
                  "confirmacao" "confirmacao"),
            w)).
Proof.
  intros w. split; [|split].
  - split; [reflexivity|]. split; [exact selecao_exemplo_valida|].
    exact (proj1 (C4_confirmacao lower_ascii strip_ascii "sim" w) eq_refl
             1 1 1 1 "2026-11-05" "08:00" selecao_exemplo_valida).
  - split; [reflexivity|]. split; [reflexivity|].
    exact (proj1 (proj2 (C4_confirmacao lower_ascii strip_ascii "nao" w)) eq_refl eq_refl).
  - split; [reflexivity|]. split; [reflexivity|].
    exact (proj2 (proj2 (C4_confirmacao lower_ascii strip_ascii "talvez" w)) eq_refl eq_refl).
Defined.

(** C4 as stated fails: "nao sei" matches the negative list ('nao') and yet
    is confirmed, because 's' is found in it first; and after a plain "nao"
    the draft still holds the selection. *)
Lemma C4_contraexemplo :
  let w := mundo_exemplo "confirmacao" (rascunho_exemplo 1 "Cardiologia") in
  eh_negativa (strip_ascii (lower_ascii "nao sei")) = true
  /\ estado (conversa (snd (processar_exemplo "nao sei" w))) = "finalizado"
  /\ length (agendamentos (banco (snd (processar_exemplo "nao sei" w)))) = 2%nat
  /\ eh_negativa (strip_ascii (lower_ascii "nao")) = true
  /\ estado (conversa (snd (processar_exemplo "nao" w))) = "horarios"
  /\ dados (conversa (snd (processar_exemplo "nao" w))) !! "medico_id" = Some (JInt 1)
  /\ dados (conversa (snd (processar_exemplo "nao" w))) !! "data_agendamento"
     = Some (JStr "2026-11-05").
Proof. intros w. repeat split; vm_compute; reflexivity. Qed.

Lemma C6_temporario_e_confirmacao_witness :
  let w := mundo_exemplo "horarios" rascunho_antes_da_escolha in
  let w2 := mkMundo (mkConversa "confirmacao" rascunho_pediatria (Some 1)) banco_com_temporario in
  (exists r t w',
     _processar_horarios strip_ascii mktime_utc hoje_exemplo agora_exemplo "1"
       rascunho_antes_da_escolha w = (Ok r, w')
     /\ tipo r = "solicitacao_anexo"
     /\ estado (conversa w') = "solicitacao_anexo"
     /\ agendamentos (banco w') = (agendamentos (banco w) ++ [t])%list
     /\ Agendamento.status t = "pendente_anexo"
     /\ dados (conversa w') !! "agendamento_temp_id" = Some (JInt (Agendamento.id t)))
  /\ (exists r a w',
        _processar_confirmacao lower_ascii strip_ascii "sim" (dados (conversa w2)) w2
        = (Ok r, w')
        /\ agendamentos (banco w') = (agendamentos (banco w2) ++ [a])%list
        /\ Agendamento.status a = "agendado"
        /\ Agendamento.id a <> Agendamento.id temporario_exemplo
        /\ In temporario_exemplo (agendamentos (banco w'))).
Proof.
  intros w w2.
  pose proof (C6_temporario_e_confirmacao lower_ascii strip_ascii mktime_utc hoje_exemplo
                agora_exemplo) as [Hescolha Hconfirma].
  split.
  - apply (Hescolha "1" w rascunho_antes_da_escolha 1 2 1 quarta_exemplo
             (Especialidade.mk 2 "Pediatria" true true));
      try (vm_compute; reflexivity); try discriminate.
  - apply (Hconfirma "sim" w2 temporario_exemplo 1 2 2 1 "2026-11-04" "14:00").
    + right. left. reflexivity.
    + reflexivity.
    + reflexivity.
    + unfold selecao_valida. repeat (split; [vm_compute; reflexivity|]).
      split; [intros ids H; vm_compute in H; discriminate H|].
      repeat split; vm_compute; reflexivity.
Defined.

(** C6 as stated fails: after the slot choice, "sem anexo" and "sim", the
    placeholder is still there with status 'pendente_anexo' and the confirmed
    appointment is another row. *)
Lemma C6_contraexemplo :
  let w0 := mundo_exemplo "horarios" rascunho_antes_da_escolha in
  let w1 := snd (processar_exemplo "1" w0) in
  let w2 := snd (processar_exemplo "sem anexo" w1) in
  let w3 := snd (processar_exemplo "sim" w2) in
  estado (conversa w1) = "solicitacao_anexo"
  /\ estado (conversa w2) = "confirmacao"
  /\ estado (conversa w3) = "finalizado"
  /\ map (fun a => (Agendamento.id a, Agendamento.status a)) (agendamentos (banco w1))
     = [(1, "agendado"); (2, "pendente_anexo")]
  /\ map (fun a => (Agendamento.id a, Agendamento.status a)) (agendamentos (banco w3))
     = [(1, "agendado"); (2, "pendente_anexo"); (3, "agendado")].
Proof. intros w0 w1 w2 w3. repeat split; vm_compute; reflexivity. Qed.

(** C7: in the cancellation flow, the 11 digits of an unknown patient get a
    failure reply that names 'inicio' as the next state, but the conversation
    stays in 'cancelamento': the next message, "agendar", is answered by the
    CPF prompt of the cancellation flow, not by the start handler. *)
Theorem C7_conversa_nao_reiniciada :
  let w := mkMundo (mkConversa "cancelamento" ∅ None) banco_exemplo in
  let w' := snd (processar_exemplo "98765432100" w) in
  fst (processar_exemplo "98765432100" w)
  = Ok (Some (resposta false (Formatado "cpf_nao_encontrado_sem_cadastro") "texto" "inicio"))
  /\ estado (conversa w') = "cancelamento"
  /\ fst (processar_exemplo "agendar" w')
     = Ok (Some (resposta false
                   (Literal "CPF inválido. Por favor, digite apenas os 11 números do CPF:")
                   "texto" "aguardando_cpf"))
  /\ estado (conversa (snd (processar_exemplo "agendar" w'))) = "cancelamento"
  /\ fst (_processar_inicio lower_ascii strip_ascii sem_gemini "agendar" w')
     = Ok (resposta true (Formatado "boas_vindas") "texto" "aguardando_cpf").
Proof. intros w w'. repeat split; vm_compute; reflexivity. Qed.



(** ** Instances of the further properties *)

Lemma X4_lista_e_permutacao_witness :
  exists horarios,
    laco_dias mktime_utc hoje_exemplo agora_exemplo banco_exemplo (range 50) rows_exemplo []
    = Some horarios
    /\ slots_exemplo ≡ₚ horarios
    /\ StronglySorted ordem slots_exemplo
    /\ (length horarios <= 5)%nat.
Proof.
  eexists. split; [vm_compute; reflexivity|].
  apply (X4_lista_e_permutacao mktime_utc hoje_exemplo agora_exemplo banco_exemplo rows_exemplo).
  vm_compute; reflexivity.
Defined.

Lemma X6_create_id_novo_witness :
  exists a w',
    Agendamento_create (Some 1) (Some 1) (Some 1) (Some 1) (Some "2026-11-05") (Some "08:00")
      None None None None (mundo_exemplo "confirmacao" ∅) = (Ok a, w')
    /\ Agendamento_find_by_id (banco w') (Agendamento.id a) = Some a
    /\ Agendamento.status a = "agendado".
Proof.
  destruct (Agendamento_create (Some 1) (Some 1) (Some 1) (Some 1) (Some "2026-11-05")
              (Some "08:00") None None None None (mundo_exemplo "confirmacao" ∅))
    as [[a|e] w'] eqn:H; [|vm_compute in H; discriminate H].
  exists a, w'. split; [reflexivity|].
  destruct (X6_create_id_novo _ _ _ _ _ _ _ _ _ _ _ _ _ H)
    as (_ & _ & _ & Hfind & _ & _ & _ & _ & _ & _ & _ & Hstatus).
  split; [exact Hfind|exact Hstatus].
Defined.


Lemma X8_temporario_nao_bloqueia_witness :
  exists a w',
    Agendamento_create (Some 1) (Some 2) (Some 2) (Some 1) (Some "2026-11-04") (Some "14:00")
      None (Some "pendente_anexo") None None (mundo_exemplo "horarios" ∅) = (Ok a, w')
    /\ (forall m d t, _verificar_disponibilidade_slot_simples (banco w') m d t
                      = _verificar_disponibilidade_slot_simples banco_exemplo m d t)
    /\ forall rows,
         _gerar_horarios_disponiveis mktime_utc hoje_exemplo agora_exemplo (banco w') rows
         = _gerar_horarios_disponiveis mktime_utc hoje_exemplo agora_exemplo banco_exemplo rows.
Proof.
  destruct (Agendamento_create (Some 1) (Some 2) (Some 2) (Some 1) (Some "2026-11-04")
              (Some "14:00") None (Some "pendente_anexo") None None
              (mundo_exemplo "horarios" ∅))
    as [[a|e] w'] eqn:H; [|vm_compute in H; discriminate H].
  exists a, w'. split; [reflexivity|].
  apply (X8_temporario_nao_bloqueia mktime_utc hoje_exemplo agora_exemplo
           (Some 1) (Some 2) (Some 2) (Some 1) (Some "2026-11-04") (Some "14:00")
           None None None "pendente_anexo" (mundo_exemplo "horarios" ∅) w' a);
    [discriminate|exact H].
Defined.

Lemma X13_cadastro_concluido_witness :
  let w := mundo_exemplo "cadastro" (rascunho_cadastro "carteirinha") in
  exists r p w',
    _processar_cadastro lower_ascii strip_ascii sem_datas sem_email hoje_exemplo "particular"
      (rascunho_cadastro "carteirinha") w = (Ok (Some r), w')
    /\ estado (conversa w') = "local"
    /\ pacientes (banco w') = (pacientes banco_exemplo ++ [p])%list
    /\ Paciente.cpf p = "98765432100"
    /\ Paciente.tipo_atendimento p = "particular".
Proof.
  intros w.
  destruct (proj2 (X13_cadastro_concluido lower_ascii strip_ascii sem_datas sem_email
                     hoje_exemplo "particular" (rascunho_cadastro "carteirinha") w
                     "98765432100" "Bia Lima" "31988887777"
                     eq_refl eq_refl eq_refl eq_refl eq_refl
                     (fun l H => ltac:(vm_compute in H; discriminate H))
                     (fun l H => ltac:(vm_compute in H; discriminate H))
                     eq_refl) eq_refl)
    as (r & p & w' & H1 & _ & H3 & _ & _ & H6 & H7 & _ & _ & H10 & _).
  exists r, p, w'. repeat split; assumption.
Defined.

Lemma X15_inicio_e_estado_desconhecido_witness :
  (let w := mundo_exemplo "finalizado" (rascunho_cadastro "nome") in
   processar_exemplo "exame" w
   = devolver (_processar_inicio lower_ascii strip_ascii sem_gemini "exame") w
   /\ dados (conversa (snd (processar_exemplo "exame" w))) = rascunho_cadastro "nome")
  /\ (let w := mundo_exemplo "pagamento" (rascunho_cadastro "nome") in
      processar_exemplo "exame" w
      = devolver (_processar_inicio lower_ascii strip_ascii sem_gemini "exame") (reiniciada w)
      /\ dados (conversa (snd (processar_exemplo "exame" w))) = ∅).
Proof.
  split; intros w.
  - apply (proj1 (X15_inicio_e_estado_desconhecido lower_ascii strip_ascii sem_datas sem_email
                    sem_gemini mktime_utc hoje_exemplo agora_exemplo "exame" w
                    eq_refl eq_refl)).
    simpl. tauto.
  - apply (proj2 (X15_inicio_e_estado_desconhecido lower_ascii strip_ascii sem_datas sem_email
                    sem_gemini mktime_utc hoje_exemplo agora_exemplo "exame" w
                    eq_refl eq_refl)).
    simpl. intros H. repeat (destruct H as [H|H]; [discriminate H|]). exact H.
Defined.

Lemma X16_sem_resposta_witness :
  let w := mundo_exemplo "cadastro" (rascunho_cadastro "endereco") in
  processar_exemplo "Rua A, 10" w = (Ok None, w)
  /\ estado (conversa w) = "cadastro".
Proof.
  intros w.
  assert (H : processar_exemplo "Rua A, 10" w = (Ok None, w)) by (vm_compute; reflexivity).
  split; [exact H|].
  exact (proj1 (proj2 (X16_sem_resposta lower_ascii strip_ascii sem_datas sem_email sem_gemini
                         mktime_utc hoje_exemplo agora_exemplo "Rua A, 10" w w H))).
Defined.

Lemma X18_link_sem_data_witness :
  let w := mundo_exemplo "solicitacao_anexo" rascunho_pediatria in
  rascunho_pediatria !! "data" = None
  /\ exists e,
       _processar_solicitacao_anexo lower_ascii strip_ascii "link" rascunho_pediatria w
       = (Raise e, w).
Proof.
  intros w. split; [vm_compute; reflexivity|].
  apply (X18_link_sem_data lower_ascii strip_ascii "link" rascunho_pediatria w).
  - vm_compute; reflexivity.
  - vm_compute; reflexivity.
  - vm_compute; reflexivity.
  - left. vm_compute; reflexivity.
Defined.

Lemma X22_cancelamento_por_numero_witness :
  let w := mundo_exemplo "cancelamento" {[ "agendamentos_para_cancelar" := JLista [1] ]} in
  exists r w',
    _processar_cancelamento lower_ascii strip_ascii " 1 " w = (Ok r, w')
    /\ success r = true
    /\ estado (conversa w') = "finalizado"
    /\ dados (conversa w') = ∅
    /\ (forall x, In x (agendamentos (banco w')) -> Agendamento.id x = 1 ->
          Agendamento.status x = "cancelado"
          /\ Agendamento.motivo_cancelamento x = Some "Cancelado pelo paciente via chatbot").
Proof.
  intros w.
  destruct (proj2 (X22_cancelamento_por_numero lower_ascii strip_ascii " 1 " w [1] 1
                     ltac:(vm_compute; reflexivity) ltac:(vm_compute; reflexivity))
              1 (Agendamento.mk 1 1 1 1 1 "2026-11-03" "09:00" None "agendado" None None None)
              ltac:(simpl; lia) eq_refl ltac:(vm_compute; reflexivity) eq_refl)
    as (r & w' & H1 & H2 & H3 & H4 & _ & H6 & _).
  exists r, w'. repeat split; try assumption; by apply H6.
Defined.


Lemma X14_cpf_identifica_witness :
  let w := mkMundo (mkConversa "aguardando_cpf" ∅ None) banco_exemplo in
  let w' := snd (_processar_cpf lower_ascii "123.456.789-01" w) in
  isascii "123.456.789-01" = true
  /\ paciente_id (conversa w') = Some 1
  /\ banco w' = banco w
  /\ (paciente_id (conversa w') = paciente_id (conversa w)
      \/ exists p, In p (pacientes (banco w))
           /\ Paciente.cpf p = so_digitos "123.456.789-01"
           /\ String.length (so_digitos "123.456.789-01") = 11%nat
           /\ paciente_id (conversa w') = Some (Paciente.id p)).
Proof.
  intros w w'. split; [reflexivity|]. split; [vm_compute; reflexivity|].
  destruct (X14_cpf_identifica lower_ascii "123.456.789-01" w eq_refl) as (H1 & H2 & _).
  split; [exact H1|exact H2].
Defined.

Lemma X19_cpf_e_telefone_so_digitos_witness :
  _extrair_cpf "CPF: 123.456.789-01" = Some "12345678901"
  /\ forallb eh_digito (list_ascii_of_string "12345678901") = true
  /\ String.length "12345678901" = 11%nat
  /\ _extrair_cpf "12345678901" = Some "12345678901".
Proof.
  split; [reflexivity|].
  exact (proj1 (X19_cpf_e_telefone_so_digitos "CPF: 123.456.789-01" eq_refl)
           "12345678901" eq_refl).
Defined.

Lemma X21_escolha_pertence_a_lista_witness :
  numero_match (strip_ascii " 2 ") = Some 2
  /\ _interpretar_escolha_horario strip_ascii agora_exemplo " 2 " slots_exemplo
     = (if (1 <=? 2) && (2 <=? Z.of_nat (length slots_exemplo))
        then slots_exemplo !! Z.to_nat (2 - 1) else None)
  /\ (2 < 1 \/ Z.of_nat (length slots_exemplo) < 2 ->
      _interpretar_escolha_horario strip_ascii agora_exemplo " 2 " slots_exemplo = None).
Proof.
  split; [vm_compute; reflexivity|].
  apply (proj1 (proj2 (X21_escolha_pertence_a_lista strip_ascii agora_exemplo " 2 "
                         slots_exemplo eq_refl eq_refl)) 2).
  vm_compute; reflexivity.
Defined.
